(** * Firmware update application for B&R APC/PPC2100 (openPOWERLINK)

    A shallow embedding of [apps/firmware_update/src/main.c]: the option
    parser, the chunked image transfer to the kernel stack, the two
    callers of the transfer, and [main].

    The C code talks to three things it does not implement: the
    openPOWERLINK stack ([oplk_*]), the system layer ([system_*]) and the
    C library ([getopt], [malloc], [fopen], ...).  They are gathered in
    the [Platform] interface below.  The general results hold for an
    arbitrary platform; a small simulated platform runs the application
    on concrete inputs. *)

From Stdlib Require Import ZArith List String Ascii Lia Bool.
From stdpp Require Import base gmap sets list strings.
Import ListNotations.
Open Scope Z_scope.

(** ** C integer types *)

(** [UINT], [UINT32]: 32-bit unsigned. *)
Definition to_UINT (z : Z) : Z := z mod 2 ^ 32.

(** [int]: 32-bit two's complement. *)
Definition to_int (z : Z) : Z := (z + 2 ^ 31) mod 2 ^ 32 - 2 ^ 31.

(** [size_t]: 32 or 64 bits, by the data model of the platform. *)
Definition size_t_bits (lp64 : bool) : Z := if lp64 then 64 else 32.
Definition to_size_t (lp64 : bool) (z : Z) : Z := z mod 2 ^ size_t_bits lp64.

(** The code of a character, as [getopt] returns it and as the [case]
    labels of [getOptions] compare it. *)
Definition char_code (c : ascii) : Z := Z.of_nat (nat_of_ascii c).

(** ** Types of the stack API used by the application *)

(** [tOplkError]: only two enumerators are named by the application; the
    stack may answer with any other one. *)
Inductive tOplkError : Type :=
| kErrorOk
| kErrorNoResource
| kErrorOther (code : Z).

Definition is_kErrorOk (e : tOplkError) : bool :=
  match e with kErrorOk => true | _ => false end.

(** [tOplkApiFileChunkDesc]; [length_] is its field [length] (the name
    is taken by the length of lists). *)
Record tOplkApiFileChunkDesc : Type := mkDesc {
  fFirst : bool;
  fLast : bool;
  offset : Z;
  length_ : Z
}.

(** [tOplkApiStackInfo]; the application only prints it. *)
Record tOplkApiStackInfo : Type := mkStackInfo {
  userVersion : Z;
  userFeature : Z;
  kernelVersion : Z;
  kernelFeature : Z
}.

(** ** Local types and constants of main.c *)

Definition FIRMWARE_HEADER_SIZE : Z := 32.

(** [tOptions]; [firmwareFile] is the [char[256]] array itself. *)
Record tOptions : Type := mkOptions {
  firmwareFile : list ascii;
  fUpdateImage : bool;
  fInvalidateUpdateImage : bool;
  fFactoryReset : bool;
  fUpdateReset : bool
}.

Definition set_firmwareFile (v : list ascii) (o : tOptions) : tOptions :=
  mkOptions v (fUpdateImage o) (fInvalidateUpdateImage o) (fFactoryReset o) (fUpdateReset o).
Definition set_fUpdateImage (v : bool) (o : tOptions) : tOptions :=
  mkOptions (firmwareFile o) v (fInvalidateUpdateImage o) (fFactoryReset o) (fUpdateReset o).
Definition set_fInvalidateUpdateImage (v : bool) (o : tOptions) : tOptions :=
  mkOptions (firmwareFile o) (fUpdateImage o) v (fFactoryReset o) (fUpdateReset o).
Definition set_fFactoryReset (v : bool) (o : tOptions) : tOptions :=
  mkOptions (firmwareFile o) (fUpdateImage o) (fInvalidateUpdateImage o) v (fUpdateReset o).
Definition set_fUpdateReset (v : bool) (o : tOptions) : tOptions :=
  mkOptions (firmwareFile o) (fUpdateImage o) (fInvalidateUpdateImage o) (fFactoryReset o) v.

(** ** C library helpers on buffers and strings *)

Definition NUL : ascii := Ascii.zero.

(** [memset(&opts, 0, sizeof(tOptions))] *)
Definition zero_options : tOptions :=
  mkOptions (repeat NUL 256) false false false false.

(** [strncpy(dst, src, n)] writes exactly [n] characters: those of the C
    string [src], cut at [n], then NUL padding.  No terminator is written
    when [src] has [n] characters or more. *)
Definition strncpy (src : string) (n : nat) : list ascii :=
  take n (list_ascii_of_string src ++ repeat NUL n).

(** The C string held by a character array: the characters before the
    first NUL.  When the array holds none the C code reads on past its
    end; the model stops there. *)
Fixpoint c_str (a : list ascii) : string :=
  match a with
  | [] => EmptyString
  | c :: a' => if Ascii.eqb c NUL then EmptyString else String c (c_str a')
  end.

(** [memcpy(dst, src, n)]: the first [n] bytes of [dst] are replaced. *)
Definition memcpy (dst src : list Byte.byte) (n : Z) : list Byte.byte :=
  take (Z.to_nat n) src ++ drop (Z.to_nat n) dst.

(** [memset(a, 0xFF, n)] on a whole array of [n] bytes. *)
Definition memset_FF (n : Z) : list Byte.byte := repeat Byte.xff (Z.to_nat n).

(** ** The platform *)

(** One answer of [getopt]: the returned code and [optarg]. *)
Definition getopt_result : Type := (Z * string)%type.

(** The interface of everything the application calls and does not
    define.  [S] is the state of the outside world (device, stack, file
    system, allocator); each operation may change it.

    [getopt_ext argc argv optstring] is the list of answers that the
    successive calls of [getopt] give before it answers -1.

    [uninit_byte] and [uninit_ptr] give the indeterminate value held by
    memory returned by [malloc] and by a pointer variable declared
    without initialiser. *)
Class Platform (S : Type) : Type := {
  lp64 : bool;
  getopt_ext : Z -> list string -> string -> list getopt_result;
  system_init_ext : S -> Z * S;
  system_exit_ext : S -> S;
  oplk_getVersionString_ext : S -> string;
  oplk_initialize_ext : S -> tOplkError * S;
  oplk_getStackInfo_ext : S -> tOplkError * tOplkApiStackInfo * S;
  oplk_serviceGetFileChunkSize_ext : S -> Z * S;
  oplk_serviceWriteFileChunk_ext :
    tOplkApiFileChunkDesc -> list Byte.byte -> S -> tOplkError * S;
  oplk_serviceExecFirmwareReconfig_ext : bool -> S -> tOplkError * S;
  oplk_exit_ext : S -> S;
  malloc_ext : Z -> S -> bool * S;
  uninit_byte : S -> nat -> Byte.byte;
  uninit_ptr : S -> option nat;
  fopen_ext : string -> S -> bool * S;
  ftell_end_ext : nat -> S -> Z * S;
  fread_ext : nat -> Z -> S -> list Byte.byte * S;
  fclose_ext : nat -> S -> S
}.

(** A call that crosses the interface, with its arguments and answer. *)
Inductive Call : Type :=
| Call_system_init (r : Z)
| Call_system_exit
| Call_initialize (r : tOplkError)
| Call_getStackInfo (r : tOplkError)
| Call_getFileChunkSize (r : Z)
| Call_writeFileChunk (desc : tOplkApiFileChunkDesc) (pChunk : list Byte.byte) (r : tOplkError)
| Call_execFirmwareReconfig (fFactory : bool) (r : tOplkError)
| Call_oplk_exit.

Inductive Stream : Type := Stdout | Stderr.

Section Application.

Context {S : Type} `{Platform S}.

(** The state of a run: the outside world, the [opts] object of [main]
    (which [getOptions] reaches through [pOpts_p]), the heap blocks and
    [FILE] handles currently owned by the process, the text printed so
    far (format strings, unformatted), and the calls made so far, oldest
    first. *)
Record State : Type := mkState {
  st_plat : S;
  st_opts : tOptions;
  st_heap : gset nat;
  st_files : gset nat;
  st_out : list (Stream * string);
  st_calls : list Call
}.

Definition with_plat (p : S) (s : State) : State :=
  mkState p (st_opts s) (st_heap s) (st_files s) (st_out s) (st_calls s).
Definition with_opts (o : tOptions) (s : State) : State :=
  mkState (st_plat s) o (st_heap s) (st_files s) (st_out s) (st_calls s).
Definition with_heap (h : gset nat) (s : State) : State :=
  mkState (st_plat s) (st_opts s) h (st_files s) (st_out s) (st_calls s).
Definition with_files (f : gset nat) (s : State) : State :=
  mkState (st_plat s) (st_opts s) (st_heap s) f (st_out s) (st_calls s).
Definition with_out (o : list (Stream * string)) (s : State) : State :=
  mkState (st_plat s) (st_opts s) (st_heap s) (st_files s) o (st_calls s).
Definition with_calls (c : list Call) (s : State) : State :=
  mkState (st_plat s) (st_opts s) (st_heap s) (st_files s) (st_out s) c.

(** ** A state monad with divergence and undefined behaviour

    A run returns a value in a new state, or is a loop that was cut
    before it ended ([OutOfFuel]), or reaches an operation whose
    behaviour C leaves undefined ([Undefined], with the state in which
    it was reached; nothing is said of what happens after). *)
Inductive Outcome (A : Type) : Type :=
| Returns (r : A * State)
| OutOfFuel
| Undefined (s : State).

Arguments Returns {A} r.
Arguments OutOfFuel {A}.
Arguments Undefined {A} s.

Definition M (A : Type) : Type := State -> Outcome A.

Definition pure {A : Type} (a : A) : M A := fun s => Returns (a, s).

Definition bind {A B : Type} (m : M A) (k : A -> M B) : M B :=
  fun s => match m s with
           | Returns (a, s') => k a s'
           | OutOfFuel => OutOfFuel
           | Undefined s' => Undefined s'
           end.

Definition diverge {A : Type} : M A := fun _ => OutOfFuel.

Notation "'let*' x ':=' m 'in' k" := (bind m (fun x => k))
  (at level 10, x name, m at level 100, k at level 200).
Notation "'let*' ' pat ':=' m 'in' k" := (bind m (fun x => match x with pat => k end))
  (at level 10, pat pattern, m at level 100, k at level 200).
Notation "'do' m 'then' k" := (bind m (fun _ => k))
  (at level 10, m at level 100, k at level 200).

(** A call of an external operation: the world moves and the call is
    recorded. *)
Definition extcall {A : Type} (op : S -> A * S) (log : A -> Call) : M A :=
  fun s => let '(a, p) := op (st_plat s) in
           Returns (a, with_calls (st_calls s ++ [log a]) (with_plat p s)).

(** *** Output

    What is recorded is the stream and the format string; the arguments
    are not formatted (the progress percentage, computed in [float] by
    the C code, is not modelled). *)

Definition printf (fmt : string) : M unit :=
  fun s => Returns (tt, with_out (st_out s ++ [(Stdout, fmt)]) s).

Definition fprintf_stderr (fmt : string) : M unit :=
  fun s => Returns (tt, with_out (st_out s ++ [(Stderr, fmt)]) s).

(** *** Stack and system calls *)

Definition system_init : M Z := extcall system_init_ext Call_system_init.

Definition system_exit : M unit :=
  extcall (fun p => (tt, system_exit_ext p)) (fun _ => Call_system_exit).

Definition oplk_getVersionString : M string :=
  fun s => Returns (oplk_getVersionString_ext (st_plat s), s).

Definition oplk_initialize : M tOplkError :=
  extcall oplk_initialize_ext Call_initialize.

Definition oplk_getStackInfo : M (tOplkError * tOplkApiStackInfo) :=
  extcall oplk_getStackInfo_ext (fun r => Call_getStackInfo (fst r)).

Definition oplk_serviceGetFileChunkSize : M Z :=
  extcall (fun p => let '(r, p') := oplk_serviceGetFileChunkSize_ext p in
                    (to_size_t lp64 r, p'))
          Call_getFileChunkSize.

Definition oplk_serviceWriteFileChunk
    (desc : tOplkApiFileChunkDesc) (pChunk : list Byte.byte) : M tOplkError :=
  extcall (oplk_serviceWriteFileChunk_ext desc pChunk)
          (Call_writeFileChunk desc pChunk).

Definition oplk_serviceExecFirmwareReconfig (fFactory : bool) : M tOplkError :=
  extcall (oplk_serviceExecFirmwareReconfig_ext fFactory)
          (Call_execFirmwareReconfig fFactory).

Definition oplk_exit : M unit :=
  extcall (fun p => (tt, oplk_exit_ext p)) (fun _ => Call_oplk_exit).

(** *** Heap and files

    A pointer is [None] (NULL) or the identifier of a block; a block
    returned by [malloc] is new and holds indeterminate bytes.  [free]
    takes a block the process holds; on any other pointer its behaviour
    is undefined.  The same goes for [fclose] and [FILE] handles. *)
Definition malloc (size : Z) : M (option (nat * list Byte.byte)) :=
  fun s => let '(ok, p) := malloc_ext size (st_plat s) in
           if ok
           then let b := fresh (st_heap s) in
                Returns (Some (b, map (uninit_byte p) (seq 0 (Z.to_nat size))),
                         with_heap ({[b]} ∪ st_heap s) (with_plat p s))
           else Returns (None, with_plat p s).

Definition free (b : nat) : M unit :=
  fun s => if decide (b ∈ st_heap s)
           then Returns (tt, with_heap (st_heap s ∖ {[b]}) s)
           else Undefined s.

Definition fopen_rb (path : string) : M (option nat) :=
  fun s => let '(ok, p) := fopen_ext path (st_plat s) in
           if ok
           then let h := fresh (st_files s) in
                Returns (Some h, with_files ({[h]} ∪ st_files s) (with_plat p s))
           else Returns (None, with_plat p s).

(** [fseek(pFile, 0, SEEK_END); ftell(pFile); rewind(pFile)] *)
Definition ftell_end (h : nat) : M Z :=
  fun s => let '(r, p) := ftell_end_ext h (st_plat s) in Returns (r, with_plat p s).

(** [fread(buf, 1, count, pFile)]: at most [count] bytes are stored at
    the start of [buf]; the number of bytes read is returned. *)
Definition fread (buf : list Byte.byte) (count : Z) (h : nat) : M (Z * list Byte.byte) :=
  fun s => let '(d, p) := fread_ext h count (st_plat s) in
           let d' := take (Z.to_nat count) d in
           let n := Z.of_nat (length d') in
           Returns ((n, memcpy buf d' n), with_plat p s).

Definition fclose (h : nat) : M unit :=
  fun s => if decide (h ∈ st_files s)
           then Returns (tt, with_files (st_files s ∖ {[h]})
                                        (with_plat (fclose_ext h (st_plat s)) s))
           else Undefined s.

(** The value of a pointer variable declared without initialiser, read
    before anything was assigned to it. *)
Definition uninitialised_pointer : M (option nat) :=
  fun s => Returns (uninit_ptr (st_plat s), s).

(** *** The [opts] object of [main] *)

Definition get_opts : M tOptions := fun s => Returns (st_opts s, s).

Definition modify_opts (f : tOptions -> tOptions) : M unit :=
  fun s => Returns (tt, with_opts (f (st_opts s)) s).

(** ** getOptions (main.c, lines 234-282) *)

Definition usage : string :=
  "Usage: %s [COMMAND] \n-d <UPDATE_IMAGE>: Download update image to IF card\n-e : Invalidate the existing update image\n-f : Reset to factory image\n-u : Reset to update image\n".

(** The [while ((opt = getopt(...)) != -1) switch (opt)] loop, over the
    answers of [getopt]. *)
Fixpoint getOptions_loop (answers : list getopt_result) : M Z :=
  match answers with
  | [] => pure 0
  | (opt, optarg) :: rest =>
      if opt =? char_code "d" then
        do modify_opts (set_firmwareFile (strncpy optarg 256)) then
        do modify_opts (set_fUpdateImage true) then
        getOptions_loop rest
      else if opt =? char_code "e" then
        do modify_opts (set_fInvalidateUpdateImage true) then
        getOptions_loop rest
      else if opt =? char_code "f" then
        do modify_opts (set_fFactoryReset true) then
        do modify_opts (set_fUpdateReset false) then
        getOptions_loop rest
      else if opt =? char_code "u" then
        do modify_opts (set_fFactoryReset false) then
        do modify_opts (set_fUpdateReset true) then
        getOptions_loop rest
      else
        do printf usage then
        pure (-1)
  end.

Definition getOptions (argc_p : Z) (argv_p : list string) : M Z :=
  do (if argc_p =? 1
      then do modify_opts (set_firmwareFile (strncpy "image.bin" 256)) then
           do modify_opts (set_fUpdateImage true) then
           modify_opts (set_fUpdateReset true)
      else pure tt) then
  getOptions_loop (getopt_ext argc_p argv_p "d:efu").

(** ** writeImageToKernel (main.c, lines 381-441) *)

(** The [while (length_p)] loop.  [pImage_p] is what the pointer of that
    name points to, [pChunk] the contents of the chunk buffer.  The loop
    is cut after [fuel] iterations; [writeImageToKernel] gives it
    [length_p] of them, which [loop_spec] shows to be enough (every
    iteration takes at least one byte). *)
Fixpoint writeImageToKernel_loop (fuel : nat) (chunkSize : Z)
    (desc : tOplkApiFileChunkDesc) (pChunk pImage_p : list Byte.byte)
    (length_p : Z) : M tOplkError :=
  if length_p =? 0 then pure kErrorOk
  else
    match fuel with
    | O => diverge
    | Datatypes.S fuel' =>
        let desc :=
          if length_p <? chunkSize
          then mkDesc (fFirst desc) true (offset desc) length_p
          else mkDesc (fFirst desc) (fLast desc) (offset desc) (to_UINT chunkSize) in
        let pChunk := memcpy pChunk pImage_p (length_ desc) in
        let* ret := oplk_serviceWriteFileChunk desc pChunk in
        if negb (is_kErrorOk ret)
        then do printf "Writing file chunk failed (0x%X)!\n" then
             pure ret
        else
          let desc := mkDesc false (fLast desc)
                             (to_UINT (offset desc + length_ desc)) (length_ desc) in
          let pImage_p := drop (Z.to_nat (length_ desc)) pImage_p in
          let length_p := to_UINT (length_p - length_ desc) in
          do printf "\rProgress [%.0f%%]" then
          writeImageToKernel_loop fuel' chunkSize desc pChunk pImage_p length_p
    end.

Definition writeImageToKernel (pImage_p : list Byte.byte) (length_p : Z) : M tOplkError :=
  let* chunkSize := oplk_serviceGetFileChunkSize in
  if chunkSize =? 0
  then do printf "No file chunk transfer support available!\n" then
       pure kErrorNoResource
  else
    let* pChunk := malloc chunkSize in
    match pChunk with
    | None => pure kErrorNoResource
    | Some (b, chunk) =>
        let desc := mkDesc true false 0 0 in
        let* ret := writeImageToKernel_loop (Z.to_nat length_p) chunkSize desc
                                            chunk pImage_p length_p in
        do free b then
        pure ret
    end.

(** ** invalidateImage (main.c, lines 293-303) *)

Definition invalidateImage : M tOplkError :=
  let aInvalidHeader := memset_FF FIRMWARE_HEADER_SIZE in
  writeImageToKernel aInvalidHeader FIRMWARE_HEADER_SIZE.

(** ** updateImage (main.c, lines 316-367)

    [pImage] is declared without initialiser; on the path of the empty
    file the test at [Exit] reads it before any assignment. *)
Definition updateImage (pszFirmwareFile_p : list ascii) : M tOplkError :=
  let* pImage := uninitialised_pointer in
  let* pFile := fopen_rb (c_str pszFirmwareFile_p) in
  match pFile with
  | None =>
      do printf "Unable to open file %s\n" then
      pure kErrorNoResource
  | Some h =>
      let* pos := ftell_end h in
      let fileSize := to_int pos in
      let* ' (ret, pImage) :=
        if fileSize =? 0
        then do printf "File is empty!\n" then
             pure (kErrorNoResource, pImage)
        else
          let* m := malloc (to_size_t lp64 fileSize) in
          match m with
          | None => pure (kErrorNoResource, None)
          | Some (b, image) =>
              let* ' (readSize, image) := fread image (to_size_t lp64 fileSize) h in
              if negb (readSize =? to_size_t lp64 fileSize)
              then do printf "Unable to read file %s\n" then
                   pure (kErrorNoResource, Some b)
              else
                let* ret := writeImageToKernel image (to_UINT fileSize) in
                pure (ret, Some b)
          end in
      do match pImage with
         | Some b => free b
         | None => pure tt
         end then
      do fclose h then
      pure ret
  end.

(** ** main (main.c, lines 121-210) *)

(** The label [Exit] of [main]. *)
Definition main_Exit : M Z :=
  do system_exit then
  pure 0.

(** Everything [main] does after [getOptions] has succeeded. *)
Definition main_run : M Z :=
  let* rc := system_init in
  if negb (rc =? 0)
  then do fprintf_stderr "Error initializing system!" then
       pure 0
  else
    do printf "----------------------------------------------------\n" then
    do printf "Firmware Update application for B&R APC/PPC2100\n" then
    do printf "for openPOWERLINK Stack: %s\n" then
    do printf "----------------------------------------------------\n" then
    let* ret := oplk_initialize in
    if negb (is_kErrorOk ret)
    then do printf "Failed to initialize openPOWERLINK (ret = 0x%X)!\n" then
         main_Exit
    else
      let* info := oplk_getStackInfo in
      if negb (is_kErrorOk (fst info))
      then do printf "Failed to get stack information (ret = 0x%X)!\n" then
           main_Exit
      else
        do printf "User stack version:     0x%08X\n" then
        do printf "User stack feature:     0x%08X\n" then
        do printf "Kernel stack version:   0x%08X\n" then
        do printf "Kernel stack feature:   0x%08X\n" then
        let* opts := get_opts in
        let* ret := (if fInvalidateUpdateImage opts
                     then invalidateImage
                     else pure kErrorOk) in
        if negb (is_kErrorOk ret)
        then do printf "Failed to invalidate image (ret = 0x%X)!\n" then
             do oplk_exit then
             main_Exit
        else
          do (if fInvalidateUpdateImage opts
              then printf "\nFirmware invalidated successfully\n"
              else pure tt) then
          let* opts := get_opts in
          let* ret := (if fUpdateImage opts
                       then updateImage (firmwareFile opts)
                       else pure kErrorOk) in
          if negb (is_kErrorOk ret)
          then do printf "Failed to update image (ret = 0x%X)!\n" then
               do oplk_exit then
               main_Exit
          else
            let* opts := get_opts in
            let* ret := (if fFactoryReset opts || fUpdateReset opts
                         then do printf "\nIssue firmware reconfiguration to %s image...\n" then
                              oplk_serviceExecFirmwareReconfig (fFactoryReset opts)
                         else pure kErrorOk) in
            if negb (is_kErrorOk ret)
            then do printf "Failed to execute firmware reconfiguration (ret = 0x%X)!\n" then
                 do oplk_exit then
                 main_Exit
            else
              do (if fFactoryReset opts || fUpdateReset opts
                  then printf "Done\n"
                  else pure tt) then
              do oplk_exit then
              main_Exit.

Definition main (argc : Z) (argv : list string) : M Z :=
  do modify_opts (fun _ => zero_options) then
  let* r := getOptions argc argv in
  if r =? -1
  then pure (-1)
  else main_run.

End Application.

Arguments State S : clear implicits.
Arguments Outcome S A : clear implicits.
Arguments Returns {S A} r.
Arguments OutOfFuel {S A}.
Arguments Undefined {S A} s.
Arguments M S A : clear implicits.

(** ** A simulated platform

    A small deterministic world on which the application can be run: a
    device that takes chunks of a fixed size and may refuse one of them,
    a file system with named files, an allocator that can be made to
    fail. *)
Module Simulated.

(** Modelled from the spec: [getopt] is not under src/.  The flags are
    those of the spec's section 6 ([-d <file>], [-e], [-f], [-u]; any
    other flag is unknown and answered with '?'), read with the usual
    conventions of [getopt]: flags may be grouped behind one dash, the
    argument of a flag is the rest of its word or the next word, and the
    scan ends at the first word that is not a flag or at [--]. *)
Fixpoint lookup_opt (optstring : list ascii) (c : ascii) : option bool :=
  match optstring with
  | [] => None
  | o :: rest =>
      if Ascii.eqb o c
      then Some match rest with
                | ":"%char :: _ => true
                | _ => false
                end
      else lookup_opt rest c
  end.

(** Modelled from the spec: the flags of one word of the command line
    (the part after its dash), and the flag left waiting for its
    argument when the word ends with one that takes an argument. *)
Fixpoint scan_word (optstring : list ascii) (w : list ascii)
    : list getopt_result * option ascii :=
  match w with
  | [] => ([], None)
  | c :: w' =>
      match (if Ascii.eqb c ":" then None else lookup_opt optstring c) with
      | Some true =>
          match w' with
          | [] => ([], Some c)
          | _ => ([(char_code c, string_of_list_ascii w')], None)
          end
      | Some false =>
          let '(r, pending) := scan_word optstring w' in
          ((char_code c, EmptyString) :: r, pending)
      | None =>
          let '(r, pending) := scan_word optstring w' in
          ((char_code "?", EmptyString) :: r, pending)
      end
  end.

(** Modelled from the spec: the answers of [getopt] for the words after
    the program name. *)
Fixpoint scan_words (optstring : list ascii) (words : list string)
    : list getopt_result :=
  match words with
  | [] => []
  | w :: rest =>
      match list_ascii_of_string w with
      | "-"%char :: (c :: w') =>
          if (Ascii.eqb c "-" && match w' with [] => true | _ => false end)%bool
          then []
          else
            let '(r, pending) := scan_word optstring (c :: w') in
            match pending with
            | None => r ++ scan_words optstring rest
            | Some o =>
                match rest with
                | [] => r ++ [(char_code "?", EmptyString)]
                | v :: rest' => r ++ (char_code o, v) :: scan_words optstring rest'
                end
            end
      | _ => []
      end
  end.

(** Modelled from the spec: the answers of [getopt(argc, argv,
    optstring)] before it answers -1. *)
Definition getopt (argc : Z) (argv : list string) (optstring : string)
    : list getopt_result :=
  scan_words (list_ascii_of_string optstring)
             (take (Z.to_nat (argc - 1)) (tail argv)).

(** The state of the simulated world. *)
Record World : Type := mkWorld {
  w_chunkSize : Z;
  w_refuse : option (nat * tOplkError);
  w_written : list (tOplkApiFileChunkDesc * list Byte.byte);
  w_fs : list (string * list Byte.byte);
  w_opened : list Byte.byte;
  w_malloc : bool;
  w_garbage : option nat;
  w_ftell : option Z
}.

Definition write_chunk (d : tOplkApiFileChunkDesc) (c : list Byte.byte) (w : World)
    : tOplkError * World :=
  let w' := mkWorld (w_chunkSize w) (w_refuse w) (w_written w ++ [(d, c)])
                    (w_fs w) (w_opened w) (w_malloc w) (w_garbage w) (w_ftell w) in
  match w_refuse w with
  | Some (n, e) => if Nat.eqb n (length (w_written w)) then (e, w) else (kErrorOk, w')
  | None => (kErrorOk, w')
  end.

Fixpoint find_file (fs : list (string * list Byte.byte)) (path : string)
    : option (list Byte.byte) :=
  match fs with
  | [] => None
  | (n, d) :: fs' => if String.eqb n path then Some d else find_file fs' path
  end.

Definition open_file (path : string) (w : World) : bool * World :=
  match find_file (w_fs w) path with
  | Some d => (true, mkWorld (w_chunkSize w) (w_refuse w) (w_written w) (w_fs w)
                             d (w_malloc w) (w_garbage w) (w_ftell w))
  | None => (false, w)
  end.

#[export] Instance platform : Platform World := {|
  lp64 := true;
  getopt_ext := getopt;
  system_init_ext := fun w => (0, w);
  system_exit_ext := fun w => w;
  oplk_getVersionString_ext := fun _ => "V2"%string;
  oplk_initialize_ext := fun w => (kErrorOk, w);
  oplk_getStackInfo_ext := fun w => (kErrorOk, mkStackInfo 0 0 0 0, w);
  oplk_serviceGetFileChunkSize_ext := fun w => (w_chunkSize w, w);
  oplk_serviceWriteFileChunk_ext := write_chunk;
  oplk_serviceExecFirmwareReconfig_ext := fun _ w => (kErrorOk, w);
  oplk_exit_ext := fun w => w;
  malloc_ext := fun _ w => (w_malloc w, w);
  uninit_byte := fun _ _ => Byte.x00;
  uninit_ptr := w_garbage;
  fopen_ext := open_file;
  ftell_end_ext := fun _ w => (match w_ftell w with
                               | Some r => r
                               | None => Z.of_nat (length (w_opened w))
                               end, w);
  fread_ext := fun _ n w => (take (Z.to_nat n) (w_opened w), w);
  fclose_ext := fun _ w => w
|}.

(** A world with a device taking chunks of [c] bytes and the files [fs]. *)
Definition world (c : Z) (fs : list (string * list Byte.byte)) : World :=
  mkWorld c None [] fs [] true None None.

(** The same, where the [n]-th chunk written (from 0) is refused with [e]. *)
Definition refusing (c : Z) (n : nat) (e : tOplkError)
    (fs : list (string * list Byte.byte)) : World :=
  mkWorld c (Some (n, e)) [] fs [] true None None.

(** A world where, besides, an uninitialised pointer holds [g]. *)
Definition world_with_garbage (g : nat) (c : Z)
    (fs : list (string * list Byte.byte)) : World :=
  mkWorld c None [] fs [] true (Some g) None.

(** Sample images and files. *)
Definition image4 : list Byte.byte := [Byte.x01; Byte.x02; Byte.x03; Byte.x04].
Definition image5 : list Byte.byte :=
  [Byte.x01; Byte.x02; Byte.x03; Byte.x04; Byte.x05].
Definition empty_bin : list (string * list Byte.byte) := [("empty.bin"%string, [])].

(** The initial state of a run in a world. *)
Definition boot (w : World) : State World :=
  mkState w zero_options ∅ ∅ [] [].

End Simulated.

(** ** Further worlds

    The simulated world with an allocator that fails, and with a file
    system that reports more bytes than a file holds. *)

(** A world where [malloc] gives nothing. *)
Definition world_without_memory (c : Z) (fs : list (string * list Byte.byte))
    : Simulated.World :=
  Simulated.mkWorld c None [] fs [] false None None.

(** A world where the size reported for every file is [n]. *)
Definition world_reporting_size (n : Z) (c : Z) (fs : list (string * list Byte.byte))
    : Simulated.World :=
  Simulated.mkWorld c None [] fs [] true None (Some n).

(** A file name of 300 characters. *)
Definition long_name : string := string_of_list_ascii (repeat "a"%char 300).

(** ** A platform whose system layer may fail

    The simulated world, where [system_init] answers with a given code
    and an uninitialised pointer is always NULL. *)
Module Faulty.

Record World : Type := mkWorld {
  w_base : Simulated.World;
  w_system_init : Z
}.

Definition lift {A : Type} (op : Simulated.World -> A * Simulated.World) (w : World)
    : A * World :=
  let '(a, b) := op (w_base w) in (a, mkWorld b (w_system_init w)).

#[global] Instance platform : Platform World := {|
  lp64 := true;
  getopt_ext := Simulated.getopt;
  system_init_ext := fun w => (w_system_init w, w);
  system_exit_ext := fun w => w;
  oplk_getVersionString_ext := fun _ => "V2"%string;
  oplk_initialize_ext := fun w => (kErrorOk, w);
  oplk_getStackInfo_ext := fun w => (kErrorOk, mkStackInfo 0 0 0 0, w);
  oplk_serviceGetFileChunkSize_ext := fun w => (Simulated.w_chunkSize (w_base w), w);
  oplk_serviceWriteFileChunk_ext := fun d c => lift (Simulated.write_chunk d c);
  oplk_serviceExecFirmwareReconfig_ext := fun _ w => (kErrorOk, w);
  oplk_exit_ext := fun w => w;
  malloc_ext := fun _ w => (Simulated.w_malloc (w_base w), w);
  uninit_byte := fun _ _ => Byte.x00;
  uninit_ptr := fun _ => None;
  fopen_ext := fun path => lift (Simulated.open_file path);
  ftell_end_ext := fun h => lift (@ftell_end_ext Simulated.World Simulated.platform h);
  fread_ext := fun h n => lift (@fread_ext Simulated.World Simulated.platform h n);
  fclose_ext := fun _ w => w
|}.

(** The initial state of a run where [system_init] answers [rc]. *)
Definition boot (rc : Z) (w : Simulated.World) : State World :=
  mkState (mkWorld w rc) zero_options ∅ ∅ [] [].

End Faulty.

(** ** Observations on a run *)

(** One call of [oplk_serviceWriteFileChunk]: the descriptor, the
    contents of the chunk buffer, and the answer of the stack. *)
Record ChunkWrite : Type := mkChunkWrite {
  cw_desc : tOplkApiFileChunkDesc;
  cw_chunk : list Byte.byte;
  cw_ret : tOplkError
}.

Definition call_of_write (c : ChunkWrite) : Call :=
  Call_writeFileChunk (cw_desc c) (cw_chunk c) (cw_ret c).

Definition write_of_call (c : Call) : option ChunkWrite :=
  match c with
  | Call_writeFileChunk d b r => Some (mkChunkWrite d b r)
  | _ => None
  end.

(** The chunk writes among a list of calls, in order. *)
Definition chunk_writes (cs : list Call) : list ChunkWrite := omap write_of_call cs.

Definition reconfig_of_call (c : Call) : option bool :=
  match c with
  | Call_execFirmwareReconfig f _ => Some f
  | _ => None
  end.

(** The arguments of the reconfiguration requests among a list of calls. *)
Definition reconfig_calls (cs : list Call) : list bool := omap reconfig_of_call cs.

(** The calls made between two states of one run. *)
Definition new_calls {S : Type} (s s' : State S) : list Call :=
  drop (length (st_calls s)) (st_calls s').

(** The text printed between two states of one run. *)
Definition new_out {S : Type} (s s' : State S) : list (Stream * string) :=
  drop (length (st_out s)) (st_out s').

Definition cw_length (c : ChunkWrite) : Z := length_ (cw_desc c).
Definition cw_offset (c : ChunkWrite) : Z := offset (cw_desc c).

(** The bytes a call delivers: the first [length] bytes of the buffer. *)
Definition segment (c : ChunkWrite) : list Byte.byte :=
  take (Z.to_nat (cw_length c)) (cw_chunk c).

Definition delivered (cs : list ChunkWrite) : list Byte.byte :=
  concat (map segment cs).

Definition total_length (cs : list ChunkWrite) : Z :=
  fold_right Z.add 0 (map cw_length cs).

(** Each call starts where the previous one ended. *)
Fixpoint consecutive (off : Z) (cs : list ChunkWrite) : Prop :=
  match cs with
  | [] => True
  | c :: cs' => cw_offset c = off /\ consecutive (off + cw_length c) cs'
  end.

(** The calls deliver [img] piece by piece: each segment is the start of
    what the previous calls left. *)
Fixpoint slices (img : list Byte.byte) (cs : list ChunkWrite) : Prop :=
  match cs with
  | [] => True
  | c :: cs' =>
      segment c = take (Z.to_nat (cw_length c)) img /\
      (Z.to_nat (cw_length c) <= length img)%nat /\
      slices (drop (Z.to_nat (cw_length c)) img) cs'
  end.

(** The calls end at the first one that is refused, and [ret] is the
    answer of that one ([kErrorOk] when none is refused). *)
Fixpoint stops_at_failure (cs : list ChunkWrite) (ret : tOplkError) : Prop :=
  match cs with
  | [] => ret = kErrorOk
  | c :: cs' =>
      if is_kErrorOk (cw_ret c)
      then stops_at_failure cs' ret
      else cs' = [] /\ ret = cw_ret c
  end.

(** The first call carries [first] as its first flag, no later call
    carries the flag. *)
Definition first_flags (first : bool) (cs : list ChunkWrite) : Prop :=
  match cs with
  | [] => True
  | c :: cs' =>
      fFirst (cw_desc c) = first /\
      Forall (fun c' => fFirst (cw_desc c') = false) cs'
  end.

(** The chunk size a state of the world reports. *)
Definition reported_chunk_size {S : Type} `{Platform S} (s : State S) : Z :=
  to_size_t lp64 (fst (oplk_serviceGetFileChunkSize_ext (st_plat s))).

(** An answer of [getopt] that is one of the four flags of [getOptions]. *)
Definition known_flag (r : getopt_result) : bool :=
  (fst r =? char_code "d") || (fst r =? char_code "e")
  || (fst r =? char_code "f") || (fst r =? char_code "u").

(** An answer of [getopt] that is none of them: what [getopt] gives for
    a flag it does not know, and what takes the [default] case. *)
Definition unknown_flag (r : getopt_result) : Prop := known_flag r = false.

(** The last of [-f] and [-u] among the answers of [getopt]. *)
Definition is_reset_flag (r : getopt_result) : bool :=
  (fst r =? char_code "f") || (fst r =? char_code "u").

Definition last_reset_flag (answers : list getopt_result) : option Z :=
  last (map fst (filter (fun r => is_reset_flag r = true) answers)).

(** [m], run from any state whose options are [o], returns, leaves the
    options as they are, and its result and the reconfiguration requests
    among the calls it makes satisfy [R]. *)
Definition keeps_opts {S A : Type} (o : tOptions) (m : M S A)
    (R : A -> list bool -> Prop) : Prop :=
  forall s, st_opts s = o ->
    exists a s' l,
      m s = Returns (a, s') /\ st_opts s' = o /\
      st_calls s' = st_calls s ++ l /\ R a (reconfig_calls l).

(** [m], run from any state whose options are [o], ends: it returns, or
    it stops at an operation whose behaviour is undefined.  Either way
    the options are as they were; [R] holds of the result and of the
    reconfiguration requests made when it returns, [U] of the requests
    made when it stops. *)
Definition ends_with {S A : Type} (o : tOptions) (m : M S A)
    (R : A -> list bool -> Prop) (U : list bool -> Prop) : Prop :=
  forall s, st_opts s = o ->
    exists s' l,
      st_opts s' = o /\ st_calls s' = st_calls s ++ l /\
      ((exists a, m s = Returns (a, s') /\ R a (reconfig_calls l)) \/
       (m s = Undefined s' /\ U (reconfig_calls l))).

(** ** Further observations *)

(** Every call but the last carries a full chunk of [C] bytes. *)
Fixpoint full_but_last (C : Z) (cs : list ChunkWrite) : Prop :=
  match cs with
  | [] => True
  | c :: cs' => (cs' <> [] -> cw_length c = C) /\ full_but_last C cs'
  end.

(** Whether [malloc] gives [writeImageToKernel], run from [s], its chunk
    buffer: the answer of the allocator in the world that the query of
    the chunk size leaves. *)
Definition chunk_buffer_allocated {S : Type} `{Platform S} (s : State S) : bool :=
  let '(c, p) := oplk_serviceGetFileChunkSize_ext (st_plat s) in
  fst (malloc_ext (to_size_t lp64 c) p).

(** Whether the flag [c] is among the answers of [getopt]. *)
Definition has_flag (c : ascii) (answers : list getopt_result) : bool :=
  existsb (fun r => fst r =? char_code c) answers.

(** The argument of the last [-d] among the answers of [getopt]. *)
Definition last_file_argument (answers : list getopt_result) : option string :=
  last (map snd (filter (fun r => (fst r =? char_code "d") = true) answers)).

(** A string that can be the contents of a C string: it holds no NUL. *)
Definition is_c_string (name : string) : bool :=
  forallb (fun c => negb (Ascii.eqb c NUL)) (list_ascii_of_string name).

(** *** The calls of a whole run of [main] *)

(** The calls of one transfer that returned [ret]: the query of the
    chunk size, then chunk writes, all of them accepted when [ret] is
    [kErrorOk]. *)
Definition transfer_calls (l : list Call) (ret : tOplkError) : Prop :=
  exists C cs,
    l = Call_getFileChunkSize C :: map call_of_write cs /\
    (ret = kErrorOk -> Forall (fun c => cw_ret c = kErrorOk) cs).

(** The calls of the three steps that the options [o] select, each with
    what it returned; a step that is not selected makes no call.  An
    invalidation that returned [kErrorOk] has delivered the 32 bytes 0xFF
    of the invalid header. *)
Definition invalidation (o : tOptions) (l : list Call) (ret : tOplkError) : Prop :=
  if fInvalidateUpdateImage o
  then transfer_calls l ret /\
       (ret = kErrorOk -> delivered (chunk_writes l) = repeat Byte.xff 32)
  else l = [] /\ ret = kErrorOk.

Definition update (o : tOptions) (l : list Call) (ret : tOplkError) : Prop :=
  if fUpdateImage o
  then (l = [] /\ ret = kErrorNoResource) \/ transfer_calls l ret
  else l = [] /\ ret = kErrorOk.

Definition reconfiguration (o : tOptions) (l : list Call) : Prop :=
  if fFactoryReset o || fUpdateReset o
  then exists ret, l = [Call_execFirmwareReconfig (fFactoryReset o) ret]
  else l = [].

(** The calls between the query of the stack information and
    [oplk_exit]: the steps in their order, each one made only when the
    one before it returned [kErrorOk]. *)
Definition session (o : tOptions) (body : list Call) : Prop :=
  exists inv ri,
    invalidation o inv ri /\
    if is_kErrorOk ri
    then exists upd ru,
           update o upd ru /\
           if is_kErrorOk ru
           then exists rec, reconfiguration o rec /\ body = inv ++ upd ++ rec
           else body = inv ++ upd
    else body = inv.

(** The calls of a run of [main] that went past the parsing of the
    options and returned. *)
Definition main_calls (o : tOptions) (l : list Call) : Prop :=
  (exists rc, rc <> 0 /\ l = [Call_system_init rc]) \/
  (exists r, r <> kErrorOk /\
     l = [Call_system_init 0; Call_initialize r; Call_system_exit]) \/
  (exists r, r <> kErrorOk /\
     l = [Call_system_init 0; Call_initialize kErrorOk; Call_getStackInfo r;
          Call_system_exit]) \/
  (exists body, session o body /\
     l = Call_system_init 0 :: Call_initialize kErrorOk :: Call_getStackInfo kErrorOk
         :: body ++ [Call_oplk_exit; Call_system_exit]).

(** A call of one of the services of the stack that the three steps use:
    the query of the chunk size, a chunk write, a reconfiguration
    request. *)
Definition is_service_call (c : Call) : bool :=
  match c with
  | Call_getFileChunkSize _ | Call_writeFileChunk _ _ _
  | Call_execFirmwareReconfig _ _ => true
  | _ => false
  end.

(** A call that belongs to a transfer: the query of the chunk size or a
    chunk write. *)
Definition is_transfer_call (c : Call) : bool :=
  match c with
  | Call_getFileChunkSize _ | Call_writeFileChunk _ _ _ => true
  | _ => false
  end.

(** A character array that holds a NUL, so that it holds a C string.
    Only then is [c_str] what the C code reads from the array: where the
    array holds no NUL the code reads on past its end.  The statements
    below that speak of the file opened under the name in an array are
    stated for arrays that hold a NUL. *)
Definition is_terminated (a : list ascii) : bool := existsb (Ascii.eqb NUL) a.

(** * Proofs *)

(** A block or handle taken and given back leaves what was owned. *)
Lemma alloc_free (h : gset nat) : ({[fresh h]} ∪ h) ∖ {[fresh h]} = h.
Proof.
  pose proof (is_fresh h) as Hfresh. revert Hfresh.
  generalize (fresh h). intros b Hb.
  apply set_eq. intros x.
  rewrite elem_of_difference, elem_of_union, elem_of_singleton.
  split.
  - intros [[->|Hx] Hne]; [done|exact Hx].
  - intros Hx. split; [by right|]. by intros ->.
Qed.

Section Proofs.

Context {S : Type} `{Platform S}.

Implicit Types (s : State S) (cs : list ChunkWrite) (img chunk : list Byte.byte).

(** ** Calls and observations *)

Lemma new_calls_app s s' l : st_calls s' = st_calls s ++ l -> new_calls s s' = l.
Proof. unfold new_calls. intros ->. by rewrite drop_app_length. Qed.

Lemma new_out_app s s' l : st_out s' = st_out s ++ l -> new_out s s' = l.
Proof. unfold new_out. intros ->. by rewrite drop_app_length. Qed.

Lemma chunk_writes_app l1 l2 :
  chunk_writes (l1 ++ l2) = chunk_writes l1 ++ chunk_writes l2.
Proof. apply omap_app. Qed.

Lemma chunk_writes_of_writes cs : chunk_writes (map call_of_write cs) = cs.
Proof.
  induction cs as [|[d b r] cs IH]; [done|].
  change (mkChunkWrite d b r :: chunk_writes (map call_of_write cs)
          = mkChunkWrite d b r :: cs).
  by rewrite IH.
Qed.

Lemma reconfig_calls_app l1 l2 :
  reconfig_calls (l1 ++ l2) = reconfig_calls l1 ++ reconfig_calls l2.
Proof. apply omap_app. Qed.

Lemma reconfig_calls_of_writes cs : reconfig_calls (map call_of_write cs) = [].
Proof. induction cs as [|c cs IH]; [done|]. exact IH. Qed.

(** ** Integer conversions *)

Lemma to_UINT_id z : 0 <= z < 2 ^ 32 -> to_UINT z = z.
Proof. intros Hz. unfold to_UINT. by apply Z.mod_small. Qed.

Lemma to_UINT_range z : 0 <= to_UINT z < 2 ^ 32.
Proof. unfold to_UINT. apply Z.mod_pos_bound. lia. Qed.

Lemma to_size_t_range b z : 0 <= to_size_t b z.
Proof. unfold to_size_t, size_t_bits. destruct b; apply Z.mod_pos_bound; lia. Qed.

(** ** Heap blocks and file handles *)

Lemma free_held (b : nat) s :
  b ∈ st_heap s -> free b s = Returns (tt, with_heap (st_heap s ∖ {[b]}) s).
Proof. intros Hb. unfold free. by rewrite decide_True. Qed.

Lemma free_foreign (b : nat) s : b ∉ st_heap s -> free b s = Undefined s.
Proof. intros Hb. unfold free. by rewrite decide_False. Qed.

Lemma fclose_open (h : nat) s :
  h ∈ st_files s ->
  fclose h s = Returns (tt, with_files (st_files s ∖ {[h]})
                                       (with_plat (fclose_ext h (st_plat s)) s)).
Proof. intros Hh. unfold fclose. by rewrite decide_True. Qed.

Lemma fresh_held (h : gset nat) : fresh h ∈ ({[fresh h]} ∪ h : gset nat).
Proof. apply elem_of_union. left. by apply elem_of_singleton. Qed.

(** ** The transfer loop *)

Lemma take_memcpy chunk img n :
  (Z.to_nat n <= length img)%nat ->
  take (Z.to_nat n) (memcpy chunk img n) = take (Z.to_nat n) img.
Proof.
  intros Hn. unfold memcpy.
  rewrite take_app_le by (rewrite length_take; lia).
  rewrite take_take. f_equal. lia.
Qed.

Lemma take_plus {A : Type} (l : list A) (n m : nat) :
  take (n + m) l = take n l ++ take m (drop n l).
Proof.
  revert l. induction n as [|n IH]; intros [|x l]; simpl; try done.
  - by rewrite take_nil.
  - by rewrite IH.
Qed.

Lemma loop_zero fuel C desc chunk img s :
  writeImageToKernel_loop fuel C desc chunk img 0 s = Returns (kErrorOk, s).
Proof. by destruct fuel. Qed.

(** One iteration of the loop, spelled out on the state. *)
Lemma loop_step fuel C desc chunk img len s :
  len <> 0 ->
  writeImageToKernel_loop (Datatypes.S fuel) C desc chunk img len s =
    let d := if len <? C
             then mkDesc (fFirst desc) true (offset desc) len
             else mkDesc (fFirst desc) (fLast desc) (offset desc) (to_UINT C) in
    let ch := memcpy chunk img (length_ d) in
    let r := oplk_serviceWriteFileChunk_ext d ch (st_plat s) in
    let s1 := with_calls (st_calls s ++ [Call_writeFileChunk d ch (fst r)])
                         (with_plat (snd r) s) in
    if is_kErrorOk (fst r)
    then writeImageToKernel_loop fuel C
           (mkDesc false (fLast d) (to_UINT (offset d + length_ d)) (length_ d)) ch
           (drop (Z.to_nat (length_ d)) img) (to_UINT (len - length_ d))
           (with_out (st_out s1 ++ [(Stdout, "\rProgress [%.0f%%]"%string)]) s1)
    else Returns (fst r,
               with_out (st_out s1 ++ [(Stdout, "Writing file chunk failed (0x%X)!\n"%string)]) s1).
Proof.
  intros Hlen. apply Z.eqb_neq in Hlen.
  cbn [writeImageToKernel_loop]. rewrite Hlen.
  unfold bind, oplk_serviceWriteFileChunk, extcall.
  destruct (oplk_serviceWriteFileChunk_ext _ _ _) as [r p]. cbn [fst snd].
  by destruct (is_kErrorOk r).
Qed.

Lemma total_length_cons c cs : total_length (c :: cs) = cw_length c + total_length cs.
Proof. reflexivity. Qed.

Lemma total_length_nonneg cs :
  Forall (fun c => 0 <= cw_length c) cs -> 0 <= total_length cs.
Proof. induction 1; rewrite ?total_length_cons; [done|lia]. Qed.

Lemma sizes_nonneg C cs :
  Forall (fun c => 1 <= cw_length c <= C) cs -> Forall (fun c => 0 <= cw_length c) cs.
Proof. intros Hsz. eapply Forall_impl; [exact Hsz|]. simpl. lia. Qed.

(** The loop ends, and its calls have the shape the transfer promises.
    [img] may be any buffer; the last item relates the calls to it when
    [length_p] is its length. *)
Lemma loop_spec fuel : forall C desc chunk img len s,
  0 < C -> 0 <= len -> 0 <= offset desc -> offset desc + len < 2 ^ 32 ->
  (Z.to_nat len <= fuel)%nat ->
  exists ret s' cs,
    writeImageToKernel_loop fuel C desc chunk img len s = Returns (ret, s') /\
    st_calls s' = st_calls s ++ map call_of_write cs /\
    st_opts s' = st_opts s /\ st_heap s' = st_heap s /\ st_files s' = st_files s /\
    stops_at_failure cs ret /\
    consecutive (offset desc) cs /\
    Forall (fun c => 1 <= cw_length c <= C) cs /\
    total_length cs <= len /\
    (ret = kErrorOk -> total_length cs = len) /\
    first_flags (fFirst desc) cs /\
    Forall (fun c => fLast (cw_desc c) = fLast desc || (cw_length c <? C)) cs /\
    (Z.of_nat (length img) = len -> slices img cs) /\
    ((C | len) -> Forall (fun c => cw_length c = C) cs).
Proof.
  induction fuel as [|fuel IH]; intros C desc chunk img len s HC Hlen Hoff Hsum Hfuel.
  - assert (len = 0) as -> by lia. rewrite loop_zero.
    exists kErrorOk, s, []. rewrite app_nil_r. simpl.
    split_and!; auto.
  - destruct (Z.eq_dec len 0) as [->|Hne].
    { rewrite loop_zero. exists kErrorOk, s, []. rewrite app_nil_r. simpl.
      split_and!; auto. }
    rewrite loop_step by done. cbv zeta.
    set (d := if len <? C then _ else _).
    assert (Hd : 1 <= length_ d <= C /\ length_ d <= len /\ offset d = offset desc
                 /\ fFirst d = fFirst desc
                 /\ fLast d = fLast desc || (length_ d <? C)
                 /\ (length_ d < C -> length_ d = len)
                 /\ ((C | len) -> length_ d = C)).
    { subst d. destruct (Z.ltb_spec len C) as [Hlt|Hge]; simpl;
        [|rewrite to_UINT_id by lia];
        repeat split; try lia;
        rewrite ?Z.ltb_irrefl, ?orb_false_r, ?orb_true_r; try done.
      intros Hdiv. apply Z.divide_pos_le in Hdiv; lia. }
    clearbody d. destruct Hd as (Hd1 & Hd2 & Hd3 & Hd4 & Hd5 & Hd6 & Hd7).
    set (ch := memcpy chunk img (length_ d)).
    destruct (oplk_serviceWriteFileChunk_ext d ch (st_plat s)) as [r p] eqn:Hr.
    cbn [fst snd].
    set (c := mkChunkWrite d ch r).
    assert (Hseg : Z.of_nat (length img) = len -> segment c = take (Z.to_nat (length_ d)) img).
    { intros Himg. unfold segment, cw_length. simpl. subst ch. apply take_memcpy. lia. }
    assert (Hcl : cw_length c = length_ d) by done.
    assert (Hco : cw_offset c = offset desc) by exact Hd3.
    assert (Hcr : cw_ret c = r) by done.
    destruct (is_kErrorOk r) eqn:Hok.
    + rewrite (to_UINT_id (offset d + length_ d)) by lia.
      rewrite (to_UINT_id (len - length_ d)) by lia.
      match goal with |- context [writeImageToKernel_loop fuel C ?d' ?ch' ?img' ?len' ?s1] =>
        destruct (IH C d' ch' img' len' s1) as (ret & s' & cs & Hrun & Hcalls & Ho & Hh & Hf
          & Hstop & Hcons & Hsz & Htot & Htot' & Hfirst & Hlast & Hdel & Hmul);
        [simpl; lia ..|]
      end.
      simpl in Hcalls, Ho, Hh, Hf, Hcons, Hfirst, Hlast.
      assert (Hnn := total_length_nonneg cs (sizes_nonneg C cs Hsz)).
      exists ret, s', (c :: cs). rewrite Hrun.
      split; [done|]. split; [by rewrite Hcalls, <- app_assoc|].
      do 3 (split; [done|]).
      split; [cbn [stops_at_failure]; by rewrite Hcr, Hok|].
      split; [cbn [consecutive]; rewrite Hcl, Hco; split; [done|by rewrite <- Hd3]|].
      split; [constructor; [lia|done]|].
      split; [rewrite total_length_cons; lia|].
      split; [intros Hret; specialize (Htot' Hret); rewrite total_length_cons; lia|].
      split.
      { cbn [first_flags]. split; [done|]. destruct cs as [|c' cs']; [constructor|].
        destruct Hfirst as [Hc' Hrest]. by constructor. }
      split.
      { constructor; [rewrite Hcl; exact Hd5|].
        destruct (Z.ltb_spec (length_ d) C) as [Hlt|Hge].
        - assert (cs = []) as ->; [|constructor].
          destruct cs as [|c' cs']; [done|].
          apply Forall_cons in Hsz as [Hc' Hsz].
          rewrite total_length_cons in Htot.
          assert (Hnn' := total_length_nonneg cs' (sizes_nonneg C cs' Hsz)).
          lia.
        - rewrite orb_false_r in Hd5. by rewrite Hd5 in Hlast. }
      split.
      { intros Himg. cbn [slices]. rewrite Hcl. split; [by apply Hseg|].
        split; [lia|]. apply Hdel. rewrite length_drop. lia. }
      intros Hdiv. specialize (Hd7 Hdiv). constructor; [by rewrite Hcl|].
      apply Hmul. rewrite Hd7. by apply Z.divide_sub_r, Z.divide_refl.
    + exists r, (with_out (st_out s ++ [(Stdout, "Writing file chunk failed (0x%X)!\n"%string)])
                   (with_calls (st_calls s ++ [Call_writeFileChunk d ch r]) (with_plat p s))),
             [c].
      do 5 (split; [done|]).
      split; [cbn [stops_at_failure]; by rewrite Hcr, Hok|].
      split; [cbn [consecutive]; by rewrite Hco|].
      split; [constructor; [lia|constructor]|].
      split; [rewrite total_length_cons, Hcl; cbn [total_length map fold_right]; lia|].
      split; [intros ->; discriminate|].
      split; [cbn [first_flags]; split; [done|constructor]|].
      split; [constructor; [rewrite Hcl; exact Hd5|constructor]|].
      split.
      { intros Himg. cbn [slices]. rewrite Hcl. split; [by apply Hseg|]. split; [lia|done]. }
      intros Hdiv. constructor; [rewrite Hcl; by apply Hd7|constructor].
Qed.


(** ** writeImageToKernel *)

(** What a run of [writeImageToKernel] does, for any image, length and
    world: it returns, it owns after the call what it owned before, and
    either it gave up before the first chunk (no chunk transfer support,
    or no memory for the chunk buffer) or its calls are those of the
    loop. *)
Lemma writeImageToKernel_spec img len s :
  0 <= len < 2 ^ 32 ->
  exists ret s' cs,
    writeImageToKernel img len s = Returns (ret, s') /\
    st_calls s' = st_calls s ++
                  Call_getFileChunkSize (reported_chunk_size s) :: map call_of_write cs /\
    st_opts s' = st_opts s /\ st_heap s' = st_heap s /\ st_files s' = st_files s /\
    (reported_chunk_size s = 0 -> cs = [] /\ ret = kErrorNoResource) /\
    ((cs = [] /\ ret = kErrorNoResource) \/
     (0 < reported_chunk_size s /\
      stops_at_failure cs ret /\
      consecutive 0 cs /\
      Forall (fun c => 1 <= cw_length c <= reported_chunk_size s) cs /\
      total_length cs <= len /\
      (ret = kErrorOk -> total_length cs = len) /\
      first_flags true cs /\
      Forall (fun c => fLast (cw_desc c) = (cw_length c <? reported_chunk_size s)) cs /\
      (Z.of_nat (length img) = len -> slices img cs) /\
      ((reported_chunk_size s | len) -> Forall (fun c => cw_length c = reported_chunk_size s) cs))).
Proof.
  intros Hlen.
  assert (HC := to_size_t_range lp64 (fst (oplk_serviceGetFileChunkSize_ext (st_plat s)))).
  unfold writeImageToKernel, reported_chunk_size in *.
  unfold bind at 1. unfold oplk_serviceGetFileChunkSize, extcall.
  destruct (oplk_serviceGetFileChunkSize_ext (st_plat s)) as [c0 p0]. cbn [fst] in *.
  set (C := to_size_t lp64 c0) in *.
  set (s0 := with_calls _ _).
  destruct (Z.eqb_spec C 0) as [HC0|HC0].
  - eexists kErrorNoResource, _, []. split; [reflexivity|].
    split; [done|]. do 3 (split; [done|]).
    split; [done|]. by left.
  - unfold bind at 1. unfold malloc.
    destruct (malloc_ext C (st_plat s0)) as [[|] p1].
    + set (b := fresh (st_heap s0)). set (s1 := with_heap _ _).
      unfold bind at 1.
      destruct (loop_spec (Z.to_nat len) C (mkDesc true false 0 0)
                  (map (uninit_byte p1) (seq 0 (Z.to_nat C))) img len s1)
        as (ret & s' & cs & Hrun & Hcalls & Ho & Hh & Hf & Hrest);
        [simpl; lia ..|].
      rewrite Hrun. simpl in Hcalls, Ho, Hh, Hf.
      unfold bind at 1. rewrite free_held by (rewrite Hh; apply fresh_held).
      eexists ret, _, cs. split; [reflexivity|].
      split; [simpl; rewrite Hcalls, <- app_assoc; done|].
      split; [done|]. split.
      { simpl. rewrite Hh. apply alloc_free. }
      split; [done|]. split; [done|]. right. split; [lia|].
      simpl in Hrest. exact Hrest.
    + eexists kErrorNoResource, _, []. split; [reflexivity|].
      split; [done|]. do 3 (split; [done|]).
      split; [done|]. by left.
Qed.

(** ** Lists of chunk writes *)

Lemma consecutive_lookup cs : forall off i c,
  consecutive off cs -> cs !! i = Some c ->
  cw_offset c = off + total_length (take i cs).
Proof.
  induction cs as [|c0 cs IH]; intros off i c Hcons Hi; [done|].
  destruct Hcons as [H0 Hcons]. destruct i as [|i]; simpl in Hi.
  - injection Hi as <-. simpl. unfold total_length. simpl. lia.
  - rewrite (IH _ _ _ Hcons Hi). cbn [take]. rewrite total_length_cons. lia.
Qed.

Lemma consecutive_lower cs : forall off,
  consecutive off cs -> Forall (fun c => 0 <= cw_length c) cs ->
  Forall (fun c => off <= cw_offset c) cs.
Proof.
  induction cs as [|c0 cs IH]; intros off Hcons Hnn; [constructor|].
  destruct Hcons as [H0 Hcons]. apply Forall_cons in Hnn as [Hc0 Hnn].
  constructor; [lia|].
  eapply Forall_impl; [apply (IH _ Hcons Hnn)|]. simpl. lia.
Qed.

(** No offset is sent twice: offsets grow strictly along the calls. *)
Lemma consecutive_increasing cs : forall off i j ci cj,
  consecutive off cs -> Forall (fun c => 1 <= cw_length c) cs ->
  (i < j)%nat -> cs !! i = Some ci -> cs !! j = Some cj ->
  cw_offset ci < cw_offset cj.
Proof.
  induction cs as [|c0 cs IH]; intros off i j ci cj Hcons Hsz Hij Hi Hj; [done|].
  destruct Hcons as [H0 Hcons]. apply Forall_cons in Hsz as [Hc0 Hsz].
  destruct j as [|j]; [lia|]. simpl in Hj.
  destruct i as [|i]; simpl in Hi.
  - injection Hi as <-.
    assert (Hlow : Forall (fun c => off + cw_length c0 <= cw_offset c) cs).
    { apply consecutive_lower; [done|]. eapply Forall_impl; [exact Hsz|]. simpl. lia. }
    rewrite Forall_lookup in Hlow. specialize (Hlow _ _ Hj). simpl in Hlow. lia.
  - eapply (IH _ i j); eauto. lia.
Qed.

(** A refused call is the last call, and its answer is what is returned. *)
Lemma stops_at_failure_refused cs : forall ret i c,
  stops_at_failure cs ret -> cs !! i = Some c -> cw_ret c <> kErrorOk ->
  Datatypes.S i = length cs /\ ret = cw_ret c.
Proof.
  induction cs as [|c0 cs IH]; intros ret i c Hstop Hi Hc; [done|].
  cbn [stops_at_failure] in Hstop. destruct i as [|i]; simpl in Hi.
  - injection Hi as <-. destruct (cw_ret c0) eqn:Hr; try done;
      destruct Hstop as [-> ->]; done.
  - destruct (is_kErrorOk (cw_ret c0)).
    + destruct (IH _ _ _ Hstop Hi Hc) as [Hlen ->]. simpl. by rewrite Hlen.
    + destruct Hstop as [-> _]. done.
Qed.

(** A call is made only when the one before it was accepted. *)
Lemma stops_at_failure_previous cs : forall ret i c,
  stops_at_failure cs ret -> cs !! Datatypes.S i = Some c ->
  exists c0, cs !! i = Some c0 /\ cw_ret c0 = kErrorOk.
Proof.
  induction cs as [|c0 cs IH]; intros ret i c Hstop Hi; [done|].
  cbn [stops_at_failure] in Hstop. simpl in Hi.
  destruct (cw_ret c0) eqn:Hr; simpl in Hstop;
    try (destruct Hstop as [-> _]; done).
  destruct i as [|i]; [by exists c0|].
  destruct (IH _ _ _ Hstop Hi) as (c1 & Hc1 & Hok). by exists c1.
Qed.

Lemma slices_delivered cs : forall img,
  slices img cs -> Forall (fun c => 0 <= cw_length c) cs ->
  delivered cs = take (Z.to_nat (total_length cs)) img.
Proof.
  induction cs as [|c cs IH]; intros img Hsl Hnn; [by rewrite take_0|].
  destruct Hsl as (Hseg & Hle & Hsl). apply Forall_cons in Hnn as [Hc Hnn].
  unfold delivered in *. cbn [map concat]. rewrite Hseg, (IH _ Hsl Hnn).
  rewrite total_length_cons, Z2Nat.inj_add;
    [apply eq_sym, take_plus|done|by apply total_length_nonneg].
Qed.

Lemma slices_segment_length cs : forall img,
  slices img cs ->
  Forall (fun c => length (segment c) = Z.to_nat (cw_length c)) cs.
Proof.
  induction cs as [|c cs IH]; intros img Hsl; [constructor|].
  destruct Hsl as (Hseg & Hle & Hsl). constructor; [|by eapply IH].
  rewrite Hseg, length_take. lia.
Qed.

(** Each call delivers the bytes of the image found at its offset. *)
Lemma slices_lookup cs : forall img off i c,
  slices img cs -> consecutive off cs ->
  Forall (fun c => 0 <= cw_length c) cs ->
  cs !! i = Some c ->
  segment c = take (Z.to_nat (cw_length c)) (drop (Z.to_nat (cw_offset c - off)) img).
Proof.
  induction cs as [|c0 cs IH]; intros img off i c Hsl Hcons Hnn Hi; [done|].
  destruct Hsl as (Hseg & Hle & Hsl). destruct Hcons as [H0 Hcons].
  apply Forall_cons in Hnn as [Hc0 Hnn].
  destruct i as [|i]; simpl in Hi.
  - injection Hi as <-. rewrite H0, Z.sub_diag. exact Hseg.
  - rewrite (IH _ _ _ _ Hsl Hcons Hnn Hi). rewrite drop_drop. do 2 f_equal.
    assert (Hlow := consecutive_lower _ _ Hcons Hnn).
    rewrite Forall_lookup in Hlow. specialize (Hlow _ _ Hi). simpl in Hlow. lia.
Qed.

(** X3.  The flags of the calls: the first flag is on the first call only, and
    a call carries the last flag exactly when its segment is shorter
    than the chunk size.  When the length of the image is a multiple of
    the chunk size, every segment is a full chunk and no call carries the
    last flag. *)
Lemma writeImageToKernel_flags img len s :
  0 <= len < 2 ^ 32 ->
  exists ret s',
    writeImageToKernel img len s = Returns (ret, s') /\
    let cs := chunk_writes (new_calls s s') in
    first_flags true cs /\
    Forall (fun c => fLast (cw_desc c) = (cw_length c <? reported_chunk_size s)) cs /\
    ((reported_chunk_size s | len) -> Forall (fun c => fLast (cw_desc c) = false) cs).
Proof.
  intros Hlen.
  destruct (writeImageToKernel_spec img len s Hlen)
    as (ret & s' & cs & Hrun & Hcalls & _ & _ & _ & _ & Hshape).
  exists ret, s'. split; [exact Hrun|]. cbv zeta.
  rewrite (new_calls_app _ _ _ Hcalls).
  replace (chunk_writes (_ :: map call_of_write cs)) with cs
    by (symmetry; apply chunk_writes_of_writes).
  destruct Hshape as [[-> ->]|(_ & _ & _ & _ & _ & _ & Hfirst & Hlast & _ & Hmul)].
  { split; [done|]. split; constructor. }
  split; [done|]. split; [done|]. intros Hdiv. specialize (Hmul Hdiv).
  rewrite Forall_forall in Hlast, Hmul. apply Forall_forall. intros c Hc.
  rewrite (Hlast c Hc), (Hmul c Hc). apply Z.ltb_irrefl.
Qed.

(** C3.  [writeImageToKernel] returns; a chunk write that is refused is
    the last call made and its answer is exactly what is returned; a call
    is made only after the one before it was accepted; and no offset is
    sent twice (offsets grow strictly from call to call). *)
Theorem writeImageToKernel_aborts_on_failure img len s :
  0 <= len < 2 ^ 32 ->
  exists ret s',
    writeImageToKernel img len s = Returns (ret, s') /\
    let cs := chunk_writes (new_calls s s') in
    (forall i c, cs !! i = Some c -> cw_ret c <> kErrorOk ->
       Datatypes.S i = length cs /\ ret = cw_ret c) /\
    (forall i c, cs !! Datatypes.S i = Some c ->
       exists c0, cs !! i = Some c0 /\ cw_ret c0 = kErrorOk) /\
    (forall i j ci cj, (i < j)%nat -> cs !! i = Some ci -> cs !! j = Some cj ->
       cw_offset ci < cw_offset cj).
Proof.
  intros Hlen.
  destruct (writeImageToKernel_spec img len s Hlen)
    as (ret & s' & cs & Hrun & Hcalls & _ & _ & _ & _ & Hshape).
  exists ret, s'. split; [exact Hrun|]. cbv zeta.
  rewrite (new_calls_app _ _ _ Hcalls).
  replace (chunk_writes (_ :: map call_of_write cs)) with cs
    by (symmetry; apply chunk_writes_of_writes).
  destruct Hshape as [[-> ->]|(_ & Hstop & Hcons & Hsz & _)].
  { split_and!; intros; done. }
  split_and!.
  - intros i c. by apply stops_at_failure_refused.
  - intros i c. by apply (stops_at_failure_previous cs ret).
  - intros i j ci cj. apply (consecutive_increasing cs 0); [done|].
    eapply Forall_impl; [exact Hsz|]. simpl. lia.
Qed.

(** C4.  When the stack reports a chunk size of zero, [writeImageToKernel]
    returns [kErrorNoResource] at once, for any buffer and length: its
    only call is the query of the chunk size, and no chunk is written. *)
Theorem writeImageToKernel_zero_chunk_size img len s :
  reported_chunk_size s = 0 ->
  exists s',
    writeImageToKernel img len s = Returns (kErrorNoResource, s') /\
    new_calls s s' = [Call_getFileChunkSize 0] /\
    chunk_writes (new_calls s s') = [].
Proof.
  unfold reported_chunk_size, writeImageToKernel. intros HC.
  unfold bind at 1. unfold oplk_serviceGetFileChunkSize, extcall.
  destruct (oplk_serviceGetFileChunkSize_ext (st_plat s)) as [c0 p0]. cbn [fst] in HC.
  rewrite HC. cbn [Z.eqb]. eexists. split; [reflexivity|].
  assert (Hnew : forall s', st_calls s' = st_calls s ++ [Call_getFileChunkSize 0] ->
                            new_calls s s' = [Call_getFileChunkSize 0])
    by (intros s'; apply new_calls_app).
  rewrite Hnew by done. done.
Qed.

(** ** getOptions *)

Lemma last_reset_flag_cons a answers :
  last_reset_flag (a :: answers) =
    match last_reset_flag answers with
    | Some c => Some c
    | None => if is_reset_flag a then Some (fst a) else None
    end.
Proof.
  unfold last_reset_flag. rewrite filter_cons.
  destruct (decide (is_reset_flag a = true)) as [Ha|Ha].
  - rewrite Ha. cbn [map]. rewrite last_cons. by destruct (last _).
  - apply not_true_is_false in Ha. rewrite Ha. by destruct (last _).
Qed.

(** The parsing loop, for any answers of [getopt]: it ends, it touches
    nothing but [opts] and the output, it fails exactly on the first
    answer that is none of the four flags, and then prints the usage. *)
Lemma getOptions_loop_spec answers : forall s,
  exists r s',
    getOptions_loop answers s = Returns (r, s') /\
    st_plat s' = st_plat s /\ st_heap s' = st_heap s /\
    st_files s' = st_files s /\ st_calls s' = st_calls s /\
    (fFactoryReset (st_opts s) && fUpdateReset (st_opts s) = false ->
     fFactoryReset (st_opts s') && fUpdateReset (st_opts s') = false) /\
    ((r = 0 /\ Forall (fun a => known_flag a = true) answers /\
      st_out s' = st_out s /\
      match last_reset_flag answers with
      | Some c => fFactoryReset (st_opts s') = (c =? char_code "f") /\
                  fUpdateReset (st_opts s') = (c =? char_code "u")
      | None => fFactoryReset (st_opts s') = fFactoryReset (st_opts s) /\
                fUpdateReset (st_opts s') = fUpdateReset (st_opts s)
      end) \/
     (r = -1 /\ Exists unknown_flag answers /\
      st_out s' = st_out s ++ [(Stdout, usage)])).
Proof.
  induction answers as [|[opt optarg] answers IH]; intros s.
  { exists 0, s. split; [done|]. split_and!; try done. left. by split_and!. }
  cbn [getOptions_loop]. rewrite last_reset_flag_cons.
  unfold is_reset_flag at 1. cbn [fst].
  assert (Hk : known_flag (opt, optarg) =
               (opt =? char_code "d") || (opt =? char_code "e")
               || (opt =? char_code "f") || (opt =? char_code "u")) by done.
  destruct (Z.eqb_spec opt (char_code "d")) as [->|Hd];
    [|destruct (Z.eqb_spec opt (char_code "e")) as [->|He];
      [|destruct (Z.eqb_spec opt (char_code "f")) as [->|Hf];
        [|destruct (Z.eqb_spec opt (char_code "u")) as [->|Hu]]]].
  5: { eexists (-1), _. split; [reflexivity|]. split_and!; try done.
       right. split_and!; try done. by left. }
  all: unfold bind at 1; unfold modify_opts at 1; try (unfold bind at 1; unfold modify_opts at 1).
  all: match goal with |- context [getOptions_loop _ ?s1] =>
         destruct (IH s1) as (r & s' & Hrun & Hp & Hh & Hfi & Hc & Hex & Hres)
       end.
  all: exists r, s'; split; [exact Hrun|].
  all: split_and!; try done.
  all: try (intros Hinit; apply Hex; simpl; try done;
            try (by rewrite andb_false_r); by destruct (fUpdateImage _)).
  all: destruct Hres as [(-> & Hall & Hout & Hlast)|(-> & Hsome & Hout)];
         [left|right; split_and!; [done|by right|done]].
  all: split_and!; [done|by constructor|done|].
  all: destruct (last_reset_flag answers); try done.
Qed.

(** ** invalidateImage and updateImage *)

Lemma FIRMWARE_HEADER_SIZE_range : 0 <= FIRMWARE_HEADER_SIZE < 2 ^ 32.
Proof. unfold FIRMWARE_HEADER_SIZE. lia. Qed.

(** What a run of [updateImage] does, for any path and world.  It
    returns, with the file closed and the image buffer freed, on every
    path but one: on the path of the empty file the pointer [pImage] is
    tested and freed though nothing was assigned to it, and the run is
    undefined there when it holds a pointer that is no block of the
    process. *)
Lemma updateImage_spec path s :
  match updateImage path s with
  | Returns (ret, s') =>
      exists l,
        st_opts s' = st_opts s /\
        st_calls s' = st_calls s ++ l /\
        reconfig_calls l = [] /\
        st_files s' = st_files s /\
        (st_heap s' = st_heap s \/
         exists g, uninit_ptr (st_plat s) = Some g /\ g ∈ st_heap s /\
                   st_heap s' = st_heap s ∖ {[g]}) /\
        (forall p1, fopen_ext (c_str path) (st_plat s) = (true, p1) ->
           to_int (fst (ftell_end_ext (fresh (st_files s)) p1)) = 0 ->
           ret = kErrorNoResource /\ l = [])
  | OutOfFuel => False
  | Undefined s' =>
      st_opts s' = st_opts s /\
      st_calls s' = st_calls s /\
      st_files s' = {[fresh (st_files s)]} ∪ st_files s /\
      st_heap s' = st_heap s /\
      exists p1 g,
        fopen_ext (c_str path) (st_plat s) = (true, p1) /\
        to_int (fst (ftell_end_ext (fresh (st_files s)) p1)) = 0 /\
        uninit_ptr (st_plat s) = Some g /\ g ∉ st_heap s
  end.
Proof.
  unfold updateImage. unfold bind at 1. unfold uninitialised_pointer.
  unfold bind at 1. unfold fopen_rb.
  destruct (fopen_ext (c_str path) (st_plat s)) as [[|] p1] eqn:Hopen.
  2: { exists []. simpl. rewrite app_nil_r. split_and!; try done. by left. }
  set (h := fresh (st_files s)).
  unfold bind at 1. unfold ftell_end. cbn [st_plat with_files with_plat].
  destruct (ftell_end_ext h p1) as [pos p2] eqn:Htell.
  unfold bind at 1.
  destruct (Z.eqb_spec (to_int pos) 0) as [Hzero|Hsize].
  - (* the file is empty *)
    unfold bind at 1. unfold printf at 1. unfold pure at 1.
    destruct (uninit_ptr (st_plat s)) as [g|] eqn:Hg.
    + destruct (decide (g ∈ st_heap s)) as [Hheld|Hforeign].
      * unfold bind at 1. rewrite free_held by exact Hheld.
        unfold bind at 1. rewrite fclose_open by apply fresh_held.
        exists []. simpl. rewrite app_nil_r.
        split_and!; try done; [apply alloc_free|].
        right. by exists g.
      * unfold bind at 1. rewrite free_foreign by exact Hforeign.
        simpl. split_and!; try done.
        exists p1, g. split_and!; try done. by rewrite Htell.
    + unfold bind at 1. unfold pure at 1.
      unfold bind at 1. rewrite fclose_open by apply fresh_held.
      exists []. simpl. rewrite app_nil_r.
      split_and!; try done; [apply alloc_free|by left].
  - (* the file is not empty *)
    assert (Hne : forall p, (true, p1) = (true, p) ->
              to_int (fst (ftell_end_ext h p)) = 0 -> False).
    { intros p [= <-]. rewrite Htell. done. }
    unfold bind at 1. unfold malloc at 1. cbn [st_plat with_files with_plat].
    destruct (malloc_ext (to_size_t lp64 (to_int pos)) p2) as [[|] p3].
    2: { unfold pure at 1. unfold bind at 1. unfold pure at 1.
         unfold bind at 1. rewrite fclose_open by apply fresh_held.
         exists []. simpl. rewrite app_nil_r.
         split_and!; try done; try apply alloc_free; try (by left);
           try (intros p Hp Hz; destruct (Hne p Hp Hz)). }
    cbn [st_heap with_files with_plat].
    set (b := fresh (st_heap s)).
    unfold bind at 1. unfold fread at 1. cbn [st_plat with_files with_plat with_heap].
    destruct (fread_ext h (to_size_t lp64 (to_int pos)) p3) as [d p4].
    cbv zeta.
    destruct (Z.eqb_spec (Z.of_nat (length (take (Z.to_nat (to_size_t lp64 (to_int pos))) d)))
                (to_size_t lp64 (to_int pos))) as [Hread|Hread]; cbn [negb].
    + unfold bind at 1.
      match goal with |- context [writeImageToKernel ?img ?len ?s1] =>
        destruct (writeImageToKernel_spec img len s1 (to_UINT_range _))
          as (ret & s' & cs & Hrun & Hcalls & Ho & Hh & Hf & _)
      end.
      rewrite Hrun. simpl in Hcalls, Ho, Hh, Hf.
      unfold pure at 1. unfold bind at 1.
      rewrite free_held by (rewrite Hh; apply fresh_held).
      unfold bind at 1.
      rewrite fclose_open by (cbn [st_files with_heap]; rewrite Hf; apply fresh_held).
      eexists. simpl.
      split_and!; [exact Ho|exact Hcalls|apply reconfig_calls_of_writes|..];
        try (rewrite Hf; apply alloc_free);
        try (left; rewrite Hh; apply alloc_free);
        try (intros p Hp Hz; destruct (Hne p Hp Hz)).
    + unfold bind at 1. unfold printf at 1. unfold pure at 1.
      unfold bind at 1. rewrite free_held by apply fresh_held.
      unfold bind at 1. rewrite fclose_open by apply fresh_held.
      exists []. simpl. rewrite app_nil_r.
      split_and!; try done; try apply alloc_free; try (left; apply alloc_free);
        try (intros p Hp Hz; destruct (Hne p Hp Hz)).
Qed.

(** ** Steps that leave the options alone *)

Lemma keeps_opts_pure {A : Type} o (a : A) (R : A -> list bool -> Prop) :
  R a [] -> keeps_opts o (pure a : M S A) R.
Proof.
  intros HR s Hs. exists a, s, []. rewrite app_nil_r. by split_and!.
Qed.

Lemma keeps_opts_bind {A B : Type} o (m : M S A) (k : A -> M S B)
    (R1 : A -> list bool -> Prop) (R : B -> list bool -> Prop) :
  keeps_opts o m R1 ->
  (forall a x, R1 a x -> keeps_opts o (k a) (fun b y => R b (x ++ y))) ->
  keeps_opts o (bind m k) R.
Proof.
  intros Hm Hk s Hs.
  destruct (Hm s Hs) as (a & s1 & l1 & Hrun1 & Ho1 & Hc1 & HR1).
  destruct (Hk a _ HR1 s1 Ho1) as (b & s2 & l2 & Hrun2 & Ho2 & Hc2 & HR2).
  exists b, s2, (l1 ++ l2). unfold bind. rewrite Hrun1, Hrun2.
  split_and!; [done|done| |].
  - by rewrite Hc2, Hc1, app_assoc.
  - by rewrite reconfig_calls_app.
Qed.

Lemma keeps_opts_weaken {A : Type} o (m : M S A) (R R' : A -> list bool -> Prop) :
  keeps_opts o m R -> (forall a x, R a x -> R' a x) -> keeps_opts o m R'.
Proof.
  intros Hm HR s Hs. destruct (Hm s Hs) as (a & s' & l & Hrun & Ho & Hc & Ha).
  exists a, s', l. split_and!; auto.
Qed.

Lemma keeps_opts_printf o fmt :
  keeps_opts o (printf fmt : M S unit) (fun _ x => x = []).
Proof. intros s Hs. eexists tt, _, []. rewrite app_nil_r. by split_and!. Qed.

Lemma keeps_opts_fprintf_stderr o fmt :
  keeps_opts o (fprintf_stderr fmt : M S unit) (fun _ x => x = []).
Proof. intros s Hs. eexists tt, _, []. rewrite app_nil_r. by split_and!. Qed.

Lemma keeps_opts_get_opts o :
  keeps_opts o (get_opts : M S tOptions) (fun a x => x = [] /\ a = o).
Proof. intros s Hs. exists (st_opts s), s, []. rewrite app_nil_r. by split_and!. Qed.

Lemma keeps_opts_extcall {A : Type} o (op : S -> A * S) (log : A -> Call) :
  keeps_opts o (extcall op log) (fun a x => x = reconfig_calls [log a]).
Proof.
  intros s Hs. unfold extcall. destruct (op (st_plat s)) as [a p].
  eexists a, _, [log a]. by split_and!.
Qed.

Lemma keeps_opts_system_init o : keeps_opts o system_init (fun _ x => x = []).
Proof. apply keeps_opts_extcall. Qed.

Lemma keeps_opts_system_exit o : keeps_opts o system_exit (fun _ x => x = []).
Proof. apply (keeps_opts_extcall o (fun p => (tt, system_exit_ext p))). Qed.

Lemma keeps_opts_oplk_getVersionString o :
  keeps_opts o oplk_getVersionString (fun _ x => x = []).
Proof. intros s Hs. eexists _, s, []. rewrite app_nil_r. by split_and!. Qed.

Lemma keeps_opts_oplk_initialize o : keeps_opts o oplk_initialize (fun _ x => x = []).
Proof. apply keeps_opts_extcall. Qed.

Lemma keeps_opts_oplk_getStackInfo o : keeps_opts o oplk_getStackInfo (fun _ x => x = []).
Proof. apply (keeps_opts_extcall o oplk_getStackInfo_ext). Qed.

Lemma keeps_opts_oplk_exit o : keeps_opts o oplk_exit (fun _ x => x = []).
Proof. apply (keeps_opts_extcall o (fun p => (tt, oplk_exit_ext p))). Qed.

Lemma keeps_opts_oplk_serviceExecFirmwareReconfig o f :
  keeps_opts o (oplk_serviceExecFirmwareReconfig f) (fun _ x => x = [f]).
Proof. apply (keeps_opts_extcall o (oplk_serviceExecFirmwareReconfig_ext f)). Qed.

Lemma keeps_opts_writeImageToKernel o img len :
  0 <= len < 2 ^ 32 ->
  keeps_opts o (writeImageToKernel img len) (fun _ x => x = []).
Proof.
  intros Hlen s Hs.
  destruct (writeImageToKernel_spec img len s Hlen)
    as (ret & s' & cs & Hrun & Hcalls & Ho & _).
  eexists ret, s', _. split_and!; [done|congruence|exact Hcalls|].
  apply reconfig_calls_of_writes.
Qed.

Lemma keeps_opts_invalidateImage o : keeps_opts o invalidateImage (fun _ x => x = []).
Proof. apply keeps_opts_writeImageToKernel, FIRMWARE_HEADER_SIZE_range. Qed.


Create HintDb frame.

#[local] Hint Resolve keeps_opts_printf keeps_opts_fprintf_stderr keeps_opts_get_opts
  keeps_opts_system_init keeps_opts_system_exit keeps_opts_oplk_getVersionString
  keeps_opts_oplk_initialize keeps_opts_oplk_getStackInfo keeps_opts_oplk_exit
  keeps_opts_oplk_serviceExecFirmwareReconfig keeps_opts_invalidateImage : frame.

(** ** Steps that may stop at an undefined operation *)

Lemma ends_of_keeps {A : Type} o (m : M S A) R U :
  keeps_opts o m R -> ends_with o m R U.
Proof.
  intros Hm s Hs. destruct (Hm s Hs) as (a & s' & l & Hrun & Ho & Hc & Ha).
  exists s', l. split_and!; [done|done|]. left. by exists a.
Qed.

Lemma ends_bind {A B : Type} o (m : M S A) (k : A -> M S B)
    (R1 : A -> list bool -> Prop) (U1 : list bool -> Prop)
    (R : B -> list bool -> Prop) (U : list bool -> Prop) :
  ends_with o m R1 U1 ->
  (forall a x, R1 a x ->
     ends_with o (k a) (fun b y => R b (x ++ y)) (fun y => U (x ++ y))) ->
  (forall x, U1 x -> U x) ->
  ends_with o (bind m k) R U.
Proof.
  intros Hm Hk HU s Hs.
  destruct (Hm s Hs) as (s1 & l1 & Ho1 & Hc1 & [(a & Hrun1 & HR1)|[Hrun1 HU1]]).
  - destruct (Hk a _ HR1 s1 Ho1) as (s2 & l2 & Ho2 & Hc2 & Hend).
    exists s2, (l1 ++ l2). unfold bind. rewrite Hrun1, reconfig_calls_app.
    split_and!; [done|by rewrite Hc2, Hc1, app_assoc|].
    destruct Hend as [(b & Hrun2 & HR2)|[Hrun2 HU2]]; [left; by exists b|by right].
  - exists s1, l1. unfold bind. rewrite Hrun1. split_and!; [done|done|].
    right. split; [done|]. by apply HU.
Qed.

Lemma ends_bind_keeps {A B : Type} o (m : M S A) (k : A -> M S B)
    (R1 : A -> list bool -> Prop)
    (R : B -> list bool -> Prop) (U : list bool -> Prop) :
  keeps_opts o m R1 ->
  (forall a x, R1 a x ->
     ends_with o (k a) (fun b y => R b (x ++ y)) (fun y => U (x ++ y))) ->
  ends_with o (bind m k) R U.
Proof.
  intros Hm Hk. eapply ends_bind; [by apply (ends_of_keeps o m R1 U)|done|done].
Qed.

Lemma ends_weaken {A : Type} o (m : M S A) (R R' : A -> list bool -> Prop)
    (U U' : list bool -> Prop) :
  ends_with o m R U -> (forall a x, R a x -> R' a x) -> (forall x, U x -> U' x) ->
  ends_with o m R' U'.
Proof.
  intros Hm HR HU s Hs. destruct (Hm s Hs) as (s' & l & Ho & Hc & Hend).
  exists s', l. split_and!; [done|done|].
  destruct Hend as [(a & Hrun & Ha)|[Hrun Hu]]; [left; exists a|right]; auto.
Qed.

(** [updateImage] ends, and makes no reconfiguration request. *)
Lemma ends_updateImage o path :
  ends_with o (updateImage path) (fun _ x => x = []) (fun x => x = []).
Proof.
  intros s Hs. pose proof (updateImage_spec path s) as Hspec.
  destruct (updateImage path s) as [[ret s']| |s']; [| |].
  - destruct Hspec as (l & Ho & Hcalls & Hrc & _).
    exists s', l. split_and!; [congruence|done|]. left. by exists ret.
  - done.
  - destruct Hspec as (Ho & Hcalls & _).
    exists s', []. rewrite app_nil_r. split_and!; [congruence|done|]. by right.
Qed.

(** Where the indeterminate value of an uninitialised pointer is always
    NULL, [updateImage] returns. *)
Lemma keeps_opts_updateImage o path :
  (forall p : S, uninit_ptr p = None) ->
  keeps_opts o (updateImage path) (fun _ x => x = []).
Proof.
  intros Hnull s Hs. pose proof (updateImage_spec path s) as Hspec.
  destruct (updateImage path s) as [[ret s']| |s']; [| |].
  - destruct Hspec as (l & Ho & Hcalls & Hrc & _).
    exists ret, s', l. split_and!; [done|congruence|done|done].
  - done.
  - destruct Hspec as (_ & _ & _ & _ & p1 & g & _ & _ & Hg & _).
    rewrite Hnull in Hg. discriminate.
Qed.

(** A step that always returns and makes no reconfiguration request,
    then the rest. *)
Ltac quiet_step :=
  first [ eapply keeps_opts_bind; [solve [eauto with frame]|]
        | eapply ends_bind_keeps; [solve [eauto with frame]|] ];
  cbv beta; intros ? ? ->; cbn [app].

(** ** main *)

Lemma main_Exit_ok o : keeps_opts o main_Exit (fun r x => r = 0 /\ x = []).
Proof. unfold main_Exit. quiet_step. by apply keeps_opts_pure. Qed.

Lemma main_leave_ok o fmt :
  keeps_opts o (bind (printf fmt) (fun _ => bind oplk_exit (fun _ => main_Exit)))
             (fun r x => r = 0 /\ x = []).
Proof. do 2 quiet_step. apply main_Exit_ok. Qed.

(** Everything after the parsing of the options, given what
    [updateImage] does when it stops ([U]): [main] ends; when it returns
    it returns 0; the options are as they were; and there is at most one
    reconfiguration request, whose argument is the factory reset flag. *)
Lemma main_run_ends o (U : list bool -> Prop) :
  (forall path, ends_with o (updateImage path) (fun _ x => x = []) U) ->
  ends_with o main_run
    (fun r x => r = 0 /\ (x = [] \/ x = [fFactoryReset o])) U.
Proof.
  intros Hupdate.
  assert (Hleave : forall fmt,
    ends_with o (bind (printf fmt) (fun _ => bind oplk_exit (fun _ => main_Exit)))
      (fun r x => r = 0 /\ (x = [] \/ x = [fFactoryReset o])) U).
  { intros fmt. apply ends_of_keeps.
    eapply keeps_opts_weaken; [apply main_leave_ok|].
    intros r x [-> ->]. auto. }
  assert (Hexit : forall fmt,
    ends_with o (bind (printf fmt) (fun _ => main_Exit))
      (fun r x => r = 0 /\ (x = [] \/ x = [fFactoryReset o])) U).
  { intros fmt. apply ends_of_keeps. quiet_step.
    eapply keeps_opts_weaken; [apply main_Exit_ok|].
    intros r x [-> ->]. auto. }
  unfold main_run.
  quiet_step. destruct (negb _).
  { apply ends_of_keeps. quiet_step. apply keeps_opts_pure. auto. }
  do 5 quiet_step. destruct (negb _); [apply Hexit|].
  quiet_step. destruct (negb _); [apply Hexit|].
  do 4 quiet_step.
  eapply ends_bind_keeps; [apply keeps_opts_get_opts|].
  cbv beta; intros ? ? [-> ->]; cbn [app].
  eapply ends_bind_keeps with (R1 := fun _ x => x = []).
  { destruct (fInvalidateUpdateImage o); [auto with frame|by apply keeps_opts_pure]. }
  cbv beta; intros ret1 ? ->; cbn [app].
  destruct (negb (is_kErrorOk ret1)); [apply Hleave|].
  eapply ends_bind_keeps with (R1 := fun _ x => x = []).
  { destruct (fInvalidateUpdateImage o); [auto with frame|by apply keeps_opts_pure]. }
  cbv beta; intros ? ? ->; cbn [app].
  eapply ends_bind_keeps; [apply keeps_opts_get_opts|].
  cbv beta; intros ? ? [-> ->]; cbn [app].
  eapply ends_bind with (R1 := fun _ x => x = []) (U1 := U).
  { destruct (fUpdateImage o); [apply Hupdate|].
    apply ends_of_keeps. by apply keeps_opts_pure. }
  2: done.
  cbv beta; intros ret2 ? ->; cbn [app].
  destruct (negb (is_kErrorOk ret2)); [apply Hleave|].
  eapply ends_bind_keeps; [apply keeps_opts_get_opts|].
  cbv beta; intros ? ? [-> ->]; cbn [app].
  apply ends_of_keeps.
  eapply keeps_opts_bind
    with (R1 := fun _ x => x = [] \/ x = [fFactoryReset o]).
  { destruct (fFactoryReset o || fUpdateReset o).
    - quiet_step. eapply keeps_opts_weaken; [auto with frame|]. cbv beta. auto.
    - apply keeps_opts_pure. auto. }
  cbv beta; intros ret3 x Hx.
  destruct (negb (is_kErrorOk ret3)).
  - eapply keeps_opts_weaken; [apply main_leave_ok|].
    intros r y [-> ->]. rewrite app_nil_r. auto.
  - eapply keeps_opts_bind with (R1 := fun _ x => x = []).
    { destruct (fFactoryReset o || fUpdateReset o); [auto with frame|by apply keeps_opts_pure]. }
    cbv beta; intros ? ? ->; cbn [app].
    quiet_step. eapply keeps_opts_weaken; [apply main_Exit_ok|].
    intros r y [-> ->]. rewrite !app_nil_r. auto.
Qed.

Lemma main_run_ok o :
  ends_with o main_run
    (fun r x => r = 0 /\ (x = [] \/ x = [fFactoryReset o])) (fun x => x = []).
Proof. apply main_run_ends. intros path. apply ends_updateImage. Qed.

(** Where the indeterminate value of an uninitialised pointer is always
    NULL, everything after the parsing of the options returns 0. *)
Lemma main_run_returns o :
  (forall p : S, uninit_ptr p = None) ->
  ends_with o main_run
    (fun r x => r = 0 /\ (x = [] \/ x = [fFactoryReset o])) (fun _ => False).
Proof.
  intros Hnull. apply main_run_ends. intros path.
  apply ends_of_keeps. by apply keeps_opts_updateImage.
Qed.

Lemma known_unknown answers :
  Forall (fun a => known_flag a = true) answers -> Exists unknown_flag answers -> False.
Proof.
  rewrite Forall_forall, Exists_exists. intros Hall (a & Ha & Hun).
  unfold unknown_flag in Hun. rewrite (Hall a Ha) in Hun. discriminate.
Qed.

(** [getOptions] from zeroed options, for any command line. *)
Lemma getOptions_spec argc argv s :
  let answers := getopt_ext argc argv "d:efu" in
  exists r s',
    getOptions argc argv (with_opts zero_options s) = Returns (r, s') /\
    st_plat s' = st_plat s /\ st_heap s' = st_heap s /\
    st_files s' = st_files s /\ st_calls s' = st_calls s /\
    fFactoryReset (st_opts s') && fUpdateReset (st_opts s') = false /\
    ((r = 0 /\ Forall (fun a => known_flag a = true) answers /\
      st_out s' = st_out s /\
      match last_reset_flag answers with
      | Some c => fFactoryReset (st_opts s') = (c =? char_code "f") /\
                  fUpdateReset (st_opts s') = (c =? char_code "u")
      | None => fFactoryReset (st_opts s') = false /\
                fUpdateReset (st_opts s') = (argc =? 1)
      end) \/
     (r = -1 /\ Exists unknown_flag answers /\
      st_out s' = st_out s ++ [(Stdout, usage)])).
Proof.
  intros answers. unfold getOptions. unfold bind at 1.
  destruct (argc =? 1) eqn:Hargc.
  - do 2 (unfold bind at 1; unfold modify_opts at 1). unfold modify_opts at 1.
    match goal with |- context [getOptions_loop _ ?s1] =>
      destruct (getOptions_loop_spec answers s1)
        as (r & s' & Hrun & Hp & Hh & Hf & Hc & Hex & Hres)
    end.
    exists r, s'. split; [exact Hrun|].
    split_and!; try done; by apply Hex.
  - unfold pure at 1.
    destruct (getOptions_loop_spec answers (with_opts zero_options s))
      as (r & s' & Hrun & Hp & Hh & Hf & Hc & Hex & Hres).
    exists r, s'. split; [exact Hrun|].
    split_and!; try done; by apply Hex.
Qed.

Lemma main_unfold argc argv s r s1 :
  getOptions argc argv (with_opts zero_options s) = Returns (r, s1) ->
  main argc argv s = if r =? -1 then Returns (-1, s1) else main_run s1.
Proof.
  intros Hrun. unfold main. unfold bind at 1. unfold modify_opts at 1. unfold bind at 1.
  change (with_opts ((fun _ => zero_options) (st_opts s)) s) with (with_opts zero_options s).
  rewrite Hrun. by destruct (r =? -1).
Qed.

(** The exit code of [main], for every command line and every world:
    [main] ends; it returns -1 exactly when [getopt] answers with
    something that is none of the flags d, e, f and u, having printed the
    usage text and called nothing; when it returns otherwise it returns
    0; and when it does not return, it has stopped at the undefined
    operation of [updateImage]. *)
Lemma main_ends argc argv s :
  exists s',
    (exists code,
       main argc argv s = Returns (code, s') /\
       (code = -1 <-> Exists unknown_flag (getopt_ext argc argv "d:efu")) /\
       (code = -1 -> new_out s s' = [(Stdout, usage)] /\ new_calls s s' = []) /\
       (code <> -1 -> code = 0)) \/
    (main argc argv s = Undefined s' /\
     ~ Exists unknown_flag (getopt_ext argc argv "d:efu")).
Proof.
  destruct (getOptions_spec argc argv s)
    as (r & s1 & Hrun & _ & _ & _ & Hc & _ & Hres).
  rewrite (main_unfold _ _ _ _ _ Hrun).
  destruct Hres as [(-> & Hall & Hout & _)|(-> & Hsome & Hout)]; cbn [Z.eqb].
  - destruct (main_run_ok (st_opts s1) s1 eq_refl)
      as (s' & l & _ & _ & [(code & Hmain & -> & _)|[Hmain _]]).
    + exists s'. left. exists 0. split; [exact Hmain|]. split_and!; try done.
      split; [done|]. intros Hun. destruct (known_unknown _ Hall Hun).
    + exists s'. right. split; [exact Hmain|]. intros Hun. exact (known_unknown _ Hall Hun).
  - exists s1. left. exists (-1). split; [done|]. split_and!; try done.
    intros _. split; [by apply new_out_app|].
    apply new_calls_app. by rewrite app_nil_r.
Qed.

(** X19.  Where the indeterminate value of an uninitialised pointer is always
    NULL, [main] returns: -1 on an unknown flag, 0 on every other path. *)
Lemma main_exit_code argc argv s :
  (forall p : S, uninit_ptr p = None) ->
  exists code s',
    main argc argv s = Returns (code, s') /\
    (code = -1 <-> Exists unknown_flag (getopt_ext argc argv "d:efu")) /\
    (code <> -1 -> code = 0).
Proof.
  intros Hnull.
  destruct (main_ends argc argv s) as (s' & [(code & Hmain & Hiff & _ & Hzero)|[Hmain _]]).
  { by exists code, s'. }
  destruct (getOptions_spec argc argv s) as (r & s1 & Hrun & _ & _ & _ & _ & _ & Hres).
  rewrite (main_unfold _ _ _ _ _ Hrun) in Hmain.
  destruct Hres as [(-> & _)|(-> & _)]; cbn [Z.eqb] in Hmain; [|discriminate].
  destruct (main_run_returns (st_opts s1) Hnull s1 eq_refl)
    as (s2 & l & _ & _ & [(code & Hret & _)|[_ []]]).
  rewrite Hret in Hmain. discriminate.
Qed.

(** C6.  Invoked with no command-line argument ([argc] is 1 and [getopt]
    has nothing to answer), [getOptions] succeeds and leaves in the
    zeroed options the file name [image.bin] (NUL padded to 256
    characters), the update-image and update-reset flags set, and the
    invalidate and factory-reset flags clear; nothing else changes. *)
Theorem getOptions_defaults argv s :
  getopt_ext 1 argv "d:efu" = [] ->
  getOptions 1 argv (with_opts zero_options s) =
    Returns (0, with_opts (mkOptions (strncpy "image.bin" 256) true false false true) s) /\
  c_str (strncpy "image.bin" 256) = "image.bin"%string /\
  length (strncpy "image.bin" 256) = 256%nat.
Proof.
  intros Hnone. unfold getOptions. rewrite Hnone. split; [reflexivity|].
  split; reflexivity.
Qed.

(** C7.  The options are written while the command line is parsed and
    never after.  However [main] ends (it returns, or it stops at the
    undefined operation of [updateImage]), what is in [opts] then is what
    [getOptions] left there; and each later step of [main]
    (initialisation, invalidation, update, reconfiguration, teardown),
    run from any state, ends with the options it found. *)
Theorem options_read_only_after_parsing argc argv s o path fFactory :
  (exists r s1 s2,
     getOptions argc argv (with_opts zero_options s) = Returns (r, s1) /\
     ((exists code, main argc argv s = Returns (code, s2)) \/
      main argc argv s = Undefined s2) /\
     st_opts s2 = st_opts s1) /\
  ends_with o (main_run : M S Z) (fun _ _ => True) (fun _ => True) /\
  keeps_opts o (system_init : M S Z) (fun _ _ => True) /\
  keeps_opts o (oplk_initialize : M S tOplkError) (fun _ _ => True) /\
  keeps_opts o (oplk_getStackInfo : M S _) (fun _ _ => True) /\
  keeps_opts o (invalidateImage : M S tOplkError) (fun _ _ => True) /\
  ends_with o (updateImage path : M S tOplkError) (fun _ _ => True) (fun _ => True) /\
  keeps_opts o (oplk_serviceExecFirmwareReconfig fFactory : M S tOplkError)
             (fun _ _ => True) /\
  keeps_opts o (oplk_exit : M S unit) (fun _ _ => True) /\
  keeps_opts o (system_exit : M S unit) (fun _ _ => True).
Proof.
  split.
  - destruct (getOptions_spec argc argv s) as (r & s1 & Hrun & _ & _ & _ & _ & _ & Hres).
    rewrite (main_unfold _ _ _ _ _ Hrun).
    destruct Hres as [(-> & _)|(-> & _)]; cbn [Z.eqb].
    + destruct (main_run_ok (st_opts s1) s1 eq_refl)
        as (s2 & l & Ho & _ & [(code & Hmain & _)|[Hmain _]]).
      * exists 0, s1, s2. split_and!; [done| |done]. left. by exists code.
      * exists 0, s1, s2. split_and!; [done| |done]. by right.
    + exists (-1), s1, s1. split_and!; [done| |done]. left. by exists (-1).
  - split_and!;
      first [ eapply ends_weaken; [first [apply main_run_ok|apply ends_updateImage]|done|done]
            | eapply keeps_opts_weaken; [|done]; auto with frame ].
Qed.

(** X20.  What [updateImage] and [writeImageToKernel] hold when they return:
    no [FILE] handle and no heap block that the process did not hold
    before the call. *)
Lemma resources_released_on_return path img len s :
  (forall ret s',
     updateImage path s = Returns (ret, s') ->
     st_files s' = st_files s /\ st_heap s' ⊆ st_heap s) /\
  (exists ret s',
     writeImageToKernel img (to_UINT len) s = Returns (ret, s') /\
     st_files s' = st_files s /\ st_heap s' = st_heap s).
Proof.
  split.
  - intros ret s' Hrun. pose proof (updateImage_spec path s) as Hspec.
    rewrite Hrun in Hspec. destruct Hspec as (l & _ & _ & _ & Hf & Hh & _).
    split; [done|]. destruct Hh as [->|(g & _ & _ & ->)]; [done|].
    by apply subseteq_difference_l.
  - destruct (writeImageToKernel_spec img (to_UINT len) s (to_UINT_range len))
      as (ret & s' & cs & Hrun & _ & _ & Hh & Hf & _).
    by exists ret, s'.
Qed.

(** C9.  When [getOptions] accepts the command line, the factory-reset
    and update-reset flags are never both set; the last of [-f] and [-u]
    that [getopt] answered decides which one is; and however [main] then
    ends, it has made at most one reconfiguration request, whose argument
    is the factory-reset flag. *)
Theorem reset_flags_exclusive argc argv s s1 :
  getOptions argc argv (with_opts zero_options s) = Returns (0, s1) ->
  let answers := getopt_ext argc argv "d:efu" in
  let o := st_opts s1 in
  fFactoryReset o && fUpdateReset o = false /\
  (last_reset_flag answers = Some (char_code "f") ->
     fFactoryReset o = true /\ fUpdateReset o = false) /\
  (last_reset_flag answers = Some (char_code "u") ->
     fFactoryReset o = false /\ fUpdateReset o = true) /\
  exists s2,
    (main argc argv s = Returns (0, s2) \/ main argc argv s = Undefined s2) /\
    st_opts s2 = o /\
    (reconfig_calls (new_calls s s2) = [] \/
     reconfig_calls (new_calls s s2) = [fFactoryReset o]).
Proof.
  intros Hacc answers o.
  destruct (getOptions_spec argc argv s)
    as (r & s1' & Hrun & _ & _ & _ & Hc & Hex & Hres).
  rewrite Hacc in Hrun. injection Hrun as <- <-.
  destruct Hres as [(_ & _ & _ & Hlast)|(Hr & _)]; [|discriminate].
  fold answers in Hlast. split; [exact Hex|]. split_and!.
  - intros Hf. rewrite Hf in Hlast. exact Hlast.
  - intros Hu. rewrite Hu in Hlast. exact Hlast.
  - rewrite (main_unfold _ _ _ _ _ Hacc). cbn [Z.eqb].
    destruct (main_run_ok o s1 eq_refl) as (s2 & l & Ho & Hcalls & Hend).
    rewrite Hc in Hcalls. exists s2. rewrite (new_calls_app _ _ _ Hcalls).
    destruct Hend as [(code & Hmain & -> & Hl)|[Hmain ->]].
    + split_and!; [by left|done|done].
    + split_and!; [by right|done|by left].
Qed.

Lemma delivered_header cs n :
  delivered cs `prefix_of` repeat Byte.xff n ->
  Forall (fun b => b = Byte.xff) (delivered cs).
Proof.
  intros [rest Hrest]. apply Forall_forall. intros b Hb.
  assert (Hin : b ∈ repeat Byte.xff n).
  { rewrite Hrest. apply elem_of_app. by left. }
  apply list_elem_of_In in Hin. by apply repeat_spec in Hin.
Qed.

(** What holds of the empty file and of [invalidateImage].  For a file
    that can be opened and whose size is zero, [updateImage] makes no
    call at all, and when it returns it returns [kErrorNoResource].
    [invalidateImage] is the transfer of a buffer of exactly 32 bytes,
    each 0xFF: it returns, every byte it delivers is 0xFF, and when it
    reports success the bytes delivered are these 32 bytes. *)
Lemma empty_file_and_invalid_header path s p1 :
  fopen_ext (c_str path) (st_plat s) = (true, p1) ->
  fst (ftell_end_ext (fresh (st_files s)) p1) = 0 ->
  (exists s',
     (updateImage path s = Returns (kErrorNoResource, s') \/
      updateImage path s = Undefined s') /\
     new_calls s s' = []) /\
  invalidateImage s = writeImageToKernel (repeat Byte.xff 32) 32 s /\
  length (repeat Byte.xff 32) = 32%nat /\
  (exists ret s',
     invalidateImage s = Returns (ret, s') /\
     let cs := chunk_writes (new_calls s s') in
     delivered cs `prefix_of` repeat Byte.xff 32 /\
     Forall (fun b => b = Byte.xff) (delivered cs) /\
     (ret = kErrorOk -> delivered cs = repeat Byte.xff 32)).
Proof.
  intros Hopen Hsize. split_and!.
  - pose proof (updateImage_spec path s) as Hspec.
    destruct (updateImage path s) as [[ret s']| |s']; [| done |].
    + destruct Hspec as (l & _ & Hcalls & _ & _ & _ & Hempty).
      destruct (Hempty p1 Hopen) as [-> ->]; [by rewrite Hsize|].
      exists s'. split; [by left|]. by rewrite (new_calls_app _ _ _ Hcalls).
    + destruct Hspec as (_ & Hcalls & _).
      exists s'. split; [by right|]. apply new_calls_app. by rewrite app_nil_r.
  - reflexivity.
  - reflexivity.
  - unfold invalidateImage, FIRMWARE_HEADER_SIZE, memset_FF.
    change (Z.to_nat 32) with 32%nat.
    destruct (writeImageToKernel_spec (repeat Byte.xff 32) 32 s)
      as (ret & s' & cs & Hrun & Hcalls & _ & _ & _ & _ & Hshape); [lia|].
    exists ret, s'. split; [exact Hrun|]. cbv zeta.
    rewrite (new_calls_app _ _ _ Hcalls).
    replace (chunk_writes (_ :: map call_of_write cs)) with cs
      by (symmetry; apply chunk_writes_of_writes).
    destruct Hshape as [[-> ->]|(_ & _ & _ & Hsz & _ & Htot & _ & _ & Hsl & _)].
    { split_and!; [by eexists|constructor|done]. }
    specialize (Hsl eq_refl).
    assert (Hpre : delivered cs `prefix_of` repeat Byte.xff 32).
    { rewrite (slices_delivered _ _ Hsl (sizes_nonneg _ _ Hsz)).
      eexists. symmetry. apply take_drop. }
    split_and!; [done|by eapply delivered_header|].
    intros Hret. rewrite (slices_delivered _ _ Hsl (sizes_nonneg _ _ Hsz)).
    rewrite (Htot Hret). reflexivity.
Qed.

(** X21.  The undefined path of [updateImage], in general: the file name
    is a terminated C string, the file can be opened, its size is zero,
    and the pointer [pImage], never assigned, holds something that is no
    block of the process.  The run stops at [free], before [fclose]: the
    file is still open. *)
Lemma updateImage_undefined_on_empty_file path s p1 g :
  is_terminated path = true ->
  fopen_ext (c_str path) (st_plat s) = (true, p1) ->
  to_int (fst (ftell_end_ext (fresh (st_files s)) p1)) = 0 ->
  uninit_ptr (st_plat s) = Some g ->
  g ∉ st_heap s ->
  exists s',
    updateImage path s = Undefined s' /\
    st_files s' = {[fresh (st_files s)]} ∪ st_files s /\
    st_calls s' = st_calls s.
Proof.
  intros _ Hopen Hsize Hg Hforeign.
  unfold updateImage. unfold bind at 1. unfold uninitialised_pointer.
  unfold bind at 1. unfold fopen_rb. rewrite Hopen.
  unfold bind at 1. unfold ftell_end. cbn [st_plat with_files with_plat].
  destruct (ftell_end_ext (fresh (st_files s)) p1) as [pos p2]. cbn [fst] in Hsize.
  unfold bind at 1. rewrite Hsize. cbn [Z.eqb].
  unfold bind at 1. unfold printf at 1. unfold pure at 1. rewrite Hg.
  unfold bind at 1. rewrite free_foreign by exact Hforeign.
  eexists. split; [reflexivity|]. by split.
Qed.

(** * Further properties *)

(** ** The transfer: chunk sizes, number of calls, edge cases *)

Lemma writes_unique (l : list Call) cs1 cs2 (q1 q2 : Call) :
  l ++ q1 :: map call_of_write cs1 = l ++ q2 :: map call_of_write cs2 -> cs1 = cs2.
Proof.
  intros Heq. apply app_inv_head in Heq. injection Heq as _ Heq.
  rewrite <- (chunk_writes_of_writes cs1), <- (chunk_writes_of_writes cs2).
  by rewrite Heq.
Qed.

(** The loop sends full chunks until the last call. *)
Lemma loop_full fuel : forall C desc chunk img len s,
  0 < C -> 0 <= len < 2 ^ 32 -> (Z.to_nat len <= fuel)%nat ->
  exists ret s' cs,
    writeImageToKernel_loop fuel C desc chunk img len s = Returns (ret, s') /\
    st_calls s' = st_calls s ++ map call_of_write cs /\
    full_but_last C cs /\ stops_at_failure cs ret.
Proof.
  induction fuel as [|fuel IH]; intros C desc chunk img len s HC Hlen Hfuel.
  - assert (len = 0) as -> by lia. rewrite loop_zero.
    exists kErrorOk, s, []. by rewrite app_nil_r.
  - destruct (Z.eq_dec len 0) as [->|Hne].
    { rewrite loop_zero. exists kErrorOk, s, []. by rewrite app_nil_r. }
    rewrite loop_step by done. cbv zeta.
    destruct (Z.ltb_spec len C) as [Hlt|Hge]; cbn [length_ offset fFirst fLast].
    + destruct (oplk_serviceWriteFileChunk_ext _ _ (st_plat s)) as [r p].
      cbn [fst snd]. destruct (is_kErrorOk r) eqn:Hr.
      * rewrite Z.sub_diag. change (to_UINT 0) with 0. rewrite loop_zero.
        eexists kErrorOk, _, [mkChunkWrite _ _ r]. split; [reflexivity|].
        split; [reflexivity|]. split; [done|]. simpl. by rewrite Hr.
      * eexists r, _, [mkChunkWrite _ _ r]. split; [reflexivity|].
        split; [reflexivity|]. split; [done|]. simpl. by rewrite Hr.
    + rewrite (to_UINT_id C) by lia.
      destruct (oplk_serviceWriteFileChunk_ext _ _ (st_plat s)) as [r p].
      cbn [fst snd]. destruct (is_kErrorOk r) eqn:Hr.
      * rewrite (to_UINT_id (len - C)) by lia.
        match goal with |- context [writeImageToKernel_loop fuel C ?d' ?ch' ?img' ?len' ?s1] =>
          destruct (IH C d' ch' img' len' s1) as (ret & s' & cs & Hrun & Hcalls & Hfull & Hstop);
          [lia ..|]
        end.
        rewrite Hrun. simpl in Hcalls.
        eexists ret, s', (mkChunkWrite _ _ r :: cs). split; [reflexivity|].
        split; [rewrite Hcalls, <- app_assoc; reflexivity|].
        split; [split; [done|exact Hfull]|]. simpl. by rewrite Hr.
      * eexists r, _, [mkChunkWrite _ _ r]. split; [reflexivity|].
        split; [reflexivity|]. split; [done|]. simpl. by rewrite Hr.
Qed.

(** What [writeImageToKernel] adds to [writeImageToKernel_spec]: full
    chunks until the last call, and what the allocation of the chunk
    buffer decides. *)
Lemma writeImageToKernel_run img len s :
  0 <= len < 2 ^ 32 ->
  exists ret s' cs,
    writeImageToKernel img len s = Returns (ret, s') /\
    st_calls s' = st_calls s ++
                  Call_getFileChunkSize (reported_chunk_size s) :: map call_of_write cs /\
    full_but_last (reported_chunk_size s) cs /\
    (reported_chunk_size s <> 0 -> chunk_buffer_allocated s = false ->
     cs = [] /\ ret = kErrorNoResource) /\
    (reported_chunk_size s <> 0 -> chunk_buffer_allocated s = true ->
     stops_at_failure cs ret).
Proof.
  intros Hlen.
  assert (HC := to_size_t_range lp64 (fst (oplk_serviceGetFileChunkSize_ext (st_plat s)))).
  unfold writeImageToKernel, reported_chunk_size, chunk_buffer_allocated in *.
  unfold bind at 1.
  unfold oplk_serviceGetFileChunkSize, extcall in *.
  destruct (oplk_serviceGetFileChunkSize_ext (st_plat s)) as [c0 p0]. cbn [fst] in *.
  set (C := to_size_t lp64 c0) in *.
  set (s0 := with_calls _ _) in *.
  destruct (Z.eqb_spec C 0) as [HC0|HC0].
  - eexists kErrorNoResource, _, []. split; [reflexivity|].
    split; [done|]. split; [done|]. split; intros Hne; done.
  - unfold bind at 1. unfold malloc in *.
    cbn [st_plat with_calls with_plat s0] in *.
    destruct (malloc_ext C p0) as [[|] p1]; cbn [fst].
    + set (b := fresh (st_heap s0)) in *. set (s1 := with_heap _ _) in *.
      unfold bind at 1.
      destruct (loop_full (Z.to_nat len) C (mkDesc true false 0 0)
                  (map (uninit_byte p1) (seq 0 (Z.to_nat C))) img len s1)
        as (ret & s' & cs & Hrun & Hcalls & Hfull & Hstop); [lia ..|].
      rewrite Hrun in *. simpl in Hcalls.
      unfold bind at 1.
      assert (Hheld : b ∈ st_heap s').
      { destruct (loop_spec (Z.to_nat len) C (mkDesc true false 0 0)
                  (map (uninit_byte p1) (seq 0 (Z.to_nat C))) img len s1)
          as (ret1 & s1' & cs1 & Hrun1 & _ & _ & Hheap & _); simpl; [lia ..|].
        rewrite Hrun in Hrun1. injection Hrun1 as _ <-. rewrite Hheap.
        apply fresh_held. }
      rewrite (free_held _ _ Hheld).
      eexists ret, _, cs. split; [reflexivity|].
      split; [simpl; rewrite Hcalls, <- app_assoc; reflexivity|].
      split; [done|]. split; [intros _ ?; discriminate|]. by intros _ _.
    + eexists kErrorNoResource, _, []. split; [reflexivity|].
      split; [done|]. split; [done|]. split; [done|]. intros _ ?; discriminate.
Qed.


(** Everything the two lemmas say of one run of [writeImageToKernel],
    about the chunk writes read back from the calls it made. *)
Lemma transfer_shape img len s :
  0 <= len < 2 ^ 32 -> 0 < reported_chunk_size s ->
  exists ret s',
    writeImageToKernel img len s = Returns (ret, s') /\
    let C := reported_chunk_size s in
    let cs := chunk_writes (new_calls s s') in
    new_calls s s' = Call_getFileChunkSize C :: map call_of_write cs /\
    full_but_last C cs /\
    (chunk_buffer_allocated s = false -> cs = [] /\ ret = kErrorNoResource) /\
    (chunk_buffer_allocated s = true -> stops_at_failure cs ret) /\
    consecutive 0 cs /\
    Forall (fun c => 1 <= cw_length c <= C) cs /\
    total_length cs <= len /\
    (ret = kErrorOk -> total_length cs = len) /\
    Forall (fun c => fLast (cw_desc c) = (cw_length c <? C)) cs /\
    (Z.of_nat (length img) = len -> slices img cs).
Proof.
  intros Hlen HC.
  destruct (writeImageToKernel_spec img len s Hlen)
    as (ret0 & s0' & cs0 & Hrun0 & Hcalls0 & _ & _ & _ & _ & Hshape).
  destruct (writeImageToKernel_run img len s Hlen)
    as (ret & s' & cs & Hrun & Hcalls & Hfull & Hno & Hyes).
  rewrite Hrun in Hrun0. injection Hrun0 as <- <-.
  rewrite Hcalls in Hcalls0. apply writes_unique in Hcalls0 as <-.
  exists ret, s'. split; [exact Hrun|]. cbv zeta.
  rewrite (new_calls_app _ _ _ Hcalls).
  replace (chunk_writes (_ :: map call_of_write cs)) with cs
    by (symmetry; apply chunk_writes_of_writes).
  split; [done|]. split; [done|].
  split; [apply Hno; lia|]. split; [apply Hyes; lia|].
  destruct Hshape as [[-> ->]|(_ & _ & Hcons & Hsz & Htot & Htot' & _ & Hlast & Hsl & _)].
  - split_and!; try done; try constructor. unfold total_length. simpl. lia.
  - by split_and!.
Qed.

(** *** Counting full chunks *)

Lemma full_count C cs :
  0 < C -> full_but_last C cs -> Forall (fun c => 1 <= cw_length c <= C) cs ->
  Z.of_nat (length cs) = (total_length cs + C - 1) / C.
Proof.
  intros HC. induction cs as [|c cs IH]; intros Hfull Hsz.
  - unfold total_length. simpl. symmetry. apply Z.div_small. lia.
  - destruct Hfull as [Hc Hfull]. apply Forall_cons in Hsz as [Hc1 Hsz].
    rewrite total_length_cons. cbn [length]. rewrite Nat2Z.inj_succ.
    destruct cs as [|c' cs].
    + unfold total_length. simpl.
      apply (Z.div_unique_pos _ _ 1 (cw_length c - 1)); lia.
    + rewrite (IH Hfull Hsz), Hc by done.
      replace (C + total_length (c' :: cs) + C - 1)
        with (1 * C + (total_length (c' :: cs) + C - 1)) by lia.
      rewrite Z.div_add_l by lia. lia.
Qed.

Lemma full_last C cs : forall len,
  0 < C -> full_but_last C cs -> Forall (fun c => 1 <= cw_length c <= C) cs ->
  total_length cs = len -> ~ (C | len) ->
  exists front c,
    cs = front ++ [c] /\ Forall (fun c => cw_length c = C) front /\
    cw_length c = len mod C.
Proof.
  induction cs as [|c cs IH]; intros len HC Hfull Hsz Htot Hdiv.
  - destruct Hdiv. rewrite <- Htot. apply Z.divide_0_r.
  - destruct Hfull as [Hc Hfull]. apply Forall_cons in Hsz as [Hc1 Hsz].
    rewrite total_length_cons in Htot.
    destruct cs as [|c' cs].
    + exists [], c. split; [done|]. split; [constructor|].
      unfold total_length in Htot. simpl in Htot.
      assert (cw_length c <> C).
      { intros Heq. apply Hdiv. exists 1. lia. }
      rewrite Z.mod_small; lia.
    + specialize (Hc ltac:(done)).
      destruct (IH (len - C) HC Hfull Hsz) as (front & c0 & Hcs & Hfront & Hc0); [lia| |].
      { intros [k Hk]. apply Hdiv. exists (k + 1). lia. }
      exists (c :: front), c0. rewrite Hcs. split; [done|].
      split; [by constructor|]. rewrite Hc0.
      replace len with (len - C + 1 * C) at 2 by lia. by rewrite Z.mod_add by lia.
Qed.

Lemma total_length_full C front :
  Forall (fun c => cw_length c = C) front ->
  total_length front = C * Z.of_nat (length front).
Proof.
  induction 1 as [|c front Hc _ IH]; [unfold total_length; simpl; lia|].
  rewrite total_length_cons, IH, Hc. cbn [length]. lia.
Qed.

Lemma stops_at_failure_split cs ret :
  stops_at_failure cs ret -> ret <> kErrorOk ->
  exists front c,
    cs = front ++ [c] /\ Forall (fun c => cw_ret c = kErrorOk) front /\ cw_ret c = ret.
Proof.
  induction cs as [|c cs IH]; intros Hstop Hret; [done|].
  cbn [stops_at_failure] in Hstop.
  destruct (cw_ret c) eqn:Hr; cbn [is_kErrorOk] in Hstop.
  - destruct (IH Hstop Hret) as (front & c0 & -> & Hfront & Hc0).
    exists (c :: front), c0. split; [done|]. split; [by constructor|done].
  - destruct Hstop as [-> ->]. exists [], c. by split_and!.
  - destruct Hstop as [-> ->]. exists [], c. by split_and!.
Qed.

Lemma stops_at_failure_accepted cs :
  stops_at_failure cs kErrorOk -> Forall (fun c => cw_ret c = kErrorOk) cs.
Proof.
  induction cs as [|c cs IH]; intros Hstop; [constructor|].
  cbn [stops_at_failure] in Hstop.
  destruct (cw_ret c) eqn:Hr; cbn [is_kErrorOk] in Hstop.
  - constructor; [done|by apply IH].
  - by destruct Hstop.
  - by destruct Hstop.
Qed.

Lemma slices_front front : forall img rest,
  slices img (front ++ rest) -> slices img front.
Proof.
  induction front as [|c front IH]; intros img rest Hsl; [done|].
  destruct Hsl as (Hseg & Hle & Hsl). split_and!; [done|done|by eapply IH].
Qed.


Lemma total_length_app cs1 cs2 :
  total_length (cs1 ++ cs2) = total_length cs1 + total_length cs2.
Proof.
  induction cs1 as [|c cs1 IH]; [done|].
  cbn [app]. rewrite !total_length_cons, IH. lia.
Qed.

Lemma full_but_last_front C front : forall c,
  full_but_last C (front ++ [c]) -> Forall (fun c => cw_length c = C) front.
Proof.
  induction front as [|c0 front IH]; intros c Hfull; [constructor|].
  destruct Hfull as [Hc0 Hfull]. constructor; [|by eapply IH].
  apply Hc0. by destruct front.
Qed.

Lemma stops_at_failure_all_accepted cs ret :
  stops_at_failure cs ret -> Forall (fun c => cw_ret c = kErrorOk) cs -> ret = kErrorOk.
Proof.
  induction cs as [|c cs IH]; intros Hstop Hacc; [done|].
  apply Forall_cons in Hacc as [Hc Hacc]. cbn [stops_at_failure] in Hstop.
  rewrite Hc in Hstop. cbn [is_kErrorOk] in Hstop. by apply IH.
Qed.

(** C1.  For a buffer of length L > 0 and a reported chunk size C > 0,
    [writeImageToKernel] returns, and its chunk writes split the buffer
    into consecutive segments: each call carries between 1 and C bytes,
    the i-th call carries as offset the sum of the lengths of the calls
    before it, and its segment is the bytes of the buffer at that offset.
    The segments delivered are a prefix of the buffer.  The transfer
    returns [kErrorOk] exactly when the chunk buffer could be allocated
    and the stack accepted every chunk write, and the segments delivered
    are then the whole buffer. *)
Theorem writeImageToKernel_splits_buffer img C s :
  (0 < length img)%nat ->
  Z.of_nat (length img) < 2 ^ 32 ->
  reported_chunk_size s = C ->
  0 < C ->
  exists ret s',
    writeImageToKernel img (Z.of_nat (length img)) s = Returns (ret, s') /\
    let cs := chunk_writes (new_calls s s') in
    Forall (fun c => 1 <= cw_length c <= C /\
                     length (segment c) = Z.to_nat (cw_length c)) cs /\
    (forall i c, cs !! i = Some c ->
       cw_offset c = total_length (take i cs) /\
       segment c = take (Z.to_nat (cw_length c)) (drop (Z.to_nat (cw_offset c)) img)) /\
    delivered cs `prefix_of` img /\
    (ret = kErrorOk <->
     chunk_buffer_allocated s = true /\ Forall (fun c => cw_ret c = kErrorOk) cs) /\
    (ret = kErrorOk -> delivered cs = img).
Proof.
  intros HL Hmax HC Hpos.
  destruct (transfer_shape img (Z.of_nat (length img)) s ltac:(lia) ltac:(lia))
    as (ret & s' & Hrun & _ & _ & Hno & Hyes & Hcons & Hsz & Htot & Htot' & _ & Hsl).
  exists ret, s'. split; [exact Hrun|]. cbv zeta.
  set (cs := chunk_writes (new_calls s s')) in *.
  rewrite HC in Hsz. specialize (Hsl eq_refl).
  assert (Hnn := sizes_nonneg _ _ Hsz).
  split.
  { apply Forall_and. split; [done|]. by eapply slices_segment_length. }
  split.
  { intros i c Hi. split.
    - rewrite (consecutive_lookup _ _ _ _ Hcons Hi). lia.
    - rewrite (slices_lookup _ _ 0 _ _ Hsl Hcons Hnn Hi). by rewrite Z.sub_0_r. }
  rewrite (slices_delivered _ _ Hsl Hnn). split.
  { eexists. symmetry. apply take_drop. }
  split.
  - destruct (chunk_buffer_allocated s) eqn:Halloc.
    + specialize (Hyes eq_refl). split.
      * intros ->. split; [done|]. by apply stops_at_failure_accepted.
      * intros [_ Hacc]. by eapply stops_at_failure_all_accepted.
    + destruct (Hno eq_refl) as [_ ->]. split; [done|]. by intros [? _].
  - intros Hret. rewrite (Htot' Hret), Nat2Z.id. apply firstn_all.
Qed.

(** X1.  The number of chunk writes.  With a chunk size C > 0 and an
    image length L of type [UINT], [writeImageToKernel] asks for the
    chunk size once and then only writes chunks; every chunk write but
    the last one carries exactly C bytes; there are never more than
    ceil(L / C) of them, and exactly ceil(L / C) when the transfer
    reports success. *)
Theorem writeImageToKernel_number_of_calls img len s :
  0 <= len < 2 ^ 32 -> 0 < reported_chunk_size s ->
  exists ret s',
    writeImageToKernel img len s = Returns (ret, s') /\
    let C := reported_chunk_size s in
    let cs := chunk_writes (new_calls s s') in
    new_calls s s' = Call_getFileChunkSize C :: map call_of_write cs /\
    full_but_last C cs /\
    Z.of_nat (length cs) <= (len + C - 1) / C /\
    (ret = kErrorOk -> Z.of_nat (length cs) = (len + C - 1) / C).
Proof.
  intros Hlen HC.
  destruct (transfer_shape img len s Hlen HC)
    as (ret & s' & Hrun & Hcalls & Hfull & _ & _ & _ & Hsz & Htot & Htot' & _).
  exists ret, s'. split; [exact Hrun|]. cbv zeta.
  split; [done|]. split; [done|].
  rewrite (full_count _ _ HC Hfull Hsz). split.
  - apply Z.div_le_mono; lia.
  - intros Hret. by rewrite (Htot' Hret).
Qed.

(** X2.  The final chunk of an image whose length L is not a multiple of
    the chunk size C.  When the transfer reports success, the last chunk
    write carries the last flag, the L mod C bytes that remain, and the
    offset L - L mod C; every chunk write before it carries exactly C
    bytes and no last flag. *)
Theorem writeImageToKernel_last_chunk img len s :
  0 <= len < 2 ^ 32 -> 0 < reported_chunk_size s ->
  ~ (reported_chunk_size s | len) ->
  exists ret s',
    writeImageToKernel img len s = Returns (ret, s') /\
    let C := reported_chunk_size s in
    (ret = kErrorOk ->
     exists front c,
       chunk_writes (new_calls s s') = front ++ [c] /\
       Forall (fun c' => cw_length c' = C /\ fLast (cw_desc c') = false) front /\
       fLast (cw_desc c) = true /\
       cw_length c = len mod C /\
       cw_offset c = len - len mod C).
Proof.
  intros Hlen HC Hdiv.
  destruct (transfer_shape img len s Hlen HC)
    as (ret & s' & Hrun & _ & Hfull & _ & _ & Hcons & Hsz & _ & Htot & Hlast & _).
  exists ret, s'. split; [exact Hrun|]. cbv zeta. intros Hret.
  destruct (full_last _ _ len HC Hfull Hsz (Htot Hret) Hdiv)
    as (front & c & Hcs & Hfront & Hc).
  exists front, c. split; [exact Hcs|].
  rewrite Hcs in Hlast, Hcons, Htot.
  apply Forall_app in Hlast as [Hlf Hlc]. apply Forall_inv in Hlc.
  assert (Hmod := Z.mod_pos_bound len _ HC).
  split_and!.
  - rewrite Forall_forall in Hlf, Hfront. apply Forall_forall. intros c' Hc'.
    split; [by apply Hfront|]. rewrite (Hlf c' Hc'), (Hfront c' Hc'). apply Z.ltb_irrefl.
  - rewrite Hlc, Hc. apply Z.ltb_lt. lia.
  - exact Hc.
  - rewrite (consecutive_lookup _ 0 (length front) c Hcons)
      by apply list_lookup_middle, eq_refl.
    rewrite take_app_length. specialize (Htot Hret).
    rewrite total_length_app, total_length_cons in Htot.
    unfold total_length at 2 in Htot. simpl in Htot. lia.
Qed.

(** X4.  The empty image.  Asked to write zero bytes to a stack whose
    chunk size is not zero, [writeImageToKernel] asks for the chunk size
    and writes no chunk at all; it prints nothing, keeps no memory, and
    reports success when the chunk buffer could be allocated,
    [kErrorNoResource] when not. *)
Theorem writeImageToKernel_empty_image img s :
  reported_chunk_size s <> 0 ->
  exists s',
    writeImageToKernel img 0 s
      = Returns (if chunk_buffer_allocated s then kErrorOk else kErrorNoResource, s') /\
    new_calls s s' = [Call_getFileChunkSize (reported_chunk_size s)] /\
    new_out s s' = [] /\
    st_heap s' = st_heap s /\ st_files s' = st_files s.
Proof.
  unfold writeImageToKernel, reported_chunk_size, chunk_buffer_allocated.
  unfold bind at 1. unfold oplk_serviceGetFileChunkSize, extcall.
  destruct (oplk_serviceGetFileChunkSize_ext (st_plat s)) as [c0 p0]. cbn [fst].
  intros HC. rewrite (proj2 (Z.eqb_neq _ _) HC).
  unfold bind at 1. unfold malloc. cbn [st_plat with_calls with_plat].
  destruct (malloc_ext (to_size_t lp64 c0) p0) as [[|] p1]; cbn [fst].
  - unfold bind at 1. change (Z.to_nat 0) with 0%nat. rewrite loop_zero.
    unfold bind at 1. rewrite free_held by apply fresh_held.
    eexists. split; [reflexivity|]. cbn [st_heap st_files with_heap with_plat with_calls].
    split_and!; [by apply new_calls_app| |apply alloc_free|done].
    apply new_out_app. by rewrite app_nil_r.
  - eexists. split; [reflexivity|].
    split_and!; [by apply new_calls_app| |done|done].
    apply new_out_app. by rewrite app_nil_r.
Qed.

(** X5.  No memory for the chunk buffer.  When the chunk size is not
    zero and [malloc] gives no chunk buffer, [writeImageToKernel] returns
    [kErrorNoResource] for an image of any length, having asked for the
    chunk size and written no chunk; unlike on a chunk size of zero it
    prints nothing. *)
Theorem writeImageToKernel_no_memory img len s :
  reported_chunk_size s <> 0 ->
  chunk_buffer_allocated s = false ->
  exists s',
    writeImageToKernel img len s = Returns (kErrorNoResource, s') /\
    new_calls s s' = [Call_getFileChunkSize (reported_chunk_size s)] /\
    new_out s s' = [] /\
    st_heap s' = st_heap s /\ st_files s' = st_files s.
Proof.
  unfold writeImageToKernel, reported_chunk_size, chunk_buffer_allocated.
  unfold bind at 1. unfold oplk_serviceGetFileChunkSize, extcall.
  destruct (oplk_serviceGetFileChunkSize_ext (st_plat s)) as [c0 p0]. cbn [fst].
  intros HC. rewrite (proj2 (Z.eqb_neq _ _) HC).
  unfold bind at 1. unfold malloc. cbn [st_plat with_calls with_plat].
  destruct (malloc_ext (to_size_t lp64 c0) p0) as [[|] p1]; cbn [fst]; [done|].
  intros _. eexists. split; [reflexivity|].
  split_and!; [by apply new_calls_app| |done|done].
  apply new_out_app. by rewrite app_nil_r.
Qed.

(** X6.  What the stack holds after a refused chunk.  When the transfer
    of an image ends with an error of the stack, the chunk writes are
    accepted ones followed by the refused one, whose answer is the error
    returned; the accepted writes carried exactly the bytes of the image
    before the offset of the refused one, and that offset is a multiple
    of the chunk size and lies inside the image. *)
Theorem writeImageToKernel_refused_chunk img s :
  Z.of_nat (length img) < 2 ^ 32 -> 0 < reported_chunk_size s ->
  chunk_buffer_allocated s = true ->
  exists ret s',
    writeImageToKernel img (Z.of_nat (length img)) s = Returns (ret, s') /\
    (ret <> kErrorOk ->
     exists front c,
       chunk_writes (new_calls s s') = front ++ [c] /\
       Forall (fun c' => cw_ret c' = kErrorOk) front /\
       cw_ret c = ret /\
       delivered front = take (Z.to_nat (cw_offset c)) img /\
       (reported_chunk_size s | cw_offset c) /\
       0 <= cw_offset c < Z.of_nat (length img)).
Proof.
  intros Hmax HC Halloc.
  destruct (transfer_shape img (Z.of_nat (length img)) s ltac:(lia) HC)
    as (ret & s' & Hrun & _ & Hfull & _ & Hstop & Hcons & Hsz & Htot & _ & _ & Hsl).
  exists ret, s'. split; [exact Hrun|]. intros Hret.
  destruct (stops_at_failure_split _ _ (Hstop Halloc) Hret) as (front & c & Hcs & Hacc & Hc).
  exists front, c. split; [exact Hcs|]. split; [exact Hacc|]. split; [exact Hc|].
  specialize (Hsl eq_refl). rewrite Hcs in Hfull, Hcons, Hsz, Htot, Hsl.
  assert (Hoff : cw_offset c = total_length front).
  { rewrite (consecutive_lookup _ 0 (length front) c Hcons)
      by apply list_lookup_middle, eq_refl.
    by rewrite take_app_length. }
  apply Forall_app in Hsz as [Hszf Hszc]. apply Forall_inv in Hszc.
  assert (Hnn := total_length_nonneg _ (sizes_nonneg _ _ Hszf)).
  rewrite total_length_app, total_length_cons in Htot.
  unfold total_length at 2 in Htot. simpl in Htot.
  split_and!.
  - rewrite Hoff. apply slices_delivered; [by eapply slices_front|by eapply sizes_nonneg].
  - rewrite Hoff, (total_length_full _ _ (full_but_last_front _ _ _ Hfull)).
    by apply Z.divide_factor_l.
  - lia.
  - lia.
Qed.

(** X7.  The invalidation header in one chunk.  With a chunk size above
    32 and a chunk buffer, [invalidateImage] asks for the chunk size and
    makes exactly one chunk write: first and last flag set, offset 0,
    length 32, the chunk buffer starting with 32 bytes 0xFF.  It returns
    what the stack answers to that write. *)
Theorem invalidateImage_single_write s :
  FIRMWARE_HEADER_SIZE < reported_chunk_size s ->
  chunk_buffer_allocated s = true ->
  exists ret s' chunk,
    invalidateImage s = Returns (ret, s') /\
    new_calls s s' = [Call_getFileChunkSize (reported_chunk_size s);
                      Call_writeFileChunk (mkDesc true true 0 32) chunk ret] /\
    take 32 chunk = repeat Byte.xff 32 /\
    Z.of_nat (length chunk) = reported_chunk_size s /\
    st_heap s' = st_heap s.
Proof.
  unfold invalidateImage, writeImageToKernel, reported_chunk_size, chunk_buffer_allocated.
  unfold bind at 1. unfold oplk_serviceGetFileChunkSize, extcall.
  destruct (oplk_serviceGetFileChunkSize_ext (st_plat s)) as [c0 p0]. cbn [fst].
  set (C := to_size_t lp64 c0). unfold FIRMWARE_HEADER_SIZE at 1. intros HC.
  rewrite (proj2 (Z.eqb_neq C 0)) by lia.
  unfold bind at 1. unfold malloc. cbn [st_plat with_calls with_plat].
  destruct (malloc_ext C p0) as [[|] p1]; cbn [fst]; [|done]. intros _.
  unfold bind at 1. unfold FIRMWARE_HEADER_SIZE.
  change (Z.to_nat 32) with 32%nat.
  rewrite loop_step by done. cbv zeta.
  rewrite (proj2 (Z.ltb_lt 32 C)) by lia. cbn [length_ offset fFirst fLast].
  set (chunk := memcpy _ _ _).
  destruct (oplk_serviceWriteFileChunk_ext _ chunk _) as [r p2] eqn:Hw.
  cbn [fst snd].
  assert (Hlen : Z.of_nat (length chunk) = C).
  { subst chunk. unfold memcpy, memset_FF.
    rewrite length_app, length_take, length_drop, length_map, length_seq, repeat_length.
    lia. }
  assert (Htake : take 32 chunk = repeat Byte.xff 32).
  { subst chunk. unfold memcpy, memset_FF. by rewrite take_app_length'. }
  destruct (is_kErrorOk r) eqn:Hr.
  - assert (Hok : r = kErrorOk) by (by destruct r).
    rewrite Z.sub_diag. change (to_UINT 0) with 0. rewrite loop_zero.
    unfold bind at 1. rewrite free_held by apply fresh_held.
    rewrite <- Hok.
    eexists r, _, chunk. split; [reflexivity|].
    split_and!; [apply new_calls_app; simpl; by rewrite <- app_assoc|done|done|].
    apply alloc_free.
  - unfold bind at 1. rewrite free_held by apply fresh_held.
    eexists r, _, chunk. split; [reflexivity|].
    split_and!; [apply new_calls_app; simpl; by rewrite <- app_assoc|done|done|].
    apply alloc_free.
Qed.


(** ** The options read from the command line *)

Lemma last_file_argument_cons a answers :
  last_file_argument (a :: answers) =
    match last_file_argument answers with
    | Some n => Some n
    | None => if fst a =? char_code "d" then Some (snd a) else None
    end.
Proof.
  unfold last_file_argument. rewrite filter_cons.
  destruct (decide ((fst a =? char_code "d") = true)) as [Ha|Ha].
  - rewrite Ha. cbn [map]. rewrite last_cons. by destruct (last _).
  - apply not_true_is_false in Ha. rewrite Ha. by destruct (last _).
Qed.

Lemma last_file_argument_has_flag answers name :
  last_file_argument answers = Some name -> has_flag "d" answers = true.
Proof.
  revert name. induction answers as [|a answers IH]; intros name; [done|].
  rewrite last_file_argument_cons. cbn [has_flag existsb].
  destruct (last_file_argument answers) as [n|].
  - intros _. rewrite orb_true_iff. right. exact (IH n eq_refl).
  - destruct (fst a =? char_code "d"); [done|discriminate].
Qed.

(** The parsing loop on answers that are all flags of the application:
    what it leaves in the three fields that select the invalidation and
    the update. *)
Lemma getOptions_loop_fields answers : forall s,
  Forall (fun a => known_flag a = true) answers ->
  exists s',
    getOptions_loop answers s = Returns (0, s') /\
    fInvalidateUpdateImage (st_opts s')
      = fInvalidateUpdateImage (st_opts s) || has_flag "e" answers /\
    fUpdateImage (st_opts s') = fUpdateImage (st_opts s) || has_flag "d" answers /\
    firmwareFile (st_opts s')
      = match last_file_argument answers with
        | Some name => strncpy name 256
        | None => firmwareFile (st_opts s)
        end.
Proof.
  induction answers as [|[opt optarg] answers IH]; intros s Hall.
  { exists s. cbn [has_flag existsb]. by rewrite !orb_false_r. }
  apply Forall_cons in Hall as [Ha Hall].
  cbn [getOptions_loop]. rewrite last_file_argument_cons.
  cbn [has_flag existsb fst snd]. fold (has_flag "e" answers) (has_flag "d" answers).
  unfold known_flag in Ha. cbn [fst] in Ha.
  destruct (Z.eqb_spec opt (char_code "d")) as [->|Hd].
  { change (char_code "d" =? char_code "e") with false.
    do 2 (unfold bind at 1; unfold modify_opts at 1).
    match goal with |- context [getOptions_loop answers ?s1] =>
      destruct (IH s1 Hall) as (s' & Hrun & He & Hu & Hf)
    end.
    exists s'. split; [exact Hrun|]. cbn in He, Hu, Hf.
    rewrite He, Hu, Hf. cbn [orb]. rewrite ?orb_true_r.
    by destruct (last_file_argument answers). }
  destruct (Z.eqb_spec opt (char_code "e")) as [->|He'].
  { unfold bind at 1; unfold modify_opts at 1.
    match goal with |- context [getOptions_loop answers ?s1] =>
      destruct (IH s1 Hall) as (s' & Hrun & He & Hu & Hf)
    end.
    exists s'. split; [exact Hrun|]. cbn in He, Hu, Hf.
    rewrite He, Hu, Hf. cbn [orb]. rewrite ?orb_true_r.
    by destruct (last_file_argument answers). }
  destruct (Z.eqb_spec opt (char_code "f")) as [->|Hf'].
  { do 2 (unfold bind at 1; unfold modify_opts at 1).
    match goal with |- context [getOptions_loop answers ?s1] =>
      destruct (IH s1 Hall) as (s' & Hrun & He & Hu & Hf)
    end.
    exists s'. split; [exact Hrun|]. cbn in He, Hu, Hf.
    rewrite He, Hu, Hf. cbn [orb]. rewrite ?orb_true_r.
    by destruct (last_file_argument answers). }
  destruct (Z.eqb_spec opt (char_code "u")) as [->|Hu'].
  { do 2 (unfold bind at 1; unfold modify_opts at 1).
    match goal with |- context [getOptions_loop answers ?s1] =>
      destruct (IH s1 Hall) as (s' & Hrun & He & Hu & Hf)
    end.
    exists s'. split; [exact Hrun|]. cbn in He, Hu, Hf.
    rewrite He, Hu, Hf. cbn [orb]. rewrite ?orb_true_r.
    by destruct (last_file_argument answers). }
  done.
Qed.

(** [getOptions] from zeroed options, on answers that are all flags of
    the application. *)
Lemma getOptions_fields argc argv s :
  let answers := getopt_ext argc argv "d:efu" in
  Forall (fun a => known_flag a = true) answers ->
  exists s',
    getOptions argc argv (with_opts zero_options s) = Returns (0, s') /\
    fInvalidateUpdateImage (st_opts s') = has_flag "e" answers /\
    fUpdateImage (st_opts s') = (argc =? 1) || has_flag "d" answers /\
    firmwareFile (st_opts s')
      = match last_file_argument answers with
        | Some name => strncpy name 256
        | None => if argc =? 1 then strncpy "image.bin" 256 else repeat NUL 256
        end.
Proof.
  intros answers Hall. unfold getOptions. unfold bind at 1.
  destruct (argc =? 1).
  - do 2 (unfold bind at 1; unfold modify_opts at 1). unfold modify_opts at 1.
    match goal with |- context [getOptions_loop _ ?s1] =>
      destruct (getOptions_loop_fields answers s1 Hall) as (s' & Hrun & He & Hu & Hf)
    end.
    exists s'. split; [exact Hrun|]. cbn in He, Hu, Hf. by split_and!.
  - unfold pure at 1.
    destruct (getOptions_loop_fields answers (with_opts zero_options s) Hall)
      as (s' & Hrun & He & Hu & Hf).
    exists s'. split; [exact Hrun|]. cbn in He, Hu, Hf. by split_and!.
Qed.

Lemma c_str_terminated l : forall rest,
  forallb (fun c => negb (Ascii.eqb c NUL)) l = true ->
  c_str (l ++ NUL :: rest) = string_of_list_ascii l.
Proof.
  induction l as [|c l IH]; intros rest Hl; [done|].
  cbn [forallb] in Hl. apply andb_true_iff in Hl as [Hc Hl].
  cbn [app c_str string_of_list_ascii].
  apply negb_true_iff in Hc. rewrite Hc. by rewrite IH.
Qed.

Lemma chars_length name : length (list_ascii_of_string name) = String.length name.
Proof. induction name as [|c name IH]; [done|]. simpl. by rewrite IH. Qed.

Lemma strncpy_short name n :
  (String.length name < n)%nat ->
  strncpy name n = list_ascii_of_string name
                   ++ NUL :: repeat NUL (n - String.length name - 1).
Proof.
  intros Hlen. unfold strncpy.
  assert (Hl := chars_length name).
  rewrite take_app_ge by lia. f_equal. rewrite Hl.
  assert (repeat NUL n = repeat NUL (n - String.length name)
                         ++ repeat NUL (String.length name)) as ->
    by (rewrite <- repeat_app; f_equal; lia).
  rewrite take_app_length' by (rewrite repeat_length; lia).
  replace (n - String.length name)%nat
    with (Datatypes.S (n - String.length name - 1)) at 1 by lia.
  done.
Qed.

Lemma strncpy_length name n : length (strncpy name n) = n.
Proof.
  unfold strncpy. rewrite length_take, length_app, repeat_length. lia.
Qed.

Lemma strncpy_long name n :
  (n <= String.length name)%nat ->
  strncpy name n = take n (list_ascii_of_string name).
Proof.
  intros Hlen. unfold strncpy.
  assert (Hl := chars_length name).
  rewrite take_app_le by lia. done.
Qed.

(** X8.  What the command line selects.  When every answer of [getopt]
    is one of the flags d, e, f and u, [getOptions] returns 0 and, from
    zeroed options: the invalidation is selected exactly when there is a
    flag e; the update is selected exactly when the program was started
    with no argument (argc = 1) or there is a flag d; the file name is
    the argument of the last flag d, cut or padded to the 256 characters
    of the array, else the default name when argc = 1, else empty. *)
Theorem getOptions_selected_steps argc argv s :
  let answers := getopt_ext argc argv "d:efu" in
  Forall (fun a => known_flag a = true) answers ->
  exists s',
    getOptions argc argv (with_opts zero_options s) = Returns (0, s') /\
    fInvalidateUpdateImage (st_opts s') = has_flag "e" answers /\
    fUpdateImage (st_opts s') = (argc =? 1) || has_flag "d" answers /\
    firmwareFile (st_opts s')
      = match last_file_argument answers with
        | Some name => strncpy name 256
        | None => if argc =? 1 then strncpy "image.bin" 256 else repeat NUL 256
        end /\
    length (firmwareFile (st_opts s')) = 256%nat.
Proof.
  intros answers Hall.
  destruct (getOptions_fields argc argv s Hall) as (s' & Hrun & He & Hu & Hf).
  exists s'. split_and!; [done|done|done|done|].
  rewrite Hf. destruct (last_file_argument _); [apply strncpy_length|].
  destruct (argc =? 1); [apply strncpy_length|apply repeat_length].
Qed.

Lemma is_terminated_app l rest : is_terminated (l ++ NUL :: rest) = true.
Proof.
  unfold is_terminated. rewrite existsb_app. cbn [existsb].
  rewrite Ascii.eqb_refl. cbn [orb]. apply orb_true_r.
Qed.

(** X9.  The file name survives the copy into the options.  When the
    command line is accepted (every answer of [getopt] is one of the
    flags d, e, f and u) and the argument of the last flag d is a C
    string shorter than 256 characters, the array [firmwareFile] holds a
    NUL after [getOptions], the C string it holds is that argument, and
    the update is selected. *)
Theorem getOptions_file_name argc argv s name :
  let answers := getopt_ext argc argv "d:efu" in
  Forall (fun a => known_flag a = true) answers ->
  last_file_argument answers = Some name ->
  is_c_string name = true ->
  (String.length name < 256)%nat ->
  exists s',
    getOptions argc argv (with_opts zero_options s) = Returns (0, s') /\
    fUpdateImage (st_opts s') = true /\
    is_terminated (firmwareFile (st_opts s')) = true /\
    c_str (firmwareFile (st_opts s')) = name.
Proof.
  intros answers Hall Hlast Hc Hlen.
  destruct (getOptions_fields argc argv s Hall) as (s' & Hrun & _ & Hu & Hf).
  exists s'. split; [exact Hrun|]. fold answers in Hu, Hf. split_and!.
  - rewrite Hu, (last_file_argument_has_flag _ _ Hlast). apply orb_true_r.
  - rewrite Hf, Hlast, (strncpy_short _ _ Hlen). apply is_terminated_app.
  - rewrite Hf, Hlast, (strncpy_short _ _ Hlen), c_str_terminated by exact Hc.
    apply string_of_list_ascii_of_string.
Qed.

(** X10.  A file name of 256 characters or more.  When the command line
    is accepted (every answer of [getopt] is one of the flags d, e, f
    and u) and the argument of the last flag d is a C string of 256
    characters or more, the array [firmwareFile] holds the first 256
    characters of that argument and no terminating NUL: [strncpy] with
    the size of the array as bound writes none. *)
Theorem getOptions_long_file_name argc argv s name :
  let answers := getopt_ext argc argv "d:efu" in
  Forall (fun a => known_flag a = true) answers ->
  last_file_argument answers = Some name ->
  is_c_string name = true ->
  (256 <= String.length name)%nat ->
  exists s',
    getOptions argc argv (with_opts zero_options s) = Returns (0, s') /\
    fUpdateImage (st_opts s') = true /\
    firmwareFile (st_opts s') = take 256 (list_ascii_of_string name) /\
    length (firmwareFile (st_opts s')) = 256%nat /\
    Forall (fun c => c <> NUL) (firmwareFile (st_opts s')).
Proof.
  intros answers Hall Hlast Hc Hlen.
  destruct (getOptions_fields argc argv s Hall) as (s' & Hrun & _ & Hu & Hf).
  exists s'. split; [exact Hrun|]. fold answers in Hu, Hf.
  rewrite Hlast, (strncpy_long _ _ Hlen) in Hf. split_and!.
  - rewrite Hu, (last_file_argument_has_flag _ _ Hlast). apply orb_true_r.
  - exact Hf.
  - rewrite <- (strncpy_length name 256), (strncpy_long _ _ Hlen). by rewrite Hf.
  - rewrite Hf. apply Forall_take. unfold is_c_string in Hc.
    rewrite forallb_forall in Hc. apply Forall_forall. intros c Hin ->.
    apply list_elem_of_In in Hin. specialize (Hc _ Hin). done.
Qed.


(** ** Loading the image file *)

Lemma small_size_conversions n :
  0 <= n < 2 ^ 31 -> to_int n = n /\ to_size_t lp64 n = n /\ to_UINT n = n.
Proof.
  intros Hn. unfold to_int, to_size_t, to_UINT, size_t_bits. split_and!.
  - rewrite Z.mod_small; lia.
  - destruct lp64; rewrite Z.mod_small; lia.
  - rewrite Z.mod_small; lia.
Qed.

(** What [fread] leaves in a fresh buffer of [n] bytes when the file
    gives at least [n] bytes. *)
Lemma memcpy_whole buf d n :
  length buf = n -> (n <= length d)%nat ->
  memcpy buf (take n d) (Z.of_nat (length (take n d))) = take n d.
Proof.
  intros Hbuf Hd. unfold memcpy. rewrite length_take_le, Nat2Z.id by lia.
  rewrite take_take, Nat.min_id, drop_ge by lia. apply app_nil_r.
Qed.

(** X11.  The file reaches the stack.  For a file name that is a
    terminated C string: when the file opens, its size n is positive (and
    fits [int]), the image buffer is allocated and [fread] delivers the
    n bytes, [updateImage] returns what [writeImageToKernel] returns for
    the n bytes read, run in the state that opening, allocating and
    reading leave; the calls of [updateImage] are those of that transfer,
    the query of the chunk size followed by chunk writes; the bytes these
    deliver are a prefix of the n bytes read from the file, and exactly
    these bytes when [kErrorOk] is returned; the file is closed and the
    buffers are freed. *)
Theorem updateImage_transfers_file path s p1 n p2 p3 d p4 :
  let h := fresh (st_files s) in
  is_terminated path = true ->
  fopen_ext (c_str path) (st_plat s) = (true, p1) ->
  ftell_end_ext h p1 = (n, p2) ->
  0 < n < 2 ^ 31 ->
  malloc_ext n p2 = (true, p3) ->
  fread_ext h n p3 = (d, p4) ->
  (Z.to_nat n <= length d)%nat ->
  let data := take (Z.to_nat n) d in
  let s1 := with_plat p4 (with_heap ({[fresh (st_heap s)]} ∪ st_heap s)
                            (with_files ({[h]} ∪ st_files s) s)) in
  exists ret s2 s',
    writeImageToKernel data n s1 = Returns (ret, s2) /\
    updateImage path s = Returns (ret, s') /\
    new_calls s s' = new_calls s1 s2 /\
    let cs := chunk_writes (new_calls s s') in
    (exists C, new_calls s s' = Call_getFileChunkSize C :: map call_of_write cs) /\
    delivered cs `prefix_of` data /\
    (ret = kErrorOk -> delivered cs = data) /\
    st_files s' = st_files s /\ st_heap s' = st_heap s.
Proof.
  intros h _ Hopen Htell Hn Hmalloc Hread Hd data s1.
  destruct (small_size_conversions n ltac:(lia)) as (Hint & Hsize & Huint).
  destruct (writeImageToKernel_spec data n s1 ltac:(lia))
    as (ret & s2 & cs & Hrun & Hcalls & _ & Hh & Hf & _ & Hshape).
  unfold s1 in Hcalls, Hh, Hf. simpl in Hcalls, Hh, Hf.
  exists ret, s2. eexists. split; [exact Hrun|].
  unfold updateImage. unfold bind at 1. unfold uninitialised_pointer.
  unfold bind at 1. unfold fopen_rb. rewrite Hopen. fold h.
  unfold bind at 1. unfold ftell_end. cbn [st_plat with_files with_plat].
  rewrite Htell. unfold bind at 1. rewrite Hint, Hsize, Huint.
  rewrite (proj2 (Z.eqb_neq n 0)) by lia.
  unfold bind at 1. unfold malloc at 1. cbn [st_plat with_files with_plat].
  rewrite Hmalloc. cbn [st_heap with_files with_plat].
  set (b := fresh (st_heap s)) in *.
  unfold bind at 1. unfold fread at 1. cbn [st_plat with_files with_plat with_heap].
  rewrite Hread. cbv zeta.
  rewrite memcpy_whole by (rewrite ?length_map, ?length_seq; lia).
  rewrite length_take_le, Z2Nat.id, Z.eqb_refl by lia. cbn [negb].
  unfold bind at 1. fold data.
  match goal with |- context [writeImageToKernel data n ?s0] =>
    change s0 with s1
  end.
  rewrite Hrun.
  unfold pure at 1. unfold bind at 1.
  rewrite free_held by (rewrite Hh; apply fresh_held).
  unfold bind at 1.
  rewrite fclose_open by (cbn [st_files with_heap]; rewrite Hf; apply fresh_held).
  split; [reflexivity|]. cbv zeta.
  cbn [st_files st_heap with_files with_heap with_plat].
  assert (Hnew : forall s3, st_calls s3 = st_calls s2 ->
            new_calls s s3 = Call_getFileChunkSize (reported_chunk_size s1)
                             :: map call_of_write cs).
  { intros s3 Hs3. apply new_calls_app. by rewrite Hs3. }
  erewrite Hnew by reflexivity.
  split; [symmetry; apply new_calls_app; exact Hcalls|].
  replace (chunk_writes (_ :: map call_of_write cs)) with cs
    by (symmetry; apply chunk_writes_of_writes).
  split; [by eexists|].
  rewrite Hf, Hh. unfold h, b. rewrite !alloc_free.
  destruct Hshape as [[-> ->]|(_ & _ & _ & Hsz & Htot & Htot' & _ & _ & Hsl & _)].
  { split_and!; [by eexists|done|done|done]. }
  assert (Hlen : Z.of_nat (length data) = n)
    by (unfold data; rewrite length_take_le; lia).
  specialize (Hsl Hlen).
  assert (Hnn := sizes_nonneg _ _ Hsz).
  rewrite (slices_delivered _ _ Hsl Hnn).
  split_and!; [|intros Hret; rewrite (Htot' Hret)|done|done].
  - eexists. symmetry. apply take_drop.
  - apply take_ge. lia.
Qed.

(** X12.  A file that cannot be opened.  For a file name that is a
    terminated C string: when [fopen] fails, [updateImage] prints that it
    is unable to open the file and returns [kErrorNoResource] at once: no
    call to the stack, no memory taken, no [FILE] handle. *)
Theorem updateImage_missing_file path s :
  is_terminated path = true ->
  fst (fopen_ext (c_str path) (st_plat s)) = false ->
  exists s',
    updateImage path s = Returns (kErrorNoResource, s') /\
    new_calls s s' = [] /\
    new_out s s' = [(Stdout, "Unable to open file %s\n"%string)] /\
    st_files s' = st_files s /\ st_heap s' = st_heap s.
Proof.
  intros _ Hopen.
  unfold updateImage. unfold bind at 1. unfold uninitialised_pointer.
  unfold bind at 1. unfold fopen_rb.
  destruct (fopen_ext (c_str path) (st_plat s)) as [[|] p1]; [done|].
  eexists. split; [reflexivity|].
  split_and!; [apply new_calls_app; by rewrite app_nil_r|by apply new_out_app|done|done].
Qed.

(** X13.  A file that cannot be loaded.  For a file name that is a
    terminated C string: when the file opens and its size is not zero,
    but [malloc] gives no image buffer or [fread] delivers fewer bytes
    than the size, [updateImage] returns [kErrorNoResource] without any
    call to the stack, with the file closed and nothing left allocated. *)
Theorem updateImage_file_not_loaded path s p1 n p2 :
  let h := fresh (st_files s) in
  let size := to_size_t lp64 (to_int n) in
  is_terminated path = true ->
  fopen_ext (c_str path) (st_plat s) = (true, p1) ->
  ftell_end_ext h p1 = (n, p2) ->
  to_int n <> 0 ->
  (fst (malloc_ext size p2) = false \/
   Z.of_nat (length (fst (fread_ext h size (snd (malloc_ext size p2))))) < size) ->
  exists s',
    updateImage path s = Returns (kErrorNoResource, s') /\
    new_calls s s' = [] /\
    st_files s' = st_files s /\ st_heap s' = st_heap s.
Proof.
  intros h size _ Hopen Htell Hn Hfail.
  unfold updateImage. unfold bind at 1. unfold uninitialised_pointer.
  unfold bind at 1. unfold fopen_rb. rewrite Hopen. fold h.
  unfold bind at 1. unfold ftell_end. cbn [st_plat with_files with_plat].
  rewrite Htell. unfold bind at 1. fold size.
  rewrite (proj2 (Z.eqb_neq _ 0) Hn).
  unfold bind at 1. unfold malloc at 1. cbn [st_plat with_files with_plat].
  destruct (malloc_ext size p2) as [[|] p3]; cbn [fst snd] in Hfail.
  - destruct Hfail as [?|Hshort]; [done|].
    cbn [st_heap with_files with_plat].
    unfold bind at 1. unfold fread at 1. cbn [st_plat with_files with_plat with_heap].
    destruct (fread_ext h size p3) as [d p4]. cbn [fst] in Hshort. cbv zeta.
    rewrite (proj2 (Z.eqb_neq _ size)) by (rewrite length_take; lia). cbn [negb].
    unfold bind at 1. unfold printf at 1. unfold pure at 1.
    unfold bind at 1. rewrite free_held by apply fresh_held.
    unfold bind at 1. rewrite fclose_open by apply fresh_held.
    eexists. split; [reflexivity|]. simpl.
    split_and!; [apply new_calls_app; by rewrite app_nil_r|apply alloc_free..].
  - unfold pure at 1. unfold bind at 1. unfold pure at 1.
    unfold bind at 1. rewrite fclose_open by apply fresh_held.
    eexists. split; [reflexivity|]. simpl.
    split_and!; [apply new_calls_app; by rewrite app_nil_r|apply alloc_free|done].
Qed.


(** ** The calls of a whole run *)

Lemma is_kErrorOk_true r : is_kErrorOk r = true -> r = kErrorOk.
Proof. by destruct r. Qed.

Lemma is_kErrorOk_false r : is_kErrorOk r = false -> r <> kErrorOk.
Proof. by destruct r. Qed.

(** The calls of [invalidateImage]: those of one transfer, which has
    delivered the whole invalid header when it returned [kErrorOk]. *)
Lemma invalidate_run s :
  exists ret s' l,
    invalidateImage s = Returns (ret, s') /\
    st_opts s' = st_opts s /\ st_calls s' = st_calls s ++ l /\
    transfer_calls l ret /\
    (ret = kErrorOk -> delivered (chunk_writes l) = repeat Byte.xff 32).
Proof.
  unfold invalidateImage, memset_FF, FIRMWARE_HEADER_SIZE.
  change (Z.to_nat 32) with 32%nat.
  destruct (writeImageToKernel_spec (repeat Byte.xff 32) 32 s)
    as (ret & s' & cs & Hrun & Hcalls & Ho & _ & _ & _ & Hshape); [lia|].
  eexists ret, s', _. split_and!; [done|done|exact Hcalls| |].
  - exists (reported_chunk_size s), cs. split; [done|]. intros ->.
    destruct Hshape as [[-> _]|(_ & Hstop & _)]; [constructor|].
    by apply stops_at_failure_accepted.
  - intros ->.
    change (chunk_writes (Call_getFileChunkSize (reported_chunk_size s)
                          :: map call_of_write cs))
      with (chunk_writes (map call_of_write cs)).
    rewrite chunk_writes_of_writes.
    destruct Hshape as [[_ [=]]|(_ & _ & _ & Hsz & _ & Htot & _ & _ & Hsl & _)].
    rewrite (slices_delivered _ _ (Hsl eq_refl) (sizes_nonneg _ _ Hsz)), (Htot eq_refl).
    by apply take_ge.
Qed.

(** A path of [updateImage] that returns [kErrorNoResource] without any
    call. *)
Ltac no_transfer :=
  intros <-; eexists _, [];
  split; [left; eexists; split; [reflexivity|by left]|];
  simpl; by rewrite app_nil_r.

(** The calls of [updateImage]: none, or those of one transfer. *)
Lemma update_run path s out :
  updateImage path s = out ->
  exists s' l,
    ((exists ret, out = Returns (ret, s') /\
                  ((l = [] /\ ret = kErrorNoResource) \/ transfer_calls l ret)) \/
     (out = Undefined s' /\ l = [])) /\
    st_opts s' = st_opts s /\ st_calls s' = st_calls s ++ l.
Proof.
  unfold updateImage. unfold bind at 1. unfold uninitialised_pointer.
  unfold bind at 1. unfold fopen_rb.
  destruct (fopen_ext (c_str path) (st_plat s)) as [[|] p1]; [|no_transfer].
  set (h := fresh (st_files s)).
  unfold bind at 1. unfold ftell_end. cbn [st_plat with_files with_plat].
  destruct (ftell_end_ext h p1) as [pos p2].
  unfold bind at 1.
  destruct (to_int pos =? 0).
  - unfold bind at 1. unfold printf at 1. unfold pure at 1.
    destruct (uninit_ptr (st_plat s)) as [g|].
    + destruct (decide (g ∈ st_heap s)) as [Hheld|Hforeign].
      * unfold bind at 1. rewrite free_held by exact Hheld.
        unfold bind at 1. rewrite fclose_open by apply fresh_held.
        no_transfer.
      * unfold bind at 1. rewrite free_foreign by exact Hforeign.
        intros <-. eexists _, []. split; [right; split; reflexivity|].
        simpl. by rewrite app_nil_r.
    + unfold bind at 1. unfold pure at 1.
      unfold bind at 1. rewrite fclose_open by apply fresh_held.
      no_transfer.
  - unfold bind at 1. unfold malloc at 1. cbn [st_plat with_files with_plat].
    destruct (malloc_ext (to_size_t lp64 (to_int pos)) p2) as [[|] p3].
    2: { unfold pure at 1. unfold bind at 1. unfold pure at 1.
         unfold bind at 1. rewrite fclose_open by apply fresh_held.
         no_transfer. }
    cbn [st_heap with_files with_plat].
    set (b := fresh (st_heap s)).
    unfold bind at 1. unfold fread at 1. cbn [st_plat with_files with_plat with_heap].
    destruct (fread_ext h (to_size_t lp64 (to_int pos)) p3) as [d p4].
    cbv zeta.
    destruct (negb _).
    + unfold bind at 1. unfold printf at 1. unfold pure at 1.
      unfold bind at 1. rewrite free_held by apply fresh_held.
      unfold bind at 1. rewrite fclose_open by apply fresh_held.
      no_transfer.
    + unfold bind at 1.
      match goal with |- context [writeImageToKernel ?img ?len ?s1] =>
        destruct (writeImageToKernel_spec img len s1 (to_UINT_range _))
          as (ret & s' & cs & Hrun & Hcalls & Ho & Hh & Hf & _ & Hshape)
      end.
      rewrite Hrun. simpl in Hcalls, Ho, Hh, Hf.
      unfold pure at 1. unfold bind at 1.
      rewrite free_held by (rewrite Hh; apply fresh_held).
      unfold bind at 1.
      rewrite fclose_open by (cbn [st_files with_heap]; rewrite Hf; apply fresh_held).
      intros <-.
      eexists _, _. split.
      { left. eexists. split; [reflexivity|]. right.
        eexists _, cs. split; [reflexivity|]. intros ->.
        destruct Hshape as [[-> _]|(_ & Hstop & _)]; [constructor|].
        by apply stops_at_failure_accepted. }
      simpl. split; [exact Ho|exact Hcalls].
Qed.

Lemma transfer_calls_no_reconfig l ret : transfer_calls l ret -> reconfig_calls l = [].
Proof. intros (C & cs & -> & _). apply reconfig_calls_of_writes. Qed.

(** Everything after the parsing of the options: [main] returns 0 after
    calls of the shape [main_calls], or stops in [updateImage] without
    having made a reconfiguration request. *)
Lemma main_run_trace s out :
  main_run s = out ->
  exists s' l,
    ((out = Returns (0, s') /\ main_calls (st_opts s) l) \/
     (out = Undefined s' /\ reconfig_calls l = [] /\ fUpdateImage (st_opts s) = true)) /\
    st_opts s' = st_opts s /\ st_calls s' = st_calls s ++ l.
Proof.
  unfold main_run. unfold bind at 1. unfold system_init, extcall.
  destruct (system_init_ext (st_plat s)) as [rc p1].
  destruct (Z.eqb_spec rc 0) as [->|Hrc]; cbn [negb].
  2: { intros <-. eexists _, _. split; [left; split; [reflexivity|]|by simpl].
       left. by exists rc. }
  do 4 (unfold bind at 1; unfold printf at 1).
  unfold bind at 1. unfold oplk_initialize, extcall.
  cbn [st_plat st_calls with_out with_calls with_plat].
  destruct (oplk_initialize_ext p1) as [r1 p2].
  destruct (is_kErrorOk r1) eqn:Hr1; cbn [negb].
  2: { intros <-. eexists _, _. split; [left; split; [reflexivity|]|].
       - right. left. exists r1. split; [by apply is_kErrorOk_false|reflexivity].
       - simpl. by rewrite <- !app_assoc. }
  apply is_kErrorOk_true in Hr1 as ->.
  unfold bind at 1. unfold oplk_getStackInfo, extcall.
  cbn [st_plat st_calls with_out with_calls with_plat].
  destruct (oplk_getStackInfo_ext p2) as [[r2 info] p3]. cbn [fst].
  destruct (is_kErrorOk r2) eqn:Hr2; cbn [negb].
  2: { intros <-. eexists _, _. split; [left; split; [reflexivity|]|].
       - right. right. left. exists r2. split; [by apply is_kErrorOk_false|reflexivity].
       - simpl. by rewrite <- !app_assoc. }
  apply is_kErrorOk_true in Hr2 as ->.
  do 4 (unfold bind at 1; unfold printf at 1).
  unfold bind at 1. unfold get_opts at 1.
  cbn [st_opts with_out with_calls with_plat].
  set (o := st_opts s).
  set (s3 := with_out _ _).
  assert (Ho3 : st_opts s3 = o) by done.
  assert (Hc3 : st_calls s3 = st_calls s ++ [Call_system_init 0; Call_initialize kErrorOk;
                                             Call_getStackInfo kErrorOk]).
  { subst s3. simpl. by rewrite <- !app_assoc. }
  clearbody s3.
  assert (Hleave : forall fmt s4,
            bind (printf fmt) (fun _ => bind oplk_exit (fun _ => main_Exit)) s4
            = Returns (0, with_calls (st_calls s4 ++ [Call_oplk_exit; Call_system_exit])
                            (with_plat (system_exit_ext (oplk_exit_ext (st_plat s4)))
                               (with_out (st_out s4 ++ [(Stdout, fmt)]) s4)))).
  { intros fmt s4. unfold main_Exit, bind, printf, oplk_exit, system_exit, extcall, pure.
    simpl. by rewrite <- app_assoc. }
  (* the invalidation *)
  assert (Hinv : exists ri s4 inv,
            (if fInvalidateUpdateImage o then invalidateImage else pure kErrorOk) s3
              = Returns (ri, s4) /\
            st_opts s4 = o /\ st_calls s4 = st_calls s3 ++ inv /\ invalidation o inv ri).
  { unfold invalidation. destruct (fInvalidateUpdateImage o).
    - destruct (invalidate_run s3) as (ri & s4 & inv & Hrun & Ho4 & Hc4 & Ht & Hd).
      exists ri, s4, inv. split_and!; [done|congruence|done|done|done].
    - exists kErrorOk, s3, []. rewrite app_nil_r. by split_and!. }
  destruct Hinv as (ri & s4 & inv & Hrun4 & Ho4 & Hc4 & Hinv).
  assert (Hinv_rc : reconfig_calls inv = []).
  { unfold invalidation in Hinv. destruct (fInvalidateUpdateImage o).
    - destruct Hinv as [Ht _]. by eapply transfer_calls_no_reconfig.
    - by destruct Hinv as [-> _]. }
  unfold bind at 1. rewrite Hrun4.
  destruct (is_kErrorOk ri) eqn:Hri; cbn [negb].
  2: { rewrite Hleave. intros <-. eexists _, _. split; [left; split; [reflexivity|]|].
       - right. right. right. exists inv. split; [|reflexivity].
         exists inv, ri. split; [done|]. by rewrite Hri.
       - simpl. split; [congruence|]. rewrite Hc4, Hc3, <- !app_assoc. reflexivity. }
  unfold bind at 1.
  assert (Hmsg : exists s5,
            (if fInvalidateUpdateImage o
             then printf "\nFirmware invalidated successfully\n" else pure tt) s4
              = Returns (tt, s5) /\
            st_opts s5 = o /\ st_calls s5 = st_calls s4).
  { destruct (fInvalidateUpdateImage o); eexists; by split_and!. }
  destruct Hmsg as (s5 & -> & Ho5 & Hc5).
  unfold bind at 1. unfold get_opts at 1. rewrite Ho5.
  (* the update *)
  assert (Hupd : exists s6 upd,
            ((exists ru,
                (if fUpdateImage o then updateImage (firmwareFile o) else pure kErrorOk) s5
                  = Returns (ru, s6) /\ update o upd ru) \/
             ((if fUpdateImage o then updateImage (firmwareFile o) else pure kErrorOk) s5
                = Undefined s6 /\ upd = [] /\ fUpdateImage o = true)) /\
            st_opts s6 = o /\ st_calls s6 = st_calls s5 ++ upd).
  { unfold update. destruct (fUpdateImage o).
    - destruct (update_run (firmwareFile o) s5 _ eq_refl)
        as (s6 & upd & [(ru & Hrun & Hu)|[Hrun ->]] & Ho6 & Hc6).
      + exists s6, upd. split_and!; [|congruence|done]. left. by exists ru.
      + exists s6, []. split_and!; [|congruence|done]. by right.
    - exists s5, []. rewrite app_nil_r. split_and!; [|done|done].
      left. exists kErrorOk. by split. }
  destruct Hupd as (s6 & upd & [(ru & Hrun6 & Hupd)|(Hrun6 & -> & Hsel)] & Ho6 & Hc6).
  2: { unfold bind at 1. rewrite Hrun6. intros <-.
       exists s6, ([Call_system_init 0; Call_initialize kErrorOk;
                    Call_getStackInfo kErrorOk] ++ inv).
       split; [right; split; [done|split; [|done]]|].
       - by rewrite reconfig_calls_app, Hinv_rc.
       - split; [congruence|].
         rewrite Hc6, Hc5, Hc4, Hc3, app_nil_r, <- !app_assoc. reflexivity. }
  unfold bind at 1. rewrite Hrun6.
  destruct (is_kErrorOk ru) eqn:Hru; cbn [negb].
  2: { rewrite Hleave. intros <-. eexists _, _. split; [left; split; [reflexivity|]|].
       - right. right. right. exists (inv ++ upd). split; [|by rewrite <- !app_assoc].
         exists inv, ri. split; [done|]. rewrite Hri.
         exists upd, ru. split; [done|]. by rewrite Hru.
       - simpl. split; [congruence|].
         rewrite Hc6, Hc5, Hc4, Hc3, <- !app_assoc. reflexivity. }
  unfold bind at 1. unfold get_opts at 1. rewrite Ho6.
  (* the reconfiguration *)
  assert (Hrec : exists rr s7 rec,
            (if fFactoryReset o || fUpdateReset o
             then bind (printf "\nIssue firmware reconfiguration to %s image...\n")
                       (fun _ => oplk_serviceExecFirmwareReconfig (fFactoryReset o))
             else pure kErrorOk) s6 = Returns (rr, s7) /\
            st_opts s7 = o /\ st_calls s7 = st_calls s6 ++ rec /\ reconfiguration o rec).
  { unfold reconfiguration. destruct (fFactoryReset o || fUpdateReset o).
    - unfold bind, printf, oplk_serviceExecFirmwareReconfig, extcall. simpl.
      destruct (oplk_serviceExecFirmwareReconfig_ext _ _) as [rr p7].
      eexists rr, _, _. split; [reflexivity|]. simpl. split_and!; [done|done|by eexists].
    - exists kErrorOk, s6, []. rewrite app_nil_r. by split_and!. }
  destruct Hrec as (rr & s7 & rec & Hrun7 & Ho7 & Hc7 & Hrec).
  assert (Hbody : session o (inv ++ upd ++ rec)).
  { exists inv, ri. split; [done|]. rewrite Hri.
    exists upd, ru. split; [done|]. rewrite Hru. by exists rec. }
  unfold bind at 1. rewrite Hrun7.
  destruct (is_kErrorOk rr) eqn:Hrr; cbn [negb].
  2: { rewrite Hleave. intros <-. eexists _, _. split; [left; split; [reflexivity|]|].
       - right. right. right. exists (inv ++ upd ++ rec).
         split; [done|by rewrite <- !app_assoc].
       - simpl. split; [congruence|].
         rewrite Hc7, Hc6, Hc5, Hc4, Hc3, <- !app_assoc. reflexivity. }
  unfold bind at 1.
  assert (Hmsg : exists s8,
            (if fFactoryReset o || fUpdateReset o then printf "Done\n" else pure tt) s7
              = Returns (tt, s8) /\
            st_opts s8 = o /\ st_calls s8 = st_calls s7 /\ st_plat s8 = st_plat s7).
  { destruct (fFactoryReset o || fUpdateReset o); eexists; by split_and!. }
  destruct Hmsg as (s8 & -> & Ho8 & Hc8 & _).
  unfold main_Exit, bind, oplk_exit, system_exit, extcall, pure. simpl.
  intros <-. eexists _, _. split; [left; split; [reflexivity|]|].
  - right. right. right. exists (inv ++ upd ++ rec).
    split; [done|by rewrite <- !app_assoc].
  - simpl. split; [congruence|].
    rewrite Hc8, Hc7, Hc6, Hc5, Hc4, Hc3, <- !app_assoc. reflexivity.
Qed.


Lemma transfer_calls_service l ret :
  transfer_calls l ret -> Forall (fun c => is_service_call c = true) l.
Proof.
  intros (C & cs & -> & _). constructor; [done|].
  apply Forall_forall. intros c Hc. apply list_elem_of_In, in_map_iff in Hc.
  by destruct Hc as (w & <- & _).
Qed.

Lemma transfer_calls_accepted l :
  transfer_calls l kErrorOk -> Forall (fun c => cw_ret c = kErrorOk) (chunk_writes l).
Proof.
  intros (C & cs & -> & Hacc).
  change (chunk_writes (Call_getFileChunkSize C :: map call_of_write cs))
    with (chunk_writes (map call_of_write cs)).
  rewrite chunk_writes_of_writes. by apply Hacc.
Qed.

Lemma invalidation_service o l ret :
  invalidation o l ret -> Forall (fun c => is_service_call c = true) l.
Proof.
  unfold invalidation. destruct (fInvalidateUpdateImage o).
  - intros [Ht _]. by eapply transfer_calls_service.
  - intros [-> _]. constructor.
Qed.

Lemma update_service o l ret :
  update o l ret -> Forall (fun c => is_service_call c = true) l.
Proof.
  unfold update. destruct (fUpdateImage o).
  - intros [[-> _]|Ht]; [constructor|by eapply transfer_calls_service].
  - intros [-> _]. constructor.
Qed.

Lemma reconfiguration_service o l :
  reconfiguration o l -> Forall (fun c => is_service_call c = true) l.
Proof.
  unfold reconfiguration. destruct (fFactoryReset o || fUpdateReset o).
  - intros [ret ->]. by repeat constructor.
  - intros ->. constructor.
Qed.

Lemma session_service o body :
  session o body -> Forall (fun c => is_service_call c = true) body.
Proof.
  intros (inv & ri & Hinv & Hrest).
  assert (Hi := invalidation_service _ _ _ Hinv).
  destruct (is_kErrorOk ri); [|by subst].
  destruct Hrest as (upd & ru & Hupd & Hrest).
  assert (Hu := update_service _ _ _ Hupd).
  destruct (is_kErrorOk ru); [|subst; by apply Forall_app].
  destruct Hrest as (rec & Hrec & ->).
  assert (Hr := reconfiguration_service _ _ Hrec).
  by rewrite !Forall_app.
Qed.

(** What a run of [main] is made of: the parsing of the options from
    zeroed options, then nothing on an unknown flag, else everything
    [main_run_trace] describes. *)
Lemma main_trace argc argv s out :
  main argc argv s = out ->
  exists r s1,
    getOptions argc argv (with_opts zero_options s) = Returns (r, s1) /\
    st_plat s1 = st_plat s /\
    ((r = -1 /\ out = Returns (-1, s1) /\ new_calls s s1 = [] /\
      Exists unknown_flag (getopt_ext argc argv "d:efu")) \/
     (r = 0 /\ st_out s1 = st_out s /\
      Forall (fun a => known_flag a = true) (getopt_ext argc argv "d:efu") /\
      exists s',
        ((out = Returns (0, s') /\ main_calls (st_opts s1) (new_calls s s')) \/
         (out = Undefined s' /\ reconfig_calls (new_calls s s') = [] /\
          fUpdateImage (st_opts s1) = true)) /\
        st_opts s' = st_opts s1 /\
        new_calls s s' = new_calls s1 s' /\ new_out s s' = new_out s1 s')).
Proof.
  intros Hmain.
  destruct (getOptions_spec argc argv s)
    as (r & s1 & Hrun & Hp & _ & _ & Hc & _ & Hres).
  rewrite (main_unfold _ _ _ _ _ Hrun) in Hmain.
  exists r, s1. split; [exact Hrun|]. split; [exact Hp|].
  destruct Hres as [(-> & Hall & Hout & _)|(-> & Hsome & Hout)]; cbn [Z.eqb] in Hmain.
  - right. split; [done|]. split; [done|]. split; [done|].
    destruct (main_run_trace s1 out Hmain) as (s' & l & Hend & Ho & Hcalls).
    exists s'.
    assert (Hl : new_calls s s' = l) by (apply new_calls_app; by rewrite <- Hc).
    rewrite Hl. split_and!; [done|done| |].
    + symmetry. by apply new_calls_app.
    + unfold new_out. by rewrite Hout.
  - left. split_and!; [done|done| |done].
    apply new_calls_app. by rewrite app_nil_r.
Qed.

(** X14.  The system cannot be initialised.  When the command line is
    accepted and [system_init] does not return 0, [main] prints an error
    on [stderr] and returns 0; [system_init] is the only call it makes:
    no call to the stack, and no [system_exit]. *)
Theorem main_system_init_failure argc argv s :
  Forall (fun a => known_flag a = true) (getopt_ext argc argv "d:efu") ->
  fst (system_init_ext (st_plat s)) <> 0 ->
  exists s',
    main argc argv s = Returns (0, s') /\
    new_calls s s' = [Call_system_init (fst (system_init_ext (st_plat s)))] /\
    new_out s s' = [(Stderr, "Error initializing system!"%string)].
Proof.
  intros Hall Hrc.
  destruct (getOptions_spec argc argv s)
    as (r & s1 & Hrun & Hp & _ & _ & Hc & _ & Hres).
  rewrite (main_unfold _ _ _ _ _ Hrun).
  destruct Hres as [(-> & _ & Hout & _)|(-> & Hsome & _)]; cbn [Z.eqb].
  2: { destruct (known_unknown _ Hall Hsome). }
  unfold main_run. unfold bind at 1. unfold system_init, extcall. rewrite Hp.
  destruct (system_init_ext (st_plat s)) as [rc p1]. cbn [fst] in *.
  rewrite (proj2 (Z.eqb_neq rc 0) Hrc). cbn [negb].
  eexists. split; [reflexivity|]. simpl.
  split; [apply new_calls_app; by rewrite Hc|apply new_out_app; by rewrite Hout].
Qed.

Lemma service_call_in (c : Call) l :
  Forall (fun c => is_service_call c = true) l -> c ∈ l -> is_service_call c = true.
Proof. rewrite Forall_forall. auto. Qed.

(** X15.  Shutting down.  In a run of [main] that returns:
    [system_exit] is called exactly when [system_init] returned 0, and
    then once, as the last call; [oplk_exit] is called exactly when the
    query of the stack information succeeded, and then once, right
    before [system_exit].  So a stack that was initialised but whose
    information could not be read is not shut down with [oplk_exit]. *)
Theorem main_teardown argc argv s code s' :
  main argc argv s = Returns (code, s') ->
  let l := new_calls s s' in
  (Call_system_init 0 ∈ l <-> Call_system_exit ∈ l) /\
  (Call_system_exit ∈ l ->
   exists pre, l = pre ++ [Call_system_exit] /\ Call_system_exit ∉ pre) /\
  (Call_getStackInfo kErrorOk ∈ l <-> Call_oplk_exit ∈ l) /\
  (Call_oplk_exit ∈ l ->
   exists pre, l = pre ++ [Call_oplk_exit; Call_system_exit] /\ Call_oplk_exit ∉ pre).
Proof.
  intros Hmain l.
  destruct (main_trace _ _ _ _ Hmain) as (r & s1 & _ & _ & Hcases).
  destruct Hcases as [(_ & [= -> ->] & Hl & _)|(_ & _ & _ & s2 & Hend & _)].
  { subst l. rewrite Hl. split_and!; try (intros H0; by apply elem_of_nil in H0).
    all: split; intros H0; by apply elem_of_nil in H0. }
  destruct Hend as [[[= -> ->] Hshape]|[[=] _]]. fold l in Hshape.
  destruct Hshape as [(rc & Hrc & ->)|[(r1 & Hr1 & ->)|[(r2 & Hr2 & ->)|(body & Hbody & ->)]]].
  - split_and!.
    + rewrite !list_elem_of_singleton. split; [intros [= ?]; done|done].
    + rewrite list_elem_of_singleton. done.
    + rewrite !list_elem_of_singleton. split; done.
    + rewrite list_elem_of_singleton. done.
  - split_and!.
    + rewrite !elem_of_cons. split; intros _; auto.
    + intros _. exists [Call_system_init 0; Call_initialize r1]. split; [done|].
      rewrite !elem_of_cons, elem_of_nil. intros [?|[?|?]]; done.
    + rewrite !elem_of_cons, !elem_of_nil. split; intros [?|[?|[?|?]]]; done.
    + rewrite !elem_of_cons, !elem_of_nil. intros [?|[?|[?|?]]]; done.
  - split_and!.
    + rewrite !elem_of_cons. split; intros _; auto.
    + intros _.
      exists [Call_system_init 0; Call_initialize kErrorOk; Call_getStackInfo r2].
      split; [done|].
      rewrite !elem_of_cons, elem_of_nil. intros [?|[?|[?|?]]]; done.
    + rewrite !elem_of_cons, !elem_of_nil.
      split; [intros [?|[?|[[= ?]|[?|?]]]]; done|intros [?|[?|[?|[?|?]]]]; done].
    + rewrite !elem_of_cons, !elem_of_nil. intros [?|[?|[?|[?|?]]]]; done.
  - assert (Hsvc := session_service _ _ Hbody).
    assert (Hno : forall c, is_service_call c = false -> c ∉ body).
    { intros c Hc Hin. rewrite (service_call_in c _ Hsvc Hin) in Hc. done. }
    split_and!.
    + rewrite !elem_of_cons, !elem_of_app, !elem_of_cons. split; intros _; auto 10.
    + intros _.
      exists (Call_system_init 0 :: Call_initialize kErrorOk :: Call_getStackInfo kErrorOk
              :: body ++ [Call_oplk_exit]).
      split; [simpl; by rewrite <- app_assoc|].
      rewrite !elem_of_cons, elem_of_app, elem_of_cons, elem_of_nil.
      intros [?|[?|[?|[?|[?|?]]]]]; try done. by apply (Hno Call_system_exit).
    + rewrite !elem_of_cons, !elem_of_app, !elem_of_cons. split; intros _; auto 10.
    + intros _.
      exists (Call_system_init 0 :: Call_initialize kErrorOk :: Call_getStackInfo kErrorOk
              :: body).
      split; [done|].
      rewrite !elem_of_cons. intros [?|[?|[?|?]]]; try done. by apply (Hno Call_oplk_exit).
Qed.


Lemma invalidation_no_reconfig o l ret : invalidation o l ret -> reconfig_calls l = [].
Proof.
  unfold invalidation. destruct (fInvalidateUpdateImage o).
  - intros [Ht _]. by eapply transfer_calls_no_reconfig.
  - by intros [-> _].
Qed.

Lemma update_no_reconfig o l ret : update o l ret -> reconfig_calls l = [].
Proof.
  unfold update. destruct (fUpdateImage o).
  - intros [[-> _]|Ht]; [done|by eapply transfer_calls_no_reconfig].
  - by intros [-> _].
Qed.

Lemma invalidation_accepted o l :
  invalidation o l kErrorOk -> Forall (fun c => cw_ret c = kErrorOk) (chunk_writes l).
Proof.
  unfold invalidation. destruct (fInvalidateUpdateImage o).
  - intros [Ht _]. by apply transfer_calls_accepted.
  - intros [-> _]. constructor.
Qed.

Lemma invalidation_header o l :
  fInvalidateUpdateImage o = true -> invalidation o l kErrorOk ->
  delivered (chunk_writes l) = repeat Byte.xff 32.
Proof. unfold invalidation. intros ->. intros [_ Hd]. by apply Hd. Qed.

Lemma delivered_app cs1 cs2 : delivered (cs1 ++ cs2) = delivered cs1 ++ delivered cs2.
Proof. unfold delivered. by rewrite map_app, concat_app. Qed.

Lemma update_accepted o l :
  update o l kErrorOk -> Forall (fun c => cw_ret c = kErrorOk) (chunk_writes l).
Proof.
  unfold update. destruct (fUpdateImage o).
  - intros [[-> _]|Ht]; [constructor|by apply transfer_calls_accepted].
  - intros [-> _]. constructor.
Qed.

Lemma reconfig_calls_cons_nil c l :
  reconfig_calls (c :: l) = [] -> reconfig_of_call c = None /\ reconfig_calls l = [].
Proof.
  unfold reconfig_calls. simpl. by destruct (reconfig_of_call c).
Qed.

(** A reconfiguration request in a list of calls that holds one is at
    one place only. *)
Lemma reconfig_unique A : forall x B l1 f r l2,
  A ++ x :: B = l1 ++ Call_execFirmwareReconfig f r :: l2 ->
  reconfig_calls A = [] -> reconfig_calls B = [] ->
  l1 = A /\ x = Call_execFirmwareReconfig f r /\ l2 = B.
Proof.
  induction A as [|a A IH]; intros x B l1 f r l2 Heq HA HB.
  - destruct l1 as [|z l1]; cbn [app] in Heq.
    + by injection Heq as -> ->.
    + injection Heq as -> ->. rewrite reconfig_calls_app in HB.
      by destruct (reconfig_calls l1).
  - apply reconfig_calls_cons_nil in HA as [Ha HA].
    destruct l1 as [|z l1]; cbn [app] in Heq.
    + injection Heq as -> _. done.
    + injection Heq as -> Heq.
      destruct (IH _ _ _ _ _ _ Heq HA HB) as (-> & -> & ->). done.
Qed.

Lemma no_reconfig_in l l1 f r l2 :
  reconfig_calls l = [] -> l = l1 ++ Call_execFirmwareReconfig f r :: l2 -> False.
Proof.
  intros Hl ->. rewrite reconfig_calls_app in Hl. by destruct (reconfig_calls l1).
Qed.

(** X16.  No reconfiguration after a failure.  In a run of [main] that
    returns, a reconfiguration request is made only after every chunk
    write of the run was accepted by the stack and, when the invalidation
    was selected, after the 32 bytes 0xFF of the invalid header were
    delivered, before any other byte; it is the only request, its
    argument is the factory-reset flag of the options, and nothing
    follows it but [oplk_exit] and [system_exit]. *)
Theorem main_reconfig_after_accepted_writes argc argv s code s' l1 f r l2 :
  main argc argv s = Returns (code, s') ->
  new_calls s s' = l1 ++ Call_execFirmwareReconfig f r :: l2 ->
  Forall (fun c => cw_ret c = kErrorOk) (chunk_writes l1) /\
  (fInvalidateUpdateImage (st_opts s') = true ->
   repeat Byte.xff 32 `prefix_of` delivered (chunk_writes l1)) /\
  reconfig_calls l1 = [] /\
  l2 = [Call_oplk_exit; Call_system_exit] /\
  f = fFactoryReset (st_opts s') /\
  code = 0.
Proof.
  intros Hmain Hl.
  destruct (main_trace _ _ _ _ Hmain) as (r0 & s1 & _ & _ & Hcases).
  destruct Hcases as [(_ & [= -> ->] & Hnil & _)|(_ & _ & _ & s2 & Hend & Ho & _)].
  { rewrite Hnil in Hl. by destruct l1. }
  destruct Hend as [[[= -> ->] Hshape]|[[=] _]]. rewrite Ho. clear Ho.
  set (o := st_opts s1) in *.
  destruct Hshape as [(rc & _ & Hs)|[(r1 & _ & Hs)|[(r2 & _ & Hs)|(body & Hbody & Hs)]]];
    rewrite Hs in Hl;
    try (exfalso; eapply no_reconfig_in; [|exact Hl]; reflexivity).
  destruct Hbody as (inv & ri & Hinv & Hrest).
  assert (Hinv_rc := invalidation_no_reconfig _ _ _ Hinv).
  destruct (is_kErrorOk ri) eqn:Hri.
  2: { subst body. exfalso. eapply no_reconfig_in; [|exact Hl].
       change (reconfig_calls (inv ++ [Call_oplk_exit; Call_system_exit]) = []).
       by rewrite reconfig_calls_app, Hinv_rc. }
  apply is_kErrorOk_true in Hri as ->.
  destruct Hrest as (upd & ru & Hupd & Hrest).
  assert (Hupd_rc := update_no_reconfig _ _ _ Hupd).
  destruct (is_kErrorOk ru) eqn:Hru.
  2: { subst body. exfalso. eapply no_reconfig_in; [|exact Hl].
       change (reconfig_calls ((inv ++ upd) ++ [Call_oplk_exit; Call_system_exit]) = []).
       by rewrite !reconfig_calls_app, Hinv_rc, Hupd_rc. }
  apply is_kErrorOk_true in Hru as ->.
  destruct Hrest as (rec & Hrec & ->).
  unfold reconfiguration in Hrec.
  destruct (fFactoryReset o || fUpdateReset o).
  2: { subst rec. exfalso. eapply no_reconfig_in; [|exact Hl].
       change (reconfig_calls ((inv ++ upd ++ []) ++ [Call_oplk_exit; Call_system_exit])
               = []).
       by rewrite !reconfig_calls_app, Hinv_rc, Hupd_rc. }
  destruct Hrec as [rr ->].
  assert (Heq : ([Call_system_init 0; Call_initialize kErrorOk; Call_getStackInfo kErrorOk]
                 ++ inv ++ upd)
                ++ Call_execFirmwareReconfig (fFactoryReset o) rr
                   :: [Call_oplk_exit; Call_system_exit]
                = l1 ++ Call_execFirmwareReconfig f r :: l2).
  { rewrite <- Hl. cbn [app]. by rewrite <- !app_assoc. }
  apply reconfig_unique in Heq as (-> & [= -> _] & ->).
  - assert (Hcw : chunk_writes
                    ([Call_system_init 0; Call_initialize kErrorOk;
                      Call_getStackInfo kErrorOk] ++ inv ++ upd)
                  = chunk_writes inv ++ chunk_writes upd).
    { cbn [app]. change (chunk_writes (inv ++ upd) = chunk_writes inv ++ chunk_writes upd).
      apply chunk_writes_app. }
    rewrite Hcw.
    split_and!; [| |by rewrite !reconfig_calls_app, Hinv_rc, Hupd_rc|done|done|done].
    + apply Forall_app.
      split; [by eapply invalidation_accepted|by eapply update_accepted].
    + intros Hsel. rewrite delivered_app, (invalidation_header _ _ Hsel Hinv).
      by eexists.
  - by rewrite !reconfig_calls_app, Hinv_rc, Hupd_rc.
  - done.
Qed.

(** X17.  An image that is left alone.  When the command line has
    arguments but neither a flag e nor a flag d, [main] returns 0 in
    every world and makes no call of a transfer: no query of the chunk
    size, no chunk write. *)
Theorem main_image_untouched argc argv s :
  let answers := getopt_ext argc argv "d:efu" in
  Forall (fun a => known_flag a = true) answers ->
  argc <> 1 ->
  has_flag "e" answers = false ->
  has_flag "d" answers = false ->
  exists s',
    main argc argv s = Returns (0, s') /\
    Forall (fun c => is_transfer_call c = false) (new_calls s s').
Proof.
  intros answers Hall Hargc He Hd.
  destruct (getOptions_fields argc argv s Hall) as (s0 & Hrun0 & Hinv0 & Hupd0 & _).
  fold answers in Hinv0, Hupd0.
  rewrite He in Hinv0. rewrite Hd, (proj2 (Z.eqb_neq _ _) Hargc) in Hupd0.
  destruct (main_trace argc argv s _ eq_refl) as (r & s1 & Hrun & _ & Hcases).
  rewrite Hrun0 in Hrun. injection Hrun as <- <-.
  destruct Hcases as [([=] & _)|(_ & _ & _ & s' & Hend & _)].
  destruct Hend as [[Hmain Hshape]|(_ & _ & Hsel)]; [|by rewrite Hupd0 in Hsel].
  exists s'. split; [exact Hmain|].
  destruct Hshape as [(rc & _ & ->)|[(r1 & _ & ->)|[(r2 & _ & ->)|(body & Hbody & ->)]]];
    try (by repeat constructor).
  destruct Hbody as (inv & ri & Hinv & Hrest).
  unfold invalidation in Hinv. rewrite Hinv0 in Hinv. destruct Hinv as [-> ->].
  cbn [is_kErrorOk] in Hrest. destruct Hrest as (upd & ru & Hupd & Hrest).
  unfold update in Hupd. rewrite Hupd0 in Hupd. destruct Hupd as [-> ->].
  cbn [is_kErrorOk] in Hrest. destruct Hrest as (rec & Hrec & ->).
  unfold reconfiguration in Hrec.
  destruct (fFactoryReset (st_opts s0) || fUpdateReset (st_opts s0)).
  - destruct Hrec as [rr ->]. by repeat constructor.
  - subst rec. by repeat constructor.
Qed.

(** X18.  No reset that was not asked for.  When the command line has
    arguments but neither a flag f nor a flag u, [main] makes no
    reconfiguration request, however it ends. *)
Theorem main_no_reset_without_flag argc argv s :
  let answers := getopt_ext argc argv "d:efu" in
  Forall (fun a => known_flag a = true) answers ->
  argc <> 1 ->
  last_reset_flag answers = None ->
  exists s',
    (main argc argv s = Returns (0, s') \/ main argc argv s = Undefined s') /\
    reconfig_calls (new_calls s s') = [].
Proof.
  intros answers Hall Hargc Hnone.
  destruct (getOptions_spec argc argv s)
    as (r0 & s0 & Hrun0 & _ & _ & _ & _ & _ & Hres).
  fold answers in Hres.
  destruct Hres as [(-> & _ & _ & Hflags)|(_ & Hsome & _)];
    [|destruct (known_unknown _ Hall Hsome)].
  rewrite Hnone, (proj2 (Z.eqb_neq _ _) Hargc) in Hflags. destruct Hflags as [Hf Hu].
  destruct (main_trace argc argv s _ eq_refl) as (r & s1 & Hrun & _ & Hcases).
  rewrite Hrun0 in Hrun. injection Hrun as <- <-.
  destruct Hcases as [([=] & _)|(_ & _ & _ & s' & Hend & _)].
  exists s'.
  destruct Hend as [[Hmain Hshape]|(Hmain & Hrc & _)]; [|split; [by right|done]].
  split; [by left|].
  destruct Hshape as [(rc & _ & ->)|[(r1 & _ & ->)|[(r2 & _ & ->)|(body & Hbody & ->)]]];
    try done.
  destruct Hbody as (inv & ri & Hinv & Hrest).
  assert (Hinv_rc := invalidation_no_reconfig _ _ _ Hinv).
  change (reconfig_calls (body ++ [Call_oplk_exit; Call_system_exit]) = []).
  rewrite reconfig_calls_app, app_nil_r.
  destruct (is_kErrorOk ri); [|by subst].
  destruct Hrest as (upd & ru & Hupd & Hrest).
  assert (Hupd_rc := update_no_reconfig _ _ _ Hupd).
  destruct (is_kErrorOk ru); [|subst; by rewrite reconfig_calls_app, Hinv_rc, Hupd_rc].
  destruct Hrest as (rec & Hrec & ->).
  unfold reconfiguration in Hrec. rewrite Hf, Hu in Hrec. cbn [orb] in Hrec. subst rec.
  by rewrite !reconfig_calls_app, Hinv_rc, Hupd_rc.
Qed.


(** X22.  An unknown flag.  When [getopt] answers with something that is
    none of the flags d, e, f and u, [main] prints the usage text once
    and returns -1 without any call: neither the system nor the stack
    is initialised, no file is opened and no memory is taken, whatever
    flags came before or would come after. *)
Theorem main_rejects_unknown_flag argc argv s :
  Exists unknown_flag (getopt_ext argc argv "d:efu") ->
  exists s',
    main argc argv s = Returns (-1, s') /\
    new_calls s s' = [] /\
    new_out s s' = [(Stdout, usage)] /\
    st_plat s' = st_plat s /\ st_heap s' = st_heap s /\ st_files s' = st_files s.
Proof.
  intros Hsome.
  destruct (getOptions_spec argc argv s)
    as (r & s1 & Hrun & Hp & Hh & Hf & Hc & _ & Hres).
  rewrite (main_unfold _ _ _ _ _ Hrun).
  destruct Hres as [(_ & Hall & _)|(-> & _ & Hout)];
    [destruct (known_unknown _ Hall Hsome)|].
  cbn [Z.eqb]. exists s1. split_and!; [done| |by apply new_out_app|done|done|done].
  apply new_calls_app. by rewrite app_nil_r.
Qed.

End Proofs.

(** * The application on the simulated platform *)

Import Simulated.

(** With [argc] at 1 the simulated [getopt] has nothing to answer. *)
Lemma getopt_no_argument argv optstring : getopt 1 argv optstring = [].
Proof. reflexivity. Qed.

(** The command line [firmware_update -d empty.bin]. *)
Lemma getopt_empty_bin :
  getopt 3 ["firmware_update"; "-d"; "empty.bin"]%string "d:efu"
  = [(char_code "d", "empty.bin"%string)].
Proof. reflexivity. Qed.

(** C2.  An image of 4 bytes sent to a device that takes chunks of 4
    bytes: the transfer succeeds with one call, which is the first and
    the final call, and that call carries the first flag but not the
    last flag. *)
Theorem last_flag_missing_on_full_final_chunk :
  exists s',
    writeImageToKernel image4 4 (boot (world 4 [])) = Returns (kErrorOk, s') /\
    chunk_writes (new_calls (boot (world 4 [])) s') =
      [mkChunkWrite (mkDesc true false 0 4) image4 kErrorOk].
Proof. eexists. split; vm_compute; reflexivity. Qed.

(** C5.  The command line [firmware_update -d empty.bin], where
    [empty.bin] is an empty file and the uninitialised [pImage] of
    [updateImage] holds a pointer that is no block of the process: every
    flag is known, and [main] does not return; it stops at the [free] of
    that pointer. *)
Theorem main_does_not_return_on_empty_file :
  let argv := ["firmware_update"; "-d"; "empty.bin"]%string in
  let s := boot (world_with_garbage 7 2 empty_bin) in
  Forall (fun a => known_flag a = true) (getopt_ext 3 argv "d:efu") /\
  (exists s', main 3 argv s = Undefined s') /\
  (forall code s', main 3 argv s <> Returns (code, s')).
Proof.
  cbv zeta. split; [by repeat constructor|].
  assert (Hrun : exists s', main 3 ["firmware_update"; "-d"; "empty.bin"]%string
                              (boot (world_with_garbage 7 2 empty_bin)) = Undefined s').
  { eexists. vm_compute. reflexivity. }
  split; [exact Hrun|]. destruct Hrun as [s' Hrun]. intros code s''.
  rewrite Hrun. discriminate.
Qed.

(** C8.  [updateImage] on an empty file, where the uninitialised
    [pImage] holds a pointer that is no block of the process: the run
    stops at the [free] of that pointer, with the file still open. *)
Theorem updateImage_leaves_file_open_on_empty_file :
  let s := boot (world_with_garbage 7 2 empty_bin) in
  exists s',
    updateImage (strncpy "empty.bin" 256) s = Undefined s' /\
    st_files s = ∅ /\ st_files s' = {[fresh (st_files s)]}.
Proof.
  cbv zeta. eexists. split; [vm_compute; reflexivity|].
  split; [reflexivity|]. by vm_compute.
Qed.

(** C10.  [updateImage] on a file that can be opened and whose size is
    zero, where the uninitialised [pImage] holds a pointer that is no
    block of the process: no status is returned, [kErrorNoResource] or
    other. *)
Theorem updateImage_returns_no_status_on_empty_file :
  let s := boot (world_with_garbage 7 2 empty_bin) in
  let path := strncpy "empty.bin" 256 in
  (exists p1, fopen_ext (c_str path) (st_plat s) = (true, p1) /\
              fst (ftell_end_ext (fresh (st_files s)) p1) = 0) /\
  forall ret s', updateImage path s <> Returns (ret, s').
Proof.
  cbv zeta. split; [eexists; split; reflexivity|].
  intros ret s'.
  assert (Hrun : exists s1, updateImage (strncpy "empty.bin" 256)
                              (boot (world_with_garbage 7 2 empty_bin)) = Undefined s1).
  { eexists. vm_compute. reflexivity. }
  destruct Hrun as [s1 ->]. discriminate.
Qed.

(** ** The theorems at concrete inputs *)

(** An image of 5 bytes sent in chunks of 2. *)
Lemma writeImageToKernel_splits_buffer_witness :
  (0 < length image5)%nat /\
  Z.of_nat (length image5) < 2 ^ 32 /\
  reported_chunk_size (boot (world 2 [])) = 2 /\
  0 < 2 /\
  exists ret s',
    writeImageToKernel image5 (Z.of_nat (length image5)) (boot (world 2 []))
      = Returns (ret, s') /\
    let cs := chunk_writes (new_calls (boot (world 2 [])) s') in
    Forall (fun c => 1 <= cw_length c <= 2 /\
                     length (segment c) = Z.to_nat (cw_length c)) cs /\
    (forall i c, cs !! i = Some c ->
       cw_offset c = total_length (take i cs) /\
       segment c = take (Z.to_nat (cw_length c)) (drop (Z.to_nat (cw_offset c)) image5)) /\
    delivered cs `prefix_of` image5 /\
    (ret = kErrorOk <->
     chunk_buffer_allocated (boot (world 2 [])) = true /\
     Forall (fun c => cw_ret c = kErrorOk) cs) /\
    (ret = kErrorOk -> delivered cs = image5).
Proof.
  split; [simpl; lia|]. split; [reflexivity|]. split; [reflexivity|]. split; [lia|].
  apply (writeImageToKernel_splits_buffer image5 2 (boot (world 2 [])));
    [simpl; lia|reflexivity|reflexivity|lia].
Defined.

(** C1 as it is worded, on an image of 5 bytes sent in chunks of 2 to a
    stack that refuses the second chunk: the buffer is not empty and the
    chunk size is positive, yet the segments delivered across all calls
    are the first four bytes, not the buffer. *)
Lemma writeImageToKernel_splits_buffer_counterexample :
  (0 < length image5)%nat /\
  0 < reported_chunk_size (boot (refusing 2 1 (kErrorOther 5) [])) /\
  (exists s',
     writeImageToKernel image5 (Z.of_nat (length image5))
       (boot (refusing 2 1 (kErrorOther 5) [])) = Returns (kErrorOther 5, s') /\
     delivered (chunk_writes (new_calls (boot (refusing 2 1 (kErrorOther 5) [])) s'))
       = [Byte.x01; Byte.x02; Byte.x03; Byte.x04]) /\
  ~ (exists ret s',
       writeImageToKernel image5 (Z.of_nat (length image5))
         (boot (refusing 2 1 (kErrorOther 5) [])) = Returns (ret, s') /\
       delivered (chunk_writes (new_calls (boot (refusing 2 1 (kErrorOther 5) [])) s'))
         = image5).
Proof.
  split; [simpl; lia|]. split; [reflexivity|]. split.
  - eexists. split; vm_compute; reflexivity.
  - intros (ret & s' & Hrun & Hd). vm_compute in Hrun. injection Hrun as <- <-.
    vm_compute in Hd. discriminate.
Qed.

(** An image of 5 bytes sent in chunks of 2, the second chunk refused. *)
Lemma writeImageToKernel_aborts_on_failure_witness :
  0 <= 5 < 2 ^ 32 /\
  exists ret s',
    writeImageToKernel image5 5 (boot (refusing 2 1 (kErrorOther 5) [])) = Returns (ret, s') /\
    let cs := chunk_writes (new_calls (boot (refusing 2 1 (kErrorOther 5) [])) s') in
    (forall i c, cs !! i = Some c -> cw_ret c <> kErrorOk ->
       Datatypes.S i = length cs /\ ret = cw_ret c) /\
    (forall i c, cs !! Datatypes.S i = Some c ->
       exists c0, cs !! i = Some c0 /\ cw_ret c0 = kErrorOk) /\
    (forall i j ci cj, (i < j)%nat -> cs !! i = Some ci -> cs !! j = Some cj ->
       cw_offset ci < cw_offset cj).
Proof.
  split; [lia|].
  apply (writeImageToKernel_aborts_on_failure image5 5
           (boot (refusing 2 1 (kErrorOther 5) []))).
  lia.
Defined.

(** A device without chunk transfer support. *)
Lemma writeImageToKernel_zero_chunk_size_witness :
  reported_chunk_size (boot (world 0 [])) = 0 /\
  exists s',
    writeImageToKernel image5 5 (boot (world 0 [])) = Returns (kErrorNoResource, s') /\
    new_calls (boot (world 0 [])) s' = [Call_getFileChunkSize 0] /\
    chunk_writes (new_calls (boot (world 0 [])) s') = [].
Proof.
  split; [reflexivity|].
  apply (writeImageToKernel_zero_chunk_size image5 5 (boot (world 0 []))).
  reflexivity.
Defined.

(** The command line [firmware_update]. *)
Lemma getOptions_defaults_witness :
  getopt_ext 1 ["firmware_update"%string] "d:efu" = [] /\
  getOptions 1 ["firmware_update"%string] (with_opts zero_options (boot (world 2 []))) =
    Returns (0, with_opts (mkOptions (strncpy "image.bin" 256) true false false true)
                          (boot (world 2 []))) /\
  c_str (strncpy "image.bin" 256) = "image.bin"%string /\
  length (strncpy "image.bin" 256) = 256%nat.
Proof.
  split; [reflexivity|].
  apply (getOptions_defaults ["firmware_update"%string] (boot (world 2 []))).
  reflexivity.
Defined.

(** The command line [firmware_update -f -u]: update reset wins. *)
Lemma reset_flags_exclusive_witness :
  let argv := ["firmware_update"; "-f"; "-u"]%string in
  let s := boot (world 2 []) in
  let s1 := with_opts (mkOptions (repeat NUL 256) false false false true) s in
  getOptions 3 argv (with_opts zero_options s) = Returns (0, s1) /\
  let answers := getopt_ext 3 argv "d:efu" in
  let o := st_opts s1 in
  fFactoryReset o && fUpdateReset o = false /\
  (last_reset_flag answers = Some (char_code "f") ->
     fFactoryReset o = true /\ fUpdateReset o = false) /\
  (last_reset_flag answers = Some (char_code "u") ->
     fFactoryReset o = false /\ fUpdateReset o = true) /\
  exists s2,
    (main 3 argv s = Returns (0, s2) \/ main 3 argv s = Undefined s2) /\
    st_opts s2 = o /\
    (reconfig_calls (new_calls s s2) = [] \/
     reconfig_calls (new_calls s s2) = [fFactoryReset o]).
Proof.
  cbv zeta. split; [reflexivity|].
  apply (reset_flags_exclusive 3 ["firmware_update"; "-f"; "-u"]%string
           (boot (world 2 []))
           (with_opts (mkOptions (repeat NUL 256) false false false true)
                      (boot (world 2 [])))).
  reflexivity.
Defined.

(** ** Sample runs *)

(** Five bytes in chunks of two: three calls, the last one short and
    marked last.  The chunk buffer keeps the stale byte of the call
    before. *)
Example transfer_5_by_2 :
  exists s',
    writeImageToKernel image5 5 (boot (world 2 [])) = Returns (kErrorOk, s') /\
    chunk_writes (new_calls (boot (world 2 [])) s') =
      [mkChunkWrite (mkDesc true false 0 2) [Byte.x01; Byte.x02] kErrorOk;
       mkChunkWrite (mkDesc false false 2 2) [Byte.x03; Byte.x04] kErrorOk;
       mkChunkWrite (mkDesc false true 4 1) [Byte.x05; Byte.x04] kErrorOk] /\
    st_heap s' = ∅.
Proof. eexists. split_and!; vm_compute; reflexivity. Qed.

(** The second chunk refused: two calls, and its answer is returned. *)
Example transfer_refused :
  exists s',
    writeImageToKernel image5 5 (boot (refusing 2 1 (kErrorOther 5) []))
      = Returns (kErrorOther 5, s') /\
    map cw_offset (chunk_writes (new_calls (boot (refusing 2 1 (kErrorOther 5) [])) s'))
      = [0; 2] /\
    st_heap s' = ∅.
Proof. eexists. split_and!; vm_compute; reflexivity. Qed.

(** [firmware_update] alone: [image.bin] is sent and the device is asked
    to restart on the update image. *)
Example main_default :
  let s := boot (world 2 [("image.bin"%string, image5)]) in
  exists s',
    main 1 ["firmware_update"%string] s = Returns (0, s') /\
    delivered (chunk_writes (new_calls s s')) = image5 /\
    reconfig_calls (new_calls s s') = [false].
Proof. cbv zeta. eexists. split_and!; vm_compute; reflexivity. Qed.

(** [firmware_update -fx]: the flag x is unknown; the usage is printed
    and nothing is called. *)
Example main_unknown_flag :
  let s := boot (world 2 []) in
  exists s',
    main 2 ["firmware_update"; "-fx"]%string s = Returns (-1, s') /\
    new_out s s' = [(Stdout, usage)] /\
    new_calls s s' = [].
Proof. cbv zeta. eexists. split_and!; vm_compute; reflexivity. Qed.

(** An empty file where the uninitialised pointer happens to be NULL:
    [updateImage] returns [kErrorNoResource] and [main] returns 0. *)
Example main_empty_file_null_pointer :
  let s := boot (world 2 empty_bin) in
  exists s',
    main 3 ["firmware_update"; "-d"; "empty.bin"]%string s = Returns (0, s') /\
    chunk_writes (new_calls s s') = [] /\
    reconfig_calls (new_calls s s') = [] /\
    st_files s' = ∅.
Proof. cbv zeta. eexists. split_and!; vm_compute; reflexivity. Qed.

(** ** Sample runs for the further properties *)

(** Five bytes in chunks of two: three calls, which is ceil(5 / 2). *)
Lemma writeImageToKernel_number_of_calls_witness :
  let s := boot (world 2 []) in
  0 <= 5 < 2 ^ 32 /\
  0 < reported_chunk_size s /\
  exists ret s',
    writeImageToKernel image5 5 s = Returns (ret, s') /\
    let C := reported_chunk_size s in
    let cs := chunk_writes (new_calls s s') in
    new_calls s s' = Call_getFileChunkSize C :: map call_of_write cs /\
    full_but_last C cs /\
    Z.of_nat (length cs) <= (5 + C - 1) / C /\
    (ret = kErrorOk -> Z.of_nat (length cs) = (5 + C - 1) / C).
Proof.
  cbv zeta. split; [lia|]. split; [reflexivity|].
  apply (writeImageToKernel_number_of_calls image5 5 (boot (world 2 []))); [lia|reflexivity].
Defined.

(** Five bytes in chunks of two: the last call carries 5 mod 2 = 1 byte
    at offset 4. *)
Lemma writeImageToKernel_last_chunk_witness :
  let s := boot (world 2 []) in
  0 <= 5 < 2 ^ 32 /\
  0 < reported_chunk_size s /\
  ~ (reported_chunk_size s | 5) /\
  exists ret s',
    writeImageToKernel image5 5 s = Returns (ret, s') /\
    let C := reported_chunk_size s in
    (ret = kErrorOk ->
     exists front c,
       chunk_writes (new_calls s s') = front ++ [c] /\
       Forall (fun c' => cw_length c' = C /\ fLast (cw_desc c') = false) front /\
       fLast (cw_desc c) = true /\
       cw_length c = 5 mod C /\
       cw_offset c = 5 - 5 mod C).
Proof.
  cbv zeta.
  assert (Hnd : ~ (reported_chunk_size (boot (world 2 [])) | 5)).
  { change (reported_chunk_size (boot (world 2 []))) with 2. intros [k Hk]. lia. }
  split; [lia|]. split; [reflexivity|]. split; [exact Hnd|].
  apply (writeImageToKernel_last_chunk image5 5 (boot (world 2 [])));
    [lia|reflexivity|exact Hnd].
Defined.

(** Four bytes in chunks of two: no call carries the last flag. *)
Lemma writeImageToKernel_flags_witness :
  let s := boot (world 2 []) in
  0 <= 4 < 2 ^ 32 /\
  exists ret s',
    writeImageToKernel image4 4 s = Returns (ret, s') /\
    let cs := chunk_writes (new_calls s s') in
    first_flags true cs /\
    Forall (fun c => fLast (cw_desc c) = (cw_length c <? reported_chunk_size s)) cs /\
    ((reported_chunk_size s | 4) -> Forall (fun c => fLast (cw_desc c) = false) cs).
Proof.
  cbv zeta. split; [lia|].
  apply (writeImageToKernel_flags image4 4 (boot (world 2 []))). lia.
Defined.

(** No byte to write, to a device that takes chunks of two. *)
Lemma writeImageToKernel_empty_image_witness :
  let s := boot (world 2 []) in
  reported_chunk_size s <> 0 /\
  exists s',
    writeImageToKernel [] 0 s
      = Returns (if chunk_buffer_allocated s then kErrorOk else kErrorNoResource, s') /\
    new_calls s s' = [Call_getFileChunkSize (reported_chunk_size s)] /\
    new_out s s' = [] /\
    st_heap s' = st_heap s /\ st_files s' = st_files s.
Proof.
  cbv zeta.
  assert (Hc : reported_chunk_size (boot (world 2 [])) <> 0)
    by (vm_compute; discriminate).
  split; [exact Hc|].
  apply (writeImageToKernel_empty_image [] (boot (world 2 []))). exact Hc.
Defined.

(** Five bytes, in a world whose allocator gives nothing. *)
Lemma writeImageToKernel_no_memory_witness :
  let s := boot (world_without_memory 2 []) in
  reported_chunk_size s <> 0 /\
  chunk_buffer_allocated s = false /\
  exists s',
    writeImageToKernel image5 5 s = Returns (kErrorNoResource, s') /\
    new_calls s s' = [Call_getFileChunkSize (reported_chunk_size s)] /\
    new_out s s' = [] /\
    st_heap s' = st_heap s /\ st_files s' = st_files s.
Proof.
  cbv zeta.
  assert (Hc : reported_chunk_size (boot (world_without_memory 2 [])) <> 0)
    by (vm_compute; discriminate).
  split; [exact Hc|]. split; [reflexivity|].
  apply (writeImageToKernel_no_memory image5 5 (boot (world_without_memory 2 [])));
    [exact Hc|reflexivity].
Defined.

(** Five bytes in chunks of two, the second chunk refused. *)
Lemma writeImageToKernel_refused_chunk_witness :
  let s := boot (refusing 2 1 (kErrorOther 5) []) in
  Z.of_nat (length image5) < 2 ^ 32 /\
  0 < reported_chunk_size s /\
  chunk_buffer_allocated s = true /\
  exists ret s',
    writeImageToKernel image5 (Z.of_nat (length image5)) s = Returns (ret, s') /\
    (ret <> kErrorOk ->
     exists front c,
       chunk_writes (new_calls s s') = front ++ [c] /\
       Forall (fun c' => cw_ret c' = kErrorOk) front /\
       cw_ret c = ret /\
       delivered front = take (Z.to_nat (cw_offset c)) image5 /\
       (reported_chunk_size s | cw_offset c) /\
       0 <= cw_offset c < Z.of_nat (length image5)).
Proof.
  cbv zeta. split; [reflexivity|]. split; [reflexivity|]. split; [reflexivity|].
  apply (writeImageToKernel_refused_chunk image5 (boot (refusing 2 1 (kErrorOther 5) [])));
    reflexivity.
Defined.

(** A device that takes chunks of 64 bytes. *)
Lemma invalidateImage_single_write_witness :
  let s := boot (world 64 []) in
  FIRMWARE_HEADER_SIZE < reported_chunk_size s /\
  chunk_buffer_allocated s = true /\
  exists ret s' chunk,
    invalidateImage s = Returns (ret, s') /\
    new_calls s s' = [Call_getFileChunkSize (reported_chunk_size s);
                      Call_writeFileChunk (mkDesc true true 0 32) chunk ret] /\
    take 32 chunk = repeat Byte.xff 32 /\
    Z.of_nat (length chunk) = reported_chunk_size s /\
    st_heap s' = st_heap s.
Proof.
  cbv zeta. split; [reflexivity|]. split; [reflexivity|].
  apply (invalidateImage_single_write (boot (world 64 []))); reflexivity.
Defined.

(** The command line [firmware_update -e -d fw.bin]. *)
Lemma getOptions_selected_steps_witness :
  let argv := ["firmware_update"; "-e"; "-d"; "fw.bin"]%string in
  let s := boot (world 2 []) in
  let answers := getopt_ext 4 argv "d:efu" in
  Forall (fun a => known_flag a = true) answers /\
  exists s',
    getOptions 4 argv (with_opts zero_options s) = Returns (0, s') /\
    fInvalidateUpdateImage (st_opts s') = has_flag "e" answers /\
    fUpdateImage (st_opts s') = (4 =? 1) || has_flag "d" answers /\
    firmwareFile (st_opts s')
      = match last_file_argument answers with
        | Some name => strncpy name 256
        | None => if 4 =? 1 then strncpy "image.bin" 256 else repeat NUL 256
        end /\
    length (firmwareFile (st_opts s')) = 256%nat.
Proof.
  cbv zeta.
  assert (Hall : Forall (fun a => known_flag a = true)
                   (getopt_ext (S := World) 4
                      ["firmware_update"; "-e"; "-d"; "fw.bin"]%string "d:efu"))
    by (vm_compute; repeat constructor).
  split; [exact Hall|].
  apply (getOptions_selected_steps 4 ["firmware_update"; "-e"; "-d"; "fw.bin"]%string
           (boot (world 2 []))).
  exact Hall.
Defined.

(** The command line [firmware_update -d fw.bin]. *)
Lemma getOptions_file_name_witness :
  let argv := ["firmware_update"; "-d"; "fw.bin"]%string in
  let s := boot (world 2 []) in
  let answers := getopt_ext 3 argv "d:efu" in
  Forall (fun a => known_flag a = true) answers /\
  last_file_argument answers = Some "fw.bin"%string /\
  is_c_string "fw.bin" = true /\
  (String.length "fw.bin" < 256)%nat /\
  exists s',
    getOptions 3 argv (with_opts zero_options s) = Returns (0, s') /\
    fUpdateImage (st_opts s') = true /\
    is_terminated (firmwareFile (st_opts s')) = true /\
    c_str (firmwareFile (st_opts s')) = "fw.bin"%string.
Proof.
  cbv zeta.
  assert (Hall : Forall (fun a => known_flag a = true)
                   (getopt_ext (S := World) 3
                      ["firmware_update"; "-d"; "fw.bin"]%string "d:efu"))
    by (vm_compute; repeat constructor).
  assert (Hlen : (String.length "fw.bin" < 256)%nat) by (simpl; lia).
  split; [exact Hall|]. split; [reflexivity|]. split; [reflexivity|]. split; [exact Hlen|].
  apply (getOptions_file_name 3 ["firmware_update"; "-d"; "fw.bin"]%string
           (boot (world 2 [])) "fw.bin"%string);
    [exact Hall|reflexivity|reflexivity|exact Hlen].
Defined.

(** The command line [firmware_update -d] followed by a name of 300
    characters. *)
Lemma getOptions_long_file_name_witness :
  let argv := ["firmware_update"%string; "-d"%string; long_name] in
  let s := boot (world 2 []) in
  let answers := getopt_ext 3 argv "d:efu" in
  Forall (fun a => known_flag a = true) answers /\
  last_file_argument answers = Some long_name /\
  is_c_string long_name = true /\
  (256 <= String.length long_name)%nat /\
  exists s',
    getOptions 3 argv (with_opts zero_options s) = Returns (0, s') /\
    fUpdateImage (st_opts s') = true /\
    firmwareFile (st_opts s') = take 256 (list_ascii_of_string long_name) /\
    length (firmwareFile (st_opts s')) = 256%nat /\
    Forall (fun c => c <> NUL) (firmwareFile (st_opts s')).
Proof.
  cbv zeta.
  assert (Hall : Forall (fun a => known_flag a = true)
                   (getopt_ext (S := World) 3
                      ["firmware_update"%string; "-d"%string; long_name] "d:efu"))
    by (vm_compute; repeat constructor).
  assert (Hlen : (256 <= String.length long_name)%nat)
    by (apply Nat.leb_le; vm_compute; reflexivity).
  split; [exact Hall|]. split; [vm_compute; reflexivity|].
  split; [vm_compute; reflexivity|]. split; [exact Hlen|].
  apply (getOptions_long_file_name 3 ["firmware_update"%string; "-d"%string; long_name]
           (boot (world 2 [])) long_name);
    [exact Hall|vm_compute; reflexivity|vm_compute; reflexivity|exact Hlen].
Defined.

(** The file [image.bin] of five bytes, sent in chunks of two. *)
Lemma updateImage_transfers_file_witness :
  let fs := [("image.bin"%string, image5)] in
  let s := boot (world 2 fs) in
  let p := mkWorld 2 None [] fs image5 true None None in
  let path := strncpy "image.bin" 256 in
  let h := fresh (st_files s) in
  is_terminated path = true /\
  fopen_ext (c_str path) (st_plat s) = (true, p) /\
  ftell_end_ext h p = (5, p) /\
  0 < 5 < 2 ^ 31 /\
  malloc_ext 5 p = (true, p) /\
  fread_ext h 5 p = (image5, p) /\
  (Z.to_nat 5 <= length image5)%nat /\
  let data := take (Z.to_nat 5) image5 in
  let s1 := with_plat p (with_heap ({[fresh (st_heap s)]} ∪ st_heap s)
                           (with_files ({[h]} ∪ st_files s) s)) in
  exists ret s2 s',
    writeImageToKernel data 5 s1 = Returns (ret, s2) /\
    updateImage path s = Returns (ret, s') /\
    new_calls s s' = new_calls s1 s2 /\
    let cs := chunk_writes (new_calls s s') in
    (exists C, new_calls s s' = Call_getFileChunkSize C :: map call_of_write cs) /\
    delivered cs `prefix_of` data /\
    (ret = kErrorOk -> delivered cs = data) /\
    st_files s' = st_files s /\ st_heap s' = st_heap s.
Proof.
  cbv zeta.
  assert (Hn : 0 < 5 < 2 ^ 31) by lia.
  assert (Hd : (Z.to_nat 5 <= length image5)%nat) by (simpl; lia).
  split; [reflexivity|]. split; [reflexivity|]. split; [reflexivity|]. split; [exact Hn|].
  split; [reflexivity|]. split; [reflexivity|]. split; [exact Hd|].
  apply (updateImage_transfers_file (strncpy "image.bin" 256)
           (boot (world 2 [("image.bin"%string, image5)]))
           (mkWorld 2 None [] [("image.bin"%string, image5)] image5 true None None) 5
           (mkWorld 2 None [] [("image.bin"%string, image5)] image5 true None None)
           (mkWorld 2 None [] [("image.bin"%string, image5)] image5 true None None)
           image5
           (mkWorld 2 None [] [("image.bin"%string, image5)] image5 true None None));
    [reflexivity|reflexivity|reflexivity|exact Hn|reflexivity|reflexivity|exact Hd].
Defined.

(** No file at all in the world. *)
Lemma updateImage_missing_file_witness :
  let s := boot (world 2 []) in
  let path := strncpy "image.bin" 256 in
  is_terminated path = true /\
  fst (fopen_ext (c_str path) (st_plat s)) = false /\
  exists s',
    updateImage path s = Returns (kErrorNoResource, s') /\
    new_calls s s' = [] /\
    new_out s s' = [(Stdout, "Unable to open file %s\n"%string)] /\
    st_files s' = st_files s /\ st_heap s' = st_heap s.
Proof.
  cbv zeta. split; [reflexivity|]. split; [reflexivity|].
  apply (updateImage_missing_file (strncpy "image.bin" 256) (boot (world 2 [])));
    reflexivity.
Defined.

(** A file of five bytes whose size is reported as ten: the read is
    short. *)
Lemma updateImage_file_not_loaded_witness :
  let fs := [("image.bin"%string, image5)] in
  let s := boot (world_reporting_size 10 2 fs) in
  let p := mkWorld 2 None [] fs image5 true None (Some 10) in
  let path := strncpy "image.bin" 256 in
  let h := fresh (st_files s) in
  let size := to_size_t lp64 (to_int 10) in
  is_terminated path = true /\
  fopen_ext (c_str path) (st_plat s) = (true, p) /\
  ftell_end_ext h p = (10, p) /\
  to_int 10 <> 0 /\
  (fst (malloc_ext size p) = false \/
   Z.of_nat (length (fst (fread_ext h size (snd (malloc_ext size p))))) < size) /\
  exists s',
    updateImage path s = Returns (kErrorNoResource, s') /\
    new_calls s s' = [] /\
    st_files s' = st_files s /\ st_heap s' = st_heap s.
Proof.
  cbv zeta.
  assert (Hn : to_int 10 <> 0) by (vm_compute; discriminate).
  assert (Hshort :
    fst (malloc_ext (to_size_t (lp64 (S := World)) (to_int 10))
           (mkWorld 2 None [] [("image.bin"%string, image5)] image5 true None (Some 10)))
      = false \/
    Z.of_nat (length (fst (fread_ext
        (fresh (st_files (boot (world_reporting_size 10 2 [("image.bin"%string, image5)]))))
        (to_size_t (lp64 (S := World)) (to_int 10))
        (snd (malloc_ext (to_size_t (lp64 (S := World)) (to_int 10))
                (mkWorld 2 None [] [("image.bin"%string, image5)] image5 true None
                         (Some 10)))))))
      < to_size_t (lp64 (S := World)) (to_int 10))
    by (right; reflexivity).
  split; [reflexivity|].
  split; [reflexivity|]. split; [reflexivity|]. split; [exact Hn|]. split; [exact Hshort|].
  apply (updateImage_file_not_loaded (strncpy "image.bin" 256)
           (boot (world_reporting_size 10 2 [("image.bin"%string, image5)]))
           (mkWorld 2 None [] [("image.bin"%string, image5)] image5 true None (Some 10)) 10
           (mkWorld 2 None [] [("image.bin"%string, image5)] image5 true None (Some 10)));
    [reflexivity|reflexivity|reflexivity|exact Hn|exact Hshort].
Defined.

(** [firmware_update] on a system whose initialisation answers 5. *)
Lemma main_system_init_failure_witness :
  let argv := ["firmware_update"%string] in
  let s := Faulty.boot 5 (world 2 []) in
  Forall (fun a => known_flag a = true) (getopt_ext (S := Faulty.World) 1 argv "d:efu") /\
  fst (system_init_ext (st_plat s)) <> 0 /\
  exists s',
    main 1 argv s = Returns (0, s') /\
    new_calls s s' = [Call_system_init (fst (system_init_ext (st_plat s)))] /\
    new_out s s' = [(Stderr, "Error initializing system!"%string)].
Proof.
  cbv zeta.
  assert (Hall : Forall (fun a => known_flag a = true)
                   (getopt_ext (S := Faulty.World) 1 ["firmware_update"%string] "d:efu"))
    by (vm_compute; constructor).
  assert (Hrc : fst (system_init_ext (st_plat (Faulty.boot 5 (world 2 [])))) <> 0)
    by (vm_compute; discriminate).
  split; [exact Hall|]. split; [exact Hrc|].
  apply (main_system_init_failure 1 ["firmware_update"%string] (Faulty.boot 5 (world 2 [])));
    [exact Hall|exact Hrc].
Defined.

(** [firmware_update] alone, with [image.bin] in place. *)
Lemma main_teardown_witness :
  let argv := ["firmware_update"%string] in
  let s := boot (world 2 [("image.bin"%string, image5)]) in
  exists s',
    main 1 argv s = Returns (0, s') /\
    let l := new_calls s s' in
    (Call_system_init 0 ∈ l <-> Call_system_exit ∈ l) /\
    (Call_system_exit ∈ l ->
     exists pre, l = pre ++ [Call_system_exit] /\ Call_system_exit ∉ pre) /\
    (Call_getStackInfo kErrorOk ∈ l <-> Call_oplk_exit ∈ l) /\
    (Call_oplk_exit ∈ l ->
     exists pre, l = pre ++ [Call_oplk_exit; Call_system_exit] /\ Call_oplk_exit ∉ pre).
Proof.
  cbv zeta. eexists. split; [vm_compute; reflexivity|].
  apply (main_teardown 1 ["firmware_update"%string]
           (boot (world 2 [("image.bin"%string, image5)])) 0).
  vm_compute; reflexivity.
Defined.

(** [firmware_update -e -f] on a device that takes chunks of 64 bytes:
    the header is invalidated in one accepted write, then the device is
    asked to restart on the factory image. *)
Lemma main_reconfig_after_accepted_writes_witness :
  let argv := ["firmware_update"; "-e"; "-f"]%string in
  let s := boot (world 64 []) in
  let l1 := [Call_system_init 0; Call_initialize kErrorOk; Call_getStackInfo kErrorOk;
             Call_getFileChunkSize 64;
             Call_writeFileChunk (mkDesc true true 0 32)
               (repeat Byte.xff 32 ++ repeat Byte.x00 32) kErrorOk] in
  let l2 := [Call_oplk_exit; Call_system_exit] in
  exists s',
    main 3 argv s = Returns (0, s') /\
    new_calls s s' = l1 ++ Call_execFirmwareReconfig true kErrorOk :: l2 /\
    Forall (fun c => cw_ret c = kErrorOk) (chunk_writes l1) /\
    (fInvalidateUpdateImage (st_opts s') = true ->
     repeat Byte.xff 32 `prefix_of` delivered (chunk_writes l1)) /\
    reconfig_calls l1 = [] /\
    l2 = [Call_oplk_exit; Call_system_exit] /\
    true = fFactoryReset (st_opts s') /\
    0 = 0.
Proof.
  cbv zeta. eexists. split; [vm_compute; reflexivity|]. split; [vm_compute; reflexivity|].
  apply (main_reconfig_after_accepted_writes 3 ["firmware_update"; "-e"; "-f"]%string
           (boot (world 64 [])) 0 _ _ true kErrorOk _);
    vm_compute; reflexivity.
Defined.

(** [firmware_update -f], in a world where an uninitialised pointer
    holds garbage. *)
Lemma main_image_untouched_witness :
  let argv := ["firmware_update"; "-f"]%string in
  let s := boot (world_with_garbage 7 2 empty_bin) in
  let answers := getopt_ext 2 argv "d:efu" in
  Forall (fun a => known_flag a = true) answers /\
  2 <> 1 /\
  has_flag "e" answers = false /\
  has_flag "d" answers = false /\
  exists s',
    main 2 argv s = Returns (0, s') /\
    Forall (fun c => is_transfer_call c = false) (new_calls s s').
Proof.
  cbv zeta.
  assert (Hall : Forall (fun a => known_flag a = true)
                   (getopt_ext (S := World) 2 ["firmware_update"; "-f"]%string "d:efu"))
    by (vm_compute; repeat constructor).
  assert (Hargc : 2 <> 1) by lia.
  split; [exact Hall|]. split; [exact Hargc|]. split; [reflexivity|]. split; [reflexivity|].
  apply (main_image_untouched 2 ["firmware_update"; "-f"]%string
           (boot (world_with_garbage 7 2 empty_bin)));
    [exact Hall|exact Hargc|reflexivity|reflexivity].
Defined.

(** [firmware_update -e]: the header is invalidated, the device is not
    asked to restart. *)
Lemma main_no_reset_without_flag_witness :
  let argv := ["firmware_update"; "-e"]%string in
  let s := boot (world 2 []) in
  let answers := getopt_ext 2 argv "d:efu" in
  Forall (fun a => known_flag a = true) answers /\
  2 <> 1 /\
  last_reset_flag answers = None /\
  exists s',
    (main 2 argv s = Returns (0, s') \/ main 2 argv s = Undefined s') /\
    reconfig_calls (new_calls s s') = [].
Proof.
  cbv zeta.
  assert (Hall : Forall (fun a => known_flag a = true)
                   (getopt_ext (S := World) 2 ["firmware_update"; "-e"]%string "d:efu"))
    by (vm_compute; repeat constructor).
  assert (Hargc : 2 <> 1) by lia.
  split; [exact Hall|]. split; [exact Hargc|]. split; [reflexivity|].
  apply (main_no_reset_without_flag 2 ["firmware_update"; "-e"]%string (boot (world 2 [])));
    [exact Hall|exact Hargc|reflexivity].
Defined.

(** [firmware_update -d empty.bin] on a platform where an uninitialised
    pointer is always NULL. *)
Lemma main_exit_code_witness :
  let argv := ["firmware_update"; "-d"; "empty.bin"]%string in
  let s := Faulty.boot 0 (world 2 empty_bin) in
  (forall p : Faulty.World, uninit_ptr p = None) /\
  exists code s',
    main 3 argv s = Returns (code, s') /\
    (code = -1 <-> Exists unknown_flag (getopt_ext (S := Faulty.World) 3 argv "d:efu")) /\
    (code <> -1 -> code = 0).
Proof.
  cbv zeta.
  assert (Hnull : forall p : Faulty.World, uninit_ptr p = None) by (intros p; reflexivity).
  split; [exact Hnull|].
  apply (main_exit_code 3 ["firmware_update"; "-d"; "empty.bin"]%string
           (Faulty.boot 0 (world 2 empty_bin))).
  exact Hnull.
Defined.

(** The empty file [empty.bin], in a world where an uninitialised
    pointer holds 7. *)
Lemma updateImage_undefined_on_empty_file_witness :
  let s := boot (world_with_garbage 7 2 empty_bin) in
  let p := mkWorld 2 None [] empty_bin [] true (Some 7%nat) None in
  let path := strncpy "empty.bin" 256 in
  is_terminated path = true /\
  fopen_ext (c_str path) (st_plat s) = (true, p) /\
  to_int (fst (ftell_end_ext (fresh (st_files s)) p)) = 0 /\
  uninit_ptr (st_plat s) = Some 7%nat /\
  (7%nat ∉ st_heap s) /\
  exists s',
    updateImage path s = Undefined s' /\
    st_files s' = {[fresh (st_files s)]} ∪ st_files s /\
    st_calls s' = st_calls s.
Proof.
  cbv zeta.
  assert (Hforeign : 7%nat ∉ st_heap (boot (world_with_garbage 7 2 empty_bin)))
    by apply not_elem_of_empty.
  split; [reflexivity|].
  split; [reflexivity|]. split; [reflexivity|]. split; [reflexivity|].
  split; [exact Hforeign|].
  apply (updateImage_undefined_on_empty_file (strncpy "empty.bin" 256)
           (boot (world_with_garbage 7 2 empty_bin))
           (mkWorld 2 None [] empty_bin [] true (Some 7%nat) None) 7%nat);
    [reflexivity|reflexivity|reflexivity|reflexivity|exact Hforeign].
Defined.

(** [firmware_update -fx]: the flag x is unknown. *)
Lemma main_rejects_unknown_flag_witness :
  let argv := ["firmware_update"; "-fx"]%string in
  let s := boot (world 2 []) in
  Exists unknown_flag (getopt_ext 2 argv "d:efu") /\
  exists s',
    main 2 argv s = Returns (-1, s') /\
    new_calls s s' = [] /\
    new_out s s' = [(Stdout, usage)] /\
    st_plat s' = st_plat s /\ st_heap s' = st_heap s /\ st_files s' = st_files s.
Proof.
  cbv zeta.
  assert (Hsome : Exists unknown_flag
                    (getopt_ext (S := World) 2 ["firmware_update"; "-fx"]%string "d:efu"))
    by (apply Exists_cons_tl, Exists_cons_hd; reflexivity).
  split; [exact Hsome|].
  apply (main_rejects_unknown_flag 2 ["firmware_update"; "-fx"]%string (boot (world 2 []))).
  exact Hsome.
Defined.
